(** * arras4_node: session lifecycle, HTTP ban list and in-host router

    A shallow embedding of the parts of the node agent and of its router
    that carry the behavioural contract of the system:

    - [Computation], [Session], [ArrasController], [ArrasSessions]
      (src/lib/session): the per-session operation state machine, the
      configuration delta of a modify, signals, and session creation;
    - [BanList], [UrlRouter] (src/cmd/node): the ban list of the HTTP
      front end;
    - [PeerManager], [RouteMessage], [NodeRouter] (src/cmd/node/router):
      the peer registry, message routing and the connect filters.

    Mutex-protected critical sections are modelled as atomic state
    transformers; a thread started by an operation is recorded in the state
    and runs to completion in a later step.  Blocking waits take their outcome
    from an explicit environment. *)

From Stdlib Require Import ZArith NArith Lia Ascii.
From stdpp Require Import base option list strings gmap fin_maps sorting.

Local Open Scope string_scope.
Local Open Scope list_scope.

(** ** Identifiers and constants of the libraries the node is built on *)

(** Modelled from the spec: [api::UUID] (message_api) is not part of the
    sources.  An id is a 128-bit value, the null id is the zero value, and ids
    are compared numerically. *)
Abbreviation uuid := N.

Module UUID.

Definition null : uuid := 0%N.

Definition isNull (u : uuid) : bool := (u =? null)%N.

Definition valid (u : uuid) : bool := negb (isNull u).

Definition ltb (a b : uuid) : bool := (a <? b)%N.

End UUID.

(** Modelled from the spec: the HTTP status codes of http/http_types.h. *)
Definition HTTP_OK : Z := 200.
Definition HTTP_NOT_FOUND : Z := 404.
Definition HTTP_RESOURCE_CONFLICT : Z := 409.
Definition HTTP_TOO_MANY_REQUESTS : Z := 429.
Definition HTTP_INTERNAL_SERVER_ERROR : Z := 500.

(** [OperationError] / [SessionError]: a detail text and an HTTP code, the
    code defaulting to 500. *)
Record SessionError := mkSessionError {
  text : string;
  httpCode : Z
}.

Definition SessionError_default (detail : string) : SessionError :=
  mkSessionError detail 500.

(** Outcome of a call that may throw. *)
Inductive outcome (A : Type) :=
| Returned (a : A)
| Threw (e : SessionError).
Arguments Returned {A} a.
Arguments Threw {A} e.

Definition threw {A} (o : outcome A) : bool :=
  match o with Threw _ => true | Returned _ => false end.

Definition threwCode {A} (o : outcome A) : option Z :=
  match o with Threw e => Some (httpCode e) | Returned _ => None end.

(** ** Iteration over a [std::map]

    A [std::map<UUID,V>] is a [gmap]; a range-for over it visits the entries
    by ascending key. *)

Definition key_le {V} (a b : uuid * V) : Prop := (a.1 ≤ b.1)%N.

#[global] Instance key_le_dec {V} : RelDecision (@key_le V).
Proof. intros a b. unfold key_le. apply _. Defined.

Definition map_iter {V} (m : gmap N V) : list (uuid * V) :=
  merge_sort key_le (map_to_list m).

(** ** Computations (src/lib/session/Computation.cc) *)

(** Modelled from the spec: [impl::Process] (execute library) is not part of
    the sources; its state machine is
    NotSpawned -> Spawned -> Terminating -> Exited. *)
Inductive ProcessState := NotSpawned | Spawned | Terminating | Exited.

#[global] Instance ProcessState_eq_dec : EqDecision ProcessState.
Proof. solve_decision. Defined.

(** The object passed to a signal: its "status" member when that is a string,
    its "routing" member (the client addresser rules) when present, and
    whatever else the coordinator put into it. *)
Record SignalData := mkSignalData {
  sd_status : option string;
  sd_routing : option string;
  sd_rest : string
}.

#[global] Instance SignalData_eq_dec : EqDecision SignalData.
Proof. solve_decision. Defined.

(** Calls a session makes on the process manager and on the controller, in
    the order they are made. *)
Inductive Action :=
| ProcessSpawn (comp : uuid)
| ProcessTerminate (comp : uuid)
| ProcessWait (comp : uuid)
| ProcessSigstop (comp : uuid)
| SendControl (comp sess : uuid) (command : string) (data : SignalData)
| UpdateSession (sess : uuid) (data : SignalData)
| SignalEngineReady (sess : uuid)
| ShutdownSession (sess : uuid) (reason : string)
| SessionOperationFailed (sess : uuid) (opname message : string).

#[global] Instance Action_eq_dec : EqDecision Action.
Proof. solve_decision. Defined.

Module Computation.

Record t := mk {
  id : uuid;
  name : string;
  state : ProcessState;
  mSentGo : bool;
  mTerminationExpected : bool
}.

Definition set_state (st : ProcessState) (c : t) : t :=
  mk (id c) (name c) st (mSentGo c) (mTerminationExpected c).

Definition set_mSentGo (b : bool) (c : t) : t :=
  mk (id c) (name c) (state c) b (mTerminationExpected c).

Definition set_mTerminationExpected (b : bool) (c : t) : t :=
  mk (id c) (name c) (state c) (mSentGo c) b.

(** [Computation::Computation]: a process object that is not spawned yet. *)
Definition new (compId : uuid) (compName : string) : t :=
  mk compId compName NotSpawned false false.

(** [Computation::start]; [spawned] is whether [Process::spawn] succeeds. *)
Definition start (spawned : bool) (c : t) : bool * t * list Action :=
  if spawned
  then (true, set_mTerminationExpected false (set_state Spawned c),
        [ProcessSpawn (id c)])
  else (false, c, [ProcessSpawn (id c)]).

(** [Process::terminate(false)]: a spawned process starts terminating. *)
Definition terminate (c : t) : t :=
  match state c with
  | Spawned => set_state Terminating c
  | _ => c
  end.

(** [Computation::shutdown] *)
Definition shutdown (c : t) : unit * t * list Action :=
  (tt, terminate (set_mTerminationExpected true c), [ProcessTerminate (id c)]).

(** [Computation::waitUntilShutdown]; [exits] is whether the process is gone
    by the deadline. *)
Definition waitUntilShutdown (exits : bool) (c : t) : bool * t * list Action :=
  if exits then (true, set_state Exited c, [ProcessWait (id c)])
  else (false, c, [ProcessWait (id c)]).

(** [Computation::signal] *)
Definition signal (sessionId : uuid) (autoSuspend : bool)
    (signalData : SignalData) (c : t) : unit * t * list Action :=
  let status := default "" (sd_status signalData) in
  if bool_decide (status = "run") && bool_decide (state c = Spawned) then
    if mSentGo c then
      (tt, c, [SendControl (id c) sessionId "update" signalData])
    else
      (tt, set_mSentGo true c,
       SendControl (id c) sessionId "go" signalData ::
       (if autoSuspend then [ProcessSigstop (id c)] else []))
  else (tt, c, []).

#[global] Instance t_eq_dec : EqDecision t.
Proof. solve_decision. Defined.

End Computation.

(** ** Session configuration (src/lib/session/SessionConfig.h) *)

Record SessionConfig := mkSessionConfig {
  sessionId : uuid;
  nodeId : uuid;
  logLevel : Z;                       (* -1 means "not set" *)
  isThisEntryNode : bool;
  getComputations : gmap N string;    (* computations on this node: id -> name *)
  definitions : gmap string string;   (* name -> context name, "" for none *)
  contexts : gmap string unit;
  getRouting : string;                (* the "routing" object, as text *)
  getResponse : gmap string (uuid * uuid)   (* name -> (compId, nodeId) *)
}.

(** The description object sent by the coordinator, as far as
    [SessionConfig::SessionConfig] looks into it: a member is [None] when it
    is missing or does not have the JSON type the constructor asks for. *)
Record CompInfo := mkCompInfo {
  ci_nodeId : option uuid;
  ci_compId : option uuid
}.

Record NodeConfig := mkNodeConfig {
  nc_computations : option (gmap string string);
  nc_sessionId : option uuid;
  nc_contexts : option (gmap string unit);
  nc_logLevel : option Z
}.

Record SessionRouting := mkSessionRouting {
  sr_computations : option (list (string * option CompInfo));
  sr_entry : gmap N bool              (* nodes[<node>]["entry"] when a bool *)
}.

Record SessionDesc := mkSessionDesc {
  desc_config : gmap N NodeConfig;                (* <nodeid> -> "config" *)
  desc_routing : option (gmap N SessionRouting);  (* "routing": <sessionId> -> ... *)
  desc_routingText : string
}.

(** The loop of the constructor over the computation list. *)
Fixpoint collectComputations (thisNode : uuid)
    (comps : list (string * option CompInfo))
    (acc : gmap N string * gmap string (uuid * uuid))
    : string + gmap N string * gmap string (uuid * uuid) :=
  match comps with
  | [] => inr acc
  | (compName, info) :: rest =>
      match info with
      | Some (mkCompInfo (Some compNode) (Some compId)) =>
          if bool_decide (thisNode = compNode) then
            if UUID.isNull compId
            then inl "Session definition has invalid entry in computation list"
            else collectComputations thisNode rest
                   (<[compId := compName]> acc.1,
                    <[compName := (compId, thisNode)]> acc.2)
          else collectComputations thisNode rest acc
      | _ => inl "Session definition has invalid computation list"
      end
  end.

(** [SessionConfig::SessionConfig]: the config, or the text of the
    [std::runtime_error] it throws. *)
Definition SessionConfig_new (desc : SessionDesc) (thisNode : uuid)
    : string + SessionConfig :=
  let nodeConfig := desc_config desc !! thisNode in
  match nodeConfig ≫= nc_computations with
  | None => inl "Session definition has no config object for this node"
  | Some defs =>
  match nodeConfig ≫= nc_sessionId with
  | None => inl "Session definition has no session id"
  | Some sid =>
  let ctxs := default ∅ (nodeConfig ≫= nc_contexts) in
  let level := default (-1)%Z (nodeConfig ≫= nc_logLevel) in
  match desc_routing desc with
  | None => inl "Session definition has no routing object"
  | Some routing =>
  match (routing !! sid) ≫= sr_computations with
  | None => inl "Session definition has no computation list"
  | Some comps =>
  match collectComputations thisNode comps (∅, ∅) with
  | inl what => inl what
  | inr (computations, response) =>
      let entry := default false ((routing !! sid) ≫= (λ r, sr_entry r !! thisNode)) in
      inr (mkSessionConfig sid thisNode level entry computations defs ctxs
                           (desc_routingText desc) response)
  end end end end end.

(** What the parts of [startNewComputation] that leave the process (the
    packaging system, the file system, the process manager) come back with. *)
Inductive Launch :=
| LaunchOk
| PackagingFails (what : string)
| SaveConfigFails
| ProcessObjectFails
| SpawnFails.

Record Env := mkEnv {
  exitsInTime : uuid → bool;       (* the process is gone within 30 s *)
  launch : uuid → Launch;
  operationCompletesInTime : bool  (* the running operation ends within 30 s *)
}.

(** ** Sessions (src/lib/session/Session.cc) *)

Module Session.

Inductive SessionState := Free | Busy | Defunct.

#[global] Instance SessionState_eq_dec : EqDecision SessionState.
Proof. solve_decision. Defined.

(** The body the operation thread was started with. *)
Inductive Operation :=
| UpdateOp (newConfig : SessionConfig)
| DeleteOp (reason : string).

Record t := mk {
  mId : uuid;
  mNodeId : uuid;
  defLogLevel : Z;                 (* mComputationDefaults.logLevel *)
  autoSuspend : bool;              (* mComputationDefaults.autoSuspend *)
  mLogLevel : Z;
  mState : SessionState;
  mDeleteReason : string;
  mShuttingDown : bool;
  mOperationThread : option Operation;   (* a thread that has not finished *)
  mComputations : gmap N Computation.t;
  mExpirationSet : bool;
  actions : list Action
}.

Definition set_mLogLevel (l : Z) (s : t) : t :=
  mk (mId s) (mNodeId s) (defLogLevel s) (autoSuspend s) l (mState s)
     (mDeleteReason s) (mShuttingDown s) (mOperationThread s)
     (mComputations s) (mExpirationSet s) (actions s).

Definition set_mState (st : SessionState) (s : t) : t :=
  mk (mId s) (mNodeId s) (defLogLevel s) (autoSuspend s) (mLogLevel s) st
     (mDeleteReason s) (mShuttingDown s) (mOperationThread s)
     (mComputations s) (mExpirationSet s) (actions s).

Definition set_mDeleteReason (r : string) (s : t) : t :=
  mk (mId s) (mNodeId s) (defLogLevel s) (autoSuspend s) (mLogLevel s)
     (mState s) r (mShuttingDown s) (mOperationThread s)
     (mComputations s) (mExpirationSet s) (actions s).

Definition set_mShuttingDown (b : bool) (s : t) : t :=
  mk (mId s) (mNodeId s) (defLogLevel s) (autoSuspend s) (mLogLevel s)
     (mState s) (mDeleteReason s) b (mOperationThread s)
     (mComputations s) (mExpirationSet s) (actions s).

Definition set_mOperationThread (o : option Operation) (s : t) : t :=
  mk (mId s) (mNodeId s) (defLogLevel s) (autoSuspend s) (mLogLevel s)
     (mState s) (mDeleteReason s) (mShuttingDown s) o
     (mComputations s) (mExpirationSet s) (actions s).

Definition set_mComputations (m : gmap N Computation.t) (s : t) : t :=
  mk (mId s) (mNodeId s) (defLogLevel s) (autoSuspend s) (mLogLevel s)
     (mState s) (mDeleteReason s) (mShuttingDown s) (mOperationThread s)
     m (mExpirationSet s) (actions s).

Definition set_mExpirationSet (b : bool) (s : t) : t :=
  mk (mId s) (mNodeId s) (defLogLevel s) (autoSuspend s) (mLogLevel s)
     (mState s) (mDeleteReason s) (mShuttingDown s) (mOperationThread s)
     (mComputations s) b (actions s).

Definition emit (acts : list Action) (s : t) : t :=
  mk (mId s) (mNodeId s) (defLogLevel s) (autoSuspend s) (mLogLevel s)
     (mState s) (mDeleteReason s) (mShuttingDown s) (mOperationThread s)
     (mComputations s) (mExpirationSet s) (actions s ++ acts).

(** [Session::Session] *)
Definition new (sessionId nodeId : uuid) (defLogLevel : Z) (autoSuspend : bool) : t :=
  mk sessionId nodeId defLogLevel autoSuspend 3 Free "Not Deleted" false None
     ∅ false [].

(** A call through a [Computation::Ptr] held in [mComputations]: the object
    in the map is the one that changes. *)
Definition onComputation {R} (f : Computation.t → R * Computation.t * list Action)
    (dflt : R) (compId : uuid) (s : t) : R * t :=
  match mComputations s !! compId with
  | Some c =>
      let '(r, c', acts) := f c in
      (r, emit acts (set_mComputations (<[compId := c']> (mComputations s)) s))
  | None => (dflt, s)
  end.

Definition isActive (s : t) : bool := bool_decide (mState s ≠ Defunct).

(** [Session::checkIsFree] *)
Definition checkIsFree (s : t) : outcome unit :=
  match mState s with
  | Busy => Threw (mkSessionError "Session is busy" HTTP_RESOURCE_CONFLICT)
  | Defunct => Threw (mkSessionError "Session is defunct" HTTP_RESOURCE_CONFLICT)
  | Free => Returned tt
  end.

(** [Session::signalAll] *)
Definition signalAll (signalData : SignalData) (s : t) : t :=
  let sessionId := mId s in
  let suspend := autoSuspend s in
  foldl (λ s compId,
           (onComputation (Computation.signal sessionId suspend signalData)
                          tt compId s).2)
        s (map_iter (mComputations s)).*1.

(** [Session::signal] *)
Definition signal (signalData : SignalData) (s : t) : outcome unit * t :=
  match checkIsFree s with
  | Threw e => (Threw e, s)
  | Returned _ =>
      let status := default "" (sd_status signalData) in
      if bool_decide (status = "run") then
        let s := signalAll signalData s in
        (Returned tt,
         match sd_routing signalData with
         | Some _ => emit [UpdateSession (mId s) signalData] s
         | None => s
         end)
      else if bool_decide (status = "engineReady") then
        (Returned tt, emit [SignalEngineReady (mId s)] s)
      else (Returned tt, s)
  end.

(** [Session::asyncUpdateConfig].  Joining the previous operation thread is a
    no-op: a session that is Free has no unfinished thread. *)
Definition asyncUpdateConfig (newConfig : SessionConfig) (s : t) : outcome unit * t :=
  if bool_decide (mId s ≠ sessionId newConfig) then
    (Threw (SessionError_default "Config session id did not match session object."), s)
  else if bool_decide (mNodeId s ≠ nodeId newConfig) then
    (Threw (SessionError_default "Config node id did not match session object."), s)
  else if mShuttingDown s then
    (Threw (SessionError_default "Session is shutting down"), s)
  else match mState s with
  | Busy =>
      (Threw (mkSessionError "Session is busy and cannot be modified"
                             HTTP_RESOURCE_CONFLICT), s)
  | Defunct =>
      (Threw (mkSessionError "Session is defunct and cannot be modified"
                             HTTP_RESOURCE_CONFLICT), s)
  | Free =>
      (Returned tt,
       set_mOperationThread (Some (UpdateOp newConfig)) (set_mState Busy s))
  end.

(** [Session::asyncDelete] *)
Definition asyncDelete (reason : string) (s : t) : outcome unit * t :=
  if mShuttingDown s then
    (Threw (SessionError_default "Session is shutting down"), s)
  else match mState s with
  | Busy =>
      (Threw (mkSessionError "Session is busy and cannot be deleted"
                             HTTP_RESOURCE_CONFLICT), s)
  | Defunct =>
      (Threw (mkSessionError "Session is defunct and cannot be deleted"
                             HTTP_RESOURCE_CONFLICT), s)
  | Free =>
      (Returned tt,
       set_mOperationThread (Some (DeleteOp reason)) (set_mState Busy s))
  end.

(** [Session::getConfigDelta]: the existing computations that are not in the
    new config (as they are met going through [mComputations]), and the
    computations of the config that do not exist yet. *)
Definition getConfigDelta (newConfig : SessionConfig) (s : t)
    : list uuid * gmap N string :=
  let configComps := getComputations newConfig in
  let newComps :=
    filter (λ kv : uuid * string, mComputations s !! kv.1 = None) configComps in
  let defunctComps :=
    (filter (λ kv : uuid * Computation.t, configComps !! kv.1 = None)
            (map_iter (mComputations s))).*1 in
  (defunctComps, newComps).

(** [Session::startNewComputation] *)
Definition startNewComputation (env : Env) (compId : uuid) (compName : string)
    (sessConfig : SessionConfig) (s : t) : outcome unit * t :=
  match definitions sessConfig !! compName with
  | None => (Threw (SessionError_default ("Missing definition for " +:+ compName)), s)
  | Some contextName =>
      if bool_decide (contextName ≠ "") &&
         bool_decide (contexts sessConfig !! contextName = None)
      then (Threw (SessionError_default ("Missing named context for " +:+ compName)), s)
      else match launch env compId with
      | PackagingFails what =>
          (Threw (SessionError_default
                    ("Cannot start computation " +:+ compName +:+ " : " +:+ what)), s)
      | SaveConfigFails =>
          (Threw (SessionError_default
                    ("Cannot start computation " +:+ compName +:+
                     " : failed to save config file")), s)
      | ProcessObjectFails =>
          (Threw (SessionError_default "Failed to create Process object"), s)
      | SpawnFails =>
          let '(_, _, acts) := Computation.start false (Computation.new compId compName) in
          (Threw (SessionError_default ("Cannot start computation " +:+ compName)),
           emit acts s)
      | LaunchOk =>
          let '(_, c, acts) := Computation.start true (Computation.new compId compName) in
          (Returned tt,
           set_mComputations (<[compId := c]> (mComputations s)) (emit acts s))
      end
  end.

(** The loop of [applyNewConfig] that waits for the defunct computations. *)
Fixpoint waitForShutdown (env : Env) (comps : list uuid) (s : t) : outcome unit * t :=
  match comps with
  | [] => (Returned tt, s)
  | compId :: rest =>
      let '(didShutdown, s) :=
        onComputation (Computation.waitUntilShutdown (exitsInTime env compId))
                      true compId s in
      if didShutdown then waitForShutdown env rest s
      else (Threw (SessionError_default
                     "Computations did not shutdown within timeout."), s)
  end.

(** The loop of [applyNewConfig] that starts the new computations. *)
Fixpoint startAll (env : Env) (newConfig : SessionConfig)
    (newComps : list (uuid * string)) (s : t) : outcome unit * t :=
  match newComps with
  | [] => (Returned tt, s)
  | (compId, compName) :: rest =>
      match startNewComputation env compId compName newConfig s with
      | (Threw e, s) => (Threw e, s)
      | (Returned _, s) => startAll env newConfig rest s
      end
  end.

(** [Session::applyNewConfig] *)
Definition applyNewConfig (env : Env) (newConfig : SessionConfig) (s : t)
    : outcome unit * t :=
  let s := set_mLogLevel (if (0 <=? logLevel newConfig)%Z then logLevel newConfig
                          else defLogLevel s) s in
  let '(defunctComps, newComps) := getConfigDelta newConfig s in
  let s := foldl (λ s compId, (onComputation Computation.shutdown tt compId s).2)
                 s defunctComps in
  match waitForShutdown env defunctComps s with
  | (Threw e, s) => (Threw e, s)
  | (Returned _, s) => startAll env newConfig (map_iter newComps) s
  end.

(** [Session::updateProc] *)
Definition updateProc (env : Env) (newConfig : SessionConfig) (s : t) : t :=
  let s :=
    match applyNewConfig env newConfig s with
    | (Threw e, s) => emit [SessionOperationFailed (mId s) "create/modify" (text e)] s
    | (Returned _, s) => s
    end in
  if bool_decide (mState s = Busy) then set_mState Free s else s.

(** [Session::deleteProc] *)
Definition deleteProc (env : Env) (reason : string) (s : t) : t :=
  let comps := (map_iter (mComputations s)).*1 in
  let s := foldl (λ s compId, (onComputation Computation.shutdown tt compId s).2)
                 s comps in
  let s := foldl (λ s compId,
                    (onComputation
                       (Computation.waitUntilShutdown (exitsInTime env compId))
                       true compId s).2)
                 s comps in
  let s := emit [ShutdownSession (mId s) reason] s in
  set_mDeleteReason reason (set_mState Defunct s).

(** The operation thread running its body to the end. *)
Definition operationThread (env : Env) (s : t) : t :=
  match mOperationThread s with
  | Some (UpdateOp newConfig) =>
      set_mOperationThread None (updateProc env newConfig s)
  | Some (DeleteOp reason) =>
      set_mOperationThread None (deleteProc env reason s)
  | None => s
  end.

(** [Session::syncShutdown]: waits for the running operation, bounded by
    WAIT_FOR_SHUTDOWN_TIMEOUT, then runs [deleteProc] on the caller's thread. *)
Definition syncShutdown (env : Env) (reason : string) (s : t) : outcome unit * t :=
  let s := set_mShuttingDown true s in
  if bool_decide (mState s = Busy) then
    if operationCompletesInTime env then
      let s := operationThread env s in
      if bool_decide (mState s = Busy)
      then (Threw (SessionError_default "Session shutdown took too long"), s)
      else (Returned tt, deleteProc env reason s)
    else (Threw (SessionError_default "Session shutdown took too long"), s)
  else (Returned tt, deleteProc env reason s).

(** What can happen to a session: the calls of its public interface and the
    operation thread finishing. *)
Inductive Call :=
| CallUpdateConfig (newConfig : SessionConfig)
| CallDelete (reason : string)
| CallShutdown (env : Env) (reason : string)
| CallSignal (signalData : SignalData)
| ThreadFinishes (env : Env).

Definition step (c : Call) (s : t) : outcome unit * t :=
  match c with
  | CallUpdateConfig newConfig => asyncUpdateConfig newConfig s
  | CallDelete reason => asyncDelete reason s
  | CallShutdown env reason => syncShutdown env reason s
  | CallSignal signalData => signal signalData s
  | ThreadFinishes env => (Returned tt, operationThread env s)
  end.

Definition run (calls : list Call) (s : t) : t :=
  foldl (λ s c, (step c s).2) s calls.

End Session.

(** ** The controller's side of session creation
    (src/lib/session/ArrasController.cc) *)

Module ArrasController.

(** What the controller sends to the router when a session is set up. *)
Inductive Sent :=
| SessionRoutingInitialize (sess : uuid) (routing : string).

Record t := mk {
  mRouterHasRoutingData : gmap N bool;
  sent : list Sent
}.

Definition new : t := mk ∅ [].

(** Milliseconds to wait for the router's acknowledgement. *)
Definition WAIT_FOR_ROUTER_HAS_ROUTING : Z := 10000.

(** [ArrasController::handleMessage] on a [SessionRoutingDataMessage] whose
    action is Acknowledge. *)
Definition handleAcknowledge (sess : uuid) (c : t) : t :=
  mk (<[sess := true]> (mRouterHasRoutingData c)) (sent c).

(** [ArrasController::initializeSession].  [ackAfter] is the time, in
    milliseconds after the message is sent, at which the dispatcher thread
    handles the router's acknowledgement ([None] if it never does).  The
    result is the return value, the time spent waiting and the new state. *)
Definition initializeSession (ackAfter : option Z) (config : SessionConfig) (c : t)
    : bool * Z * t :=
  let sess := sessionId config in
  let sent' := sent c ++ [SessionRoutingInitialize sess (getRouting config)] in
  if default false (mRouterHasRoutingData c !! sess) then
    (true, 0%Z, mk (mRouterHasRoutingData c) sent')
  else
    match ackAfter with
    | Some ms =>
        if (ms <? WAIT_FOR_ROUTER_HAS_ROUTING)%Z
        then (true, Z.max 0 ms, mk (<[sess := true]> (mRouterHasRoutingData c)) sent')
        else (false, WAIT_FOR_ROUTER_HAS_ROUTING,
              mk (<[sess := false]> (mRouterHasRoutingData c)) sent')
    | None =>
        (false, WAIT_FOR_ROUTER_HAS_ROUTING,
         mk (<[sess := false]> (mRouterHasRoutingData c)) sent')
    end.

End ArrasController.

(** ** The session manager (src/lib/session/ArrasSessions.cc) *)

Module ArrasSessions.

Record t := mk {
  mNodeId : uuid;
  defLogLevel : Z;                 (* mDefaults.logLevel *)
  autoSuspend : bool;              (* mDefaults.autoSuspend *)
  mClosed : bool;
  mSessions : gmap N Session.t;
  mController : ArrasController.t;
  now : Z                          (* milliseconds *)
}.

Definition set_mClosed (b : bool) (a : t) : t :=
  mk (mNodeId a) (defLogLevel a) (autoSuspend a) b (mSessions a)
     (mController a) (now a).

Definition set_mSessions (m : gmap N Session.t) (a : t) : t :=
  mk (mNodeId a) (defLogLevel a) (autoSuspend a) (mClosed a) m
     (mController a) (now a).

Definition set_mController (c : ArrasController.t) (a : t) : t :=
  mk (mNodeId a) (defLogLevel a) (autoSuspend a) (mClosed a) (mSessions a)
     c (now a).

Definition advance (ms : Z) (a : t) : t :=
  mk (mNodeId a) (defLogLevel a) (autoSuspend a) (mClosed a) (mSessions a)
     (mController a) (now a + ms).

Definition new (nodeId : uuid) (defLogLevel : Z) (autoSuspend : bool) : t :=
  mk nodeId defLogLevel autoSuspend false ∅ ArrasController.new 0.

(** What [createSession] and [modifySession] come back with: the response
    object, a [SessionError], or the [std::runtime_error] of the config. *)
Inductive result :=
| Response (r : gmap string (uuid * uuid))
| Error (e : SessionError)
| ConfigError (what : string).

Definition getSession (id : uuid) (a : t) : option Session.t := mSessions a !! id.

(** [ArrasSessions::activeSessionIds] *)
Definition activeSessionIds (a : t) : list uuid :=
  (filter (λ kv : uuid * Session.t, Session.isActive kv.2 = true)
          (map_iter (mSessions a))).*1.

(** [ArrasSessions::createSession] *)
Definition createSession (ackAfter : option Z) (definition : SessionDesc) (a : t)
    : result * t :=
  if mClosed a then
    (Error (mkSessionError "Node is closed : cannot accept new sessions"
                           HTTP_RESOURCE_CONFLICT), a)
  else match SessionConfig_new definition (mNodeId a) with
  | inl what => (ConfigError what, a)
  | inr config =>
      let id := sessionId config in
      match mSessions a !! id with
      | Some _ =>
          (Error (mkSessionError "Session already exists" HTTP_RESOURCE_CONFLICT), a)
      | None =>
          let session := Session.new id (mNodeId a) (defLogLevel a) (autoSuspend a) in
          let a := set_mSessions (<[id := session]> (mSessions a)) a in
          let '(ok, waited, c) :=
            ArrasController.initializeSession ackAfter config (mController a) in
          let a := advance waited (set_mController c a) in
          if negb ok then
            (Error (mkSessionError "Failed to initialize session with node router"
                                   HTTP_INTERNAL_SERVER_ERROR),
             set_mSessions (delete id (mSessions a)) a)
          else
            let session :=
              if isThisEntryNode config then Session.set_mExpirationSet true session
              else session in
            match Session.asyncUpdateConfig config session with
            | (Threw e, _) => (Error e, set_mSessions (delete id (mSessions a)) a)
            | (Returned _, session) =>
                (Response (getResponse config),
                 set_mSessions (<[id := session]> (mSessions a)) a)
            end
      end
  end.

(** [ArrasSessions::modifySession] *)
Definition modifySession (definition : SessionDesc) (a : t) : result * t :=
  if mClosed a then
    (Error (mkSessionError "Node is closed : cannot modify sessions"
                           HTTP_RESOURCE_CONFLICT), a)
  else match SessionConfig_new definition (mNodeId a) with
  | inl what => (ConfigError what, a)
  | inr config =>
      let id := sessionId config in
      match mSessions a !! id with
      | None => (Error (mkSessionError "Session doesn't exist" HTTP_NOT_FOUND), a)
      | Some session =>
          match Session.asyncUpdateConfig config session with
          | (Threw e, _) => (Error e, a)
          | (Returned _, session) =>
              (Response (getResponse config),
               set_mSessions (<[id := session]> (mSessions a)) a)
          end
      end
  end.

(** [ArrasSessions::deleteSession]: the session stays in [mSessions]. *)
Definition deleteSession (id : uuid) (reason : string) (a : t) : outcome unit * t :=
  match mSessions a !! id with
  | None => (Threw (mkSessionError "Session doesn't exist" HTTP_NOT_FOUND), a)
  | Some session =>
      match Session.asyncDelete reason session with
      | (Threw e, _) => (Threw e, a)
      | (Returned _, session) =>
          (Returned tt, set_mSessions (<[id := session]> (mSessions a)) a)
      end
  end.

(** [ArrasSessions::signalSession] *)
Definition signalSession (id : uuid) (signalData : SignalData) (a : t)
    : outcome unit * t :=
  match mSessions a !! id with
  | None => (Threw (mkSessionError "Session does not exist" HTTP_NOT_FOUND), a)
  | Some session =>
      let '(r, session) := Session.signal signalData session in
      (r, set_mSessions (<[id := session]> (mSessions a)) a)
  end.

(** [ArrasSessions::shutdownAll]: a [SessionError] of a session is logged and
    the loop goes on. *)
Definition shutdownAll (env : Env) (reason : string) (a : t) : t :=
  let a := set_mClosed true a in
  foldl (λ a id,
           match mSessions a !! id with
           | Some session =>
               set_mSessions
                 (<[id := (Session.syncShutdown env reason session).2]> (mSessions a)) a
           | None => a
           end)
        a (map_iter (mSessions a)).*1.

(** The operation thread of session [id] runs to its end. *)
Definition operationThread (env : Env) (id : uuid) (a : t) : t :=
  set_mSessions (alter (Session.operationThread env) id (mSessions a)) a.

(** The dispatcher thread handles an acknowledgement of the router. *)
Definition handleAcknowledge (sess : uuid) (a : t) : t :=
  set_mController (ArrasController.handleAcknowledge sess (mController a)) a.

End ArrasSessions.

(** ** The ban list of the HTTP front end (src/cmd/node/BanList.cc) *)

Module BanList.

(** [count] is an [unsigned int]; [timeStamp] is a reading of
    [std::chrono::system_clock], in nanoseconds. *)
Record BanListEntry := mkEntry {
  count : Z;
  timeStamp : Z
}.

Record t := mk {
  mCountToBan : Z;
  mSecToUnBan : Z;
  mBanListMap : gmap string BanListEntry
}.

Definition UINT_MAX : Z := 4294967295.

(** [count++] on an [unsigned int]. *)
Definition incr (c : Z) : Z := ((c + 1) mod (UINT_MAX + 1))%Z.

(** [BanList::BanList], with its default arguments. *)
Definition new : t := mk 5 300 ∅.

Definition set_mBanListMap (m : gmap string BanListEntry) (bl : t) : t :=
  mk (mCountToBan bl) (mSecToUnBan bl) m.

(** [BanList::hasExpired]; [now] is the clock reading it takes. *)
Definition hasExpired (bl : t) (timeStamp now : Z) : bool :=
  (now - timeStamp >? mSecToUnBan bl * 1000000000)%Z.

(** [BanList::isBanned]; [nowExpired] is the clock reading of [hasExpired] and
    [nowBanned] the one stored when the ban starts. *)
Definition isBanned (sourceAddr : string) (nowExpired nowBanned : Z) (bl : t)
    : bool * t :=
  match mBanListMap bl !! sourceAddr with
  | None => (false, bl)
  | Some which =>
      if hasExpired bl (timeStamp which) nowExpired then
        (false, set_mBanListMap (delete sourceAddr (mBanListMap bl)) bl)
      else
        let which :=
          if (count which =? mCountToBan bl)%Z
          then mkEntry (incr (count which)) nowBanned
          else which in
        ((mCountToBan bl <=? count which)%Z,
         set_mBanListMap (<[sourceAddr := which]> (mBanListMap bl)) bl)
  end.

(** [BanList::track] *)
Definition track (sourceAddr : string) (now : Z) (bl : t) : t :=
  match mBanListMap bl !! sourceAddr with
  | None => set_mBanListMap (<[sourceAddr := mkEntry 1 now]> (mBanListMap bl)) bl
  | Some e =>
      set_mBanListMap (<[sourceAddr := mkEntry (incr (count e)) now]> (mBanListMap bl)) bl
  end.

(** [BanList::cleanup] *)
Definition cleanup (now : Z) (bl : t) : t :=
  set_mBanListMap
    (filter (λ kv : string * BanListEntry, hasExpired bl (timeStamp kv.2) now = false)
            (mBanListMap bl)) bl.

End BanList.

(** ** The URL router (src/cmd/node/UrlRouter.cc) *)

Module UrlRouter.

(** [urlrouter::split]: the elements of a path are its maximal runs of
    characters other than '/'. *)
Fixpoint splitFrom (current : string) (path : string) : list string :=
  match path with
  | EmptyString => if bool_decide (current = "") then [] else [current]
  | String c rest =>
      if Ascii.eqb c "/"%char then
        if bool_decide (current = "") then splitFrom "" rest
        else current :: splitFrom "" rest
      else splitFrom (current +:+ String c "") rest
  end.

Definition split (path : string) : list string := splitFrom "" path.

Section Router.
Context {H : Type}.

(** [urlrouter::Node] *)
#[warnings="-register-all"]
Inductive Node :=
| mkNode (mConstants : list (string * Node)) (mVariable : option Node)
         (mHandler : option H).

Definition mConstants (n : Node) := let 'mkNode c _ _ := n in c.
Definition mVariable (n : Node) := let 'mkNode _ v _ := n in v.
Definition mHandler (n : Node) := let 'mkNode _ _ h := n in h.

Definition emptyNode : Node := mkNode [] None None.

(** [std::map::find] on the constants of a node. *)
Fixpoint find (element : string) (constants : list (string * Node)) : option Node :=
  match constants with
  | [] => None
  | (k, n) :: rest => if bool_decide (k = element) then Some n else find element rest
  end.

(** Replace the node filed under [element], or file a new one. *)
Fixpoint store (element : string) (n : Node) (constants : list (string * Node))
    : list (string * Node) :=
  match constants with
  | [] => [(element, n)]
  | (k, n') :: rest =>
      if bool_decide (k = element) then (k, n) :: rest
      else (k, n') :: store element n rest
  end.

(** [Node::add] *)
Fixpoint add (elements : list string) (handler : H) (n : Node) : Node :=
  match elements with
  | [] => mkNode (mConstants n) (mVariable n) (Some handler)
  | element :: rest =>
      if bool_decide (element = "*") then
        mkNode (mConstants n)
               (Some (add rest handler (default emptyNode (mVariable n))))
               (mHandler n)
      else
        mkNode (store element
                      (add rest handler (default emptyNode (find element (mConstants n))))
                      (mConstants n))
               (mVariable n) (mHandler n)
  end.

(** [Node::handle]: the handler that is called, with the variables collected
    on the way, or [None] when the path is not mapped. *)
Fixpoint handleNode (elements : list string) (variables : list string) (n : Node)
    : option (H * list string) :=
  match elements with
  | [] => (λ h, (h, variables)) <$> mHandler n
  | element :: rest =>
      match find element (mConstants n) with
      | Some child => handleNode rest variables child
      | None =>
          match mVariable n with
          | Some child => handleNode rest (variables ++ [element]) child
          | None => None
          end
      end
  end.

Record Request := mkRequest {
  url : string;
  getClientAddress : option string
}.

Record t := mk {
  mRoot : Node;
  mUnmappedHandler : H;
  mBanList : option BanList.t
}.

Definition set_mBanList (bl : option BanList.t) (r : t) : t :=
  mk (mRoot r) (mUnmappedHandler r) bl.

(** [UrlRouter::add] *)
Definition addPath (path : string) (handler : H) (r : t) : t :=
  mk (add (split path) handler (mRoot r)) (mUnmappedHandler r) (mBanList r).

(** The clock readings taken while one request is handled. *)
Record Readings := mkReadings {
  atExpired : Z;
  atBanned : Z;
  atTracked : Z
}.

(** [UrlRouter::handle].  [respond] runs a handler and gives the response code
    it sets.  The result is the response code, the handler that ran (if any)
    and the router with its ban list. *)
Definition handle (respond : H → list string → Z) (clock : Readings)
    (aReq : Request) (r : t) : Z * option H * t :=
  let clientAddress := default "" (getClientAddress aReq) in
  let '(banned, banList) :=
    match mBanList r, getClientAddress aReq with
    | Some bl, Some addr =>
        let '(b, bl) := BanList.isBanned addr (atExpired clock) (atBanned clock) bl in
        (b, Some bl)
    | bl, _ => (false, bl)
    end in
  if banned then (HTTP_TOO_MANY_REQUESTS, None, set_mBanList banList r)
  else
    match handleNode (split (url aReq)) [] (mRoot r) with
    | Some (h, variables) => (respond h variables, Some h, set_mBanList banList r)
    | None =>
        let code := respond (mUnmappedHandler r) [] in
        let banList :=
          match banList with
          | Some bl =>
              if bool_decide (clientAddress ≠ "") && (code =? HTTP_NOT_FOUND)%Z
              then Some (BanList.track clientAddress (atTracked clock) bl)
              else Some bl
          | None => None
          end in
        (code, Some (mUnmappedHandler r), set_mBanList banList r)
    end.

End Router.
Arguments Node : clear implicits.
Arguments t : clear implicits.

End UrlRouter.

(** ** The GET router of the node service (src/cmd/node/NodeService.cc) *)

Module NodeService.

Inductive Endpoint :=
| GET_health | GET_status | GET_sessions
| GET_sessionStatus | GET_sessionPerformance
| GET_unhandled.

(** The GET router as the constructor of [NodeService] sets it up. *)
Definition mGetRouter (useBanlist : bool) : UrlRouter.t Endpoint :=
  UrlRouter.addPath "favicon.ico" GET_unhandled
  (UrlRouter.addPath "node/1/sessions/*/performance" GET_sessionPerformance
  (UrlRouter.addPath "node/1/sessions/*/status" GET_sessionStatus
  (UrlRouter.addPath "node/1/sessions" GET_sessions
  (UrlRouter.addPath "node/1/status" GET_status
  (UrlRouter.addPath "node/1/health" GET_health
  (UrlRouter.mk UrlRouter.emptyNode GET_unhandled
                (if useBanlist then Some BanList.new else None))))))).

(** The response code a handler sets; [serve] stands for the handlers that
    look at the node and its sessions. *)
Definition respond (serve : Endpoint → list string → Z)
    (h : Endpoint) (variables : list string) : Z :=
  match h with
  | GET_unhandled => HTTP_NOT_FOUND
  | _ => serve h variables
  end.

End NodeService.

(** ** The router: envelopes, endpoints and the peer registry
    (src/cmd/node/router) *)

Record Address := mkAddress {
  session : uuid;
  node : uuid;
  computation : uuid
}.

#[global] Instance Address_eq_dec : EqDecision Address.
Proof. solve_decision. Defined.

(** What an envelope carries, as far as the router tells contents apart. *)
Inductive Content :=
| ApplicationMessage (payload : N)
| ClientConnectionStatus (sess : uuid) (reason : string)
| ComputationStatusMessage (sess comp : uuid) (status : string)
| RouterInfoMessage (messagePort : Z)
| SessionStatusMessage (status : string).

#[global] Instance Content_eq_dec : EqDecision Content.
Proof. solve_decision. Defined.

Record Envelope := mkEnvelope {
  content : Content;
  to : list Address
}.

#[global] Instance Envelope_eq_dec : EqDecision Envelope.
Proof. solve_decision. Defined.

(** [SessionNodeMap::NodeInfo] *)
Record NodeInfo := mkNodeInfo {
  ni_nodeId : uuid;
  hostname : string;
  ip : string;
  port : Z
}.

#[global] Instance NodeInfo_eq_dec : EqDecision NodeInfo.
Proof. solve_decision. Defined.

(** [SessionNodeMap] *)
Record SessionNodeMap := mkSessionNodeMap {
  mEntryNodeId : uuid;
  mMap : gmap N NodeInfo
}.

(** [SessionRoutingData]; [isEntryNode] is [mClientAddresser != nullptr]. *)
Record SessionRoutingData := mkSessionRoutingData {
  rd_sessionId : uuid;
  rd_nodeId : uuid;
  isEntryNode : bool;
  nodeMap : SessionNodeMap
}.

(** [SessionRoutingData::SessionRoutingData]: the client addresser exists on
    the entry node only. *)
Definition SessionRoutingData_new (aSessionId aNodeId : uuid) (nodes : SessionNodeMap)
    : SessionRoutingData :=
  mkSessionRoutingData aSessionId aNodeId
    (bool_decide (aNodeId = mEntryNodeId nodes)) nodes.

(** [PeerManager::PeerType] *)
Inductive PeerType :=
| PEER_NONE | PEER_CLIENT | PEER_NODE | PEER_IPC | PEER_LISTENER | PEER_SERVICE.

#[global] Instance PeerType_eq_dec : EqDecision PeerType.
Proof. solve_decision. Defined.

(** The socket of an endpoint: one the listen server accepted (the remote
    side dialled), or one this router connected to the given host. *)
Inductive Peer :=
| Accepted (connection : N)
| Connected (host : NodeInfo).

#[global] Instance Peer_eq_dec : EqDecision Peer.
Proof. solve_decision. Defined.

Module RemoteEndpoint.

Record t := mk {
  mPeerType : PeerType;
  mUUID : uuid;
  mSessionId : uuid;
  mNodeInfo : option NodeInfo;
  mPeer : option Peer;
  mRoutingData : option uuid;     (* the session whose routing data it holds *)
  mReceiveThread : bool;          (* a receive thread was started *)
  connects : bool;                (* the send thread is [sendThreadWithConnect]
                                     and has not dialled yet *)
  mMessageQueue : list Envelope
}.

#[global] Instance t_eq_dec : EqDecision t.
Proof. solve_decision. Defined.

Definition set_mPeer (p : option Peer) (ep : t) : t :=
  mk (mPeerType ep) (mUUID ep) (mSessionId ep) (mNodeInfo ep) p
     (mRoutingData ep) (mReceiveThread ep) (connects ep) (mMessageQueue ep).

Definition set_connects (b : bool) (ep : t) : t :=
  mk (mPeerType ep) (mUUID ep) (mSessionId ep) (mNodeInfo ep) (mPeer ep)
     (mRoutingData ep) (mReceiveThread ep) b (mMessageQueue ep).

(** [RemoteEndpoint::queueEnvelope(envelope)].  The queue of an endpoint is
    shut down by its destructor only, so a push on an endpoint that is still
    referenced succeeds. *)
Definition queueEnvelope (anEnvelope : Envelope) (ep : t) : t :=
  mk (mPeerType ep) (mUUID ep) (mSessionId ep) (mNodeInfo ep) (mPeer ep)
     (mRoutingData ep) (mReceiveThread ep) (connects ep)
     (mMessageQueue ep ++ [anEnvelope]).

(** [RemoteEndpoint::queueEnvelope(envelope, aTo)] *)
Definition queueEnvelopeTo (anEnvelope : Envelope) (aTo : list Address) (ep : t) : t :=
  queueEnvelope (mkEnvelope (content anEnvelope) aTo) ep.

(** The constructor for an accepted socket.  [routing] is what the routing
    table has for [aSessionId]; the result is [None] when the constructor
    throws ("Missing routing data in RemoteEndpoint"). *)
Definition new (aPeer : N) (aType : PeerType) (aUuid aSessionId : uuid)
    (routing : option SessionRoutingData) : option t :=
  if UUID.valid aSessionId then
    match routing with
    | None => None
    | Some rd =>
        Some (mk aType aUuid aSessionId None (Some (Accepted aPeer))
                 (Some (rd_sessionId rd)) true false [])
    end
  else
    Some (mk aType aUuid aSessionId None (Some (Accepted aPeer)) None
             (bool_decide (aType = PEER_NODE) || bool_decide (aType = PEER_SERVICE))
             false []).

(** [RemoteEndpoint::createNodeRemoteEndpoint]: no socket yet; the send thread
    will dial [aNodeInfo]. *)
Definition createNodeRemoteEndpoint (aUUID : uuid) (aNodeInfo : NodeInfo) : t :=
  mk PEER_NODE aUUID UUID.null (Some aNodeInfo) None None true true [].

(** [RemoteEndpoint::setPeer]: only a node endpoint takes the socket. *)
Definition setPeer (aPeer : N) (ep : t) : t :=
  if bool_decide (mPeerType ep = PEER_NODE) then set_mPeer (Some (Accepted aPeer)) ep
  else ep.

(** The start of [RemoteEndpoint::sendThreadWithConnect]: the thread dials the
    other node and registers; the socket becomes the endpoint's own only when
    the other node has the lesser id, otherwise the thread waits for
    [setPeer]. *)
Definition sendThreadWithConnect (localNodeId : uuid) (ep : t) : t :=
  if connects ep && bool_decide (mPeerType ep = PEER_NODE) then
    match mNodeInfo ep with
    | Some info =>
        if UUID.ltb (mUUID ep) localNodeId
        then set_connects false (set_mPeer (Some (Connected info)) ep)
        else set_connects false ep
    | None => set_connects false ep
    end
  else ep.

End RemoteEndpoint.

(** *** The peer registry (src/cmd/node/router/PeerManager.cc)

    Every function of the registry holds [mMutex] from its first to its last
    statement, so each is one atomic step. *)

Module PeerManager.

Record t := mk {
  mClients : gmap N RemoteEndpoint.t;
  mNodes : gmap N RemoteEndpoint.t;
  mIpc : gmap N RemoteEndpoint.t;
  mPendingEnvelopes : gmap N (list Envelope)
}.

Definition new : t := mk ∅ ∅ ∅ ∅.

Definition set_mClients (m : gmap N RemoteEndpoint.t) (pm : t) : t :=
  mk m (mNodes pm) (mIpc pm) (mPendingEnvelopes pm).

Definition set_mNodes (m : gmap N RemoteEndpoint.t) (pm : t) : t :=
  mk (mClients pm) m (mIpc pm) (mPendingEnvelopes pm).

Definition set_mIpc (m : gmap N RemoteEndpoint.t) (pm : t) : t :=
  mk (mClients pm) (mNodes pm) m (mPendingEnvelopes pm).

Definition set_mPendingEnvelopes (m : gmap N (list Envelope)) (pm : t) : t :=
  mk (mClients pm) (mNodes pm) (mIpc pm) m.

(** [PeerManager::trackClient]: [mPendingEnvelopes[aId]] files an empty list
    when there is none; the list is read, not changed. *)
Definition trackClient (aId : uuid) (aPeer : RemoteEndpoint.t) (pm : t) : t :=
  let msgs := default [] (mPendingEnvelopes pm !! aId) in
  let aPeer := foldl (λ ep msg, RemoteEndpoint.queueEnvelope msg ep) aPeer msgs in
  mk (<[aId := aPeer]> (mClients pm)) (mNodes pm) (mIpc pm)
     (<[aId := msgs]> (mPendingEnvelopes pm)).

(** [PeerManager::trackNode] *)
Definition trackNode (aId : uuid) (aPeer : RemoteEndpoint.t) (pm : t) : t :=
  set_mNodes (<[aId := aPeer]> (mNodes pm)) pm.

(** [PeerManager::trackIpc] *)
Definition trackIpc (aId : uuid) (aPeer : RemoteEndpoint.t) (pm : t) : t :=
  set_mIpc (<[aId := aPeer]> (mIpc pm)) pm.

Definition findClientPeer (aId : uuid) (pm : t) : option RemoteEndpoint.t :=
  mClients pm !! aId.

Definition findNodePeer (aId : uuid) (pm : t) : option RemoteEndpoint.t :=
  mNodes pm !! aId.

Definition findIpcPeer (aId : uuid) (pm : t) : option RemoteEndpoint.t :=
  mIpc pm !! aId.

(** [PeerManager::stashEnvelope] *)
Definition stashEnvelope (aSessionId : uuid) (anEnvelope : Envelope) (pm : t) : t :=
  match mClients pm !! aSessionId with
  | Some ep =>
      set_mClients (<[aSessionId := RemoteEndpoint.queueEnvelope anEnvelope ep]>
                      (mClients pm)) pm
  | None =>
      set_mPendingEnvelopes
        (<[aSessionId := default [] (mPendingEnvelopes pm !! aSessionId) ++ [anEnvelope]]>
           (mPendingEnvelopes pm)) pm
  end.

(** [PeerManager::clearStashedEnvelopes] *)
Definition clearStashedEnvelopes (aSessionId : uuid) (pm : t) : t :=
  set_mPendingEnvelopes (delete aSessionId (mPendingEnvelopes pm)) pm.

(** The calls on the registry that concern the clients, as threads make them
    one after the other under the lock. *)
Inductive Call :=
| TrackClient (aId : uuid) (aPeer : RemoteEndpoint.t)
| StashEnvelope (aSessionId : uuid) (anEnvelope : Envelope)
| ClearStashedEnvelopes (aSessionId : uuid).

Definition step (c : Call) (pm : t) : t :=
  match c with
  | TrackClient aId aPeer => trackClient aId aPeer pm
  | StashEnvelope aSessionId anEnvelope => stashEnvelope aSessionId anEnvelope pm
  | ClearStashedEnvelopes aSessionId => clearStashedEnvelopes aSessionId pm
  end.

Definition run (calls : list Call) (pm : t) : t :=
  foldl (λ pm c, step c pm) pm calls.

End PeerManager.

(** *** The routing table (src/cmd/node/router/RoutingTable.cc)

    The table lists the routing data that [sessionRoutingData] still gets
    hold of. *)

Module RoutingTable.

Definition sessionRoutingData (aSessionId : uuid) (rt : gmap N SessionRoutingData)
    : option SessionRoutingData :=
  rt !! aSessionId.

(** [RoutingTable::addSessionRoutingData]: [std::map::insert] leaves an
    existing entry alone. *)
Definition addSessionRoutingData (aSessionId : uuid) (data : SessionRoutingData)
    (rt : gmap N SessionRoutingData) : gmap N SessionRoutingData :=
  match rt !! aSessionId with
  | Some _ => rt
  | None => <[aSessionId := data]> rt
  end.

Definition deleteSessionRoutingData (aSessionId : uuid)
    (rt : gmap N SessionRoutingData) : gmap N SessionRoutingData :=
  delete aSessionId rt.

(** [RoutingTable::findNodeInfo]: the first session, by id, whose node map
    knows the node. *)
Definition findNodeInfo (aNodeId : uuid) (rt : gmap N SessionRoutingData)
    : option NodeInfo :=
  list_find (λ info : option NodeInfo, is_Some info)
            ((λ kv : uuid * SessionRoutingData, mMap (nodeMap kv.2) !! aNodeId)
               <$> map_iter rt)
  ≫= snd.

End RoutingTable.

(** *** The state shared by the threads of the router
    (src/cmd/node/router/ThreadedNodeRouter.h) *)

Module ThreadedNodeRouter.

Record t := mk {
  mNodeId : uuid;
  mRoutingTable : gmap N SessionRoutingData;
  mPeerManager : PeerManager.t;
  mServiceEndpoint : option RemoteEndpoint.t;
  errors : list string                (* ids of the error lines logged *)
}.

Definition new (aNodeId : uuid) : t := mk aNodeId ∅ PeerManager.new None [].

Definition set_mRoutingTable (rt : gmap N SessionRoutingData) (r : t) : t :=
  mk (mNodeId r) rt (mPeerManager r) (mServiceEndpoint r) (errors r).

Definition set_mPeerManager (pm : PeerManager.t) (r : t) : t :=
  mk (mNodeId r) (mRoutingTable r) pm (mServiceEndpoint r) (errors r).

Definition set_mServiceEndpoint (ep : option RemoteEndpoint.t) (r : t) : t :=
  mk (mNodeId r) (mRoutingTable r) (mPeerManager r) ep (errors r).

Definition logError (id : string) (r : t) : t :=
  mk (mNodeId r) (mRoutingTable r) (mPeerManager r) (mServiceEndpoint r)
     (errors r ++ [id]).

(** [ThreadedNodeRouter::addSessionRoutingData] *)
Definition addSessionRoutingData (aSessionId : uuid) (nodes : SessionNodeMap) (r : t) : t :=
  set_mRoutingTable
    (RoutingTable.addSessionRoutingData aSessionId
       (SessionRoutingData_new aSessionId (mNodeId r) nodes) (mRoutingTable r)) r.

(** [ThreadedNodeRouter::notifyService] *)
Definition notifyService (c : Content) (r : t) : t :=
  match mServiceEndpoint r with
  | Some ep =>
      set_mServiceEndpoint (Some (RemoteEndpoint.queueEnvelope (mkEnvelope c []) ep)) r
  | None => logError "Router has no service endpoint" r
  end.

(** [ThreadedNodeRouter::notifyClientConnected] *)
Definition notifyClientConnected (aSessionId : uuid) (r : t) : t :=
  notifyService (ClientConnectionStatus aSessionId "connected") r.

End ThreadedNodeRouter.

(** *** Routing (src/cmd/node/router/RouteMessage.cc) *)

Module RouteMessage.
Import ThreadedNodeRouter.

(** [parseDestinationAddressLists]: the addresses for local computations by
    computation id, those for other nodes by node id, and whether one is for
    the client. *)
Definition parseDestinationAddressLists (aLocalNodeId : uuid) (aTo : list Address)
    : gmap N (list Address) * gmap N (list Address) * bool :=
  foldl (λ acc a,
           let '(aIpcLists, aNodeLists, aToClient) := acc in
           if bool_decide (node a = UUID.null) then (aIpcLists, aNodeLists, true)
           else if bool_decide (node a = aLocalNodeId) &&
                   bool_decide (computation a ≠ UUID.null) then
             (<[computation a := default [] (aIpcLists !! computation a) ++ [a]]> aIpcLists,
              aNodeLists, aToClient)
           else if bool_decide (node a ≠ aLocalNodeId) then
             (aIpcLists,
              <[node a := default [] (aNodeLists !! node a) ++ [a]]> aNodeLists,
              aToClient)
           else acc)
        (∅, ∅, false) aTo.

(** [sendToLocalClient] *)
Definition sendToLocalClient (sessionId : uuid) (envelope : Envelope) (r : t) : t :=
  match PeerManager.findClientPeer sessionId (mPeerManager r) with
  | Some client =>
      set_mPeerManager
        (PeerManager.set_mClients
           (<[sessionId := RemoteEndpoint.queueEnvelope envelope client]>
              (PeerManager.mClients (mPeerManager r)))
           (mPeerManager r)) r
  | None =>
      set_mPeerManager (PeerManager.stashEnvelope sessionId envelope (mPeerManager r)) r
  end.

(** [sendToLocalComputation] *)
Definition sendToLocalComputation (sessionId computationId : uuid)
    (envelope : Envelope) (r : t) : t :=
  match PeerManager.findIpcPeer computationId (mPeerManager r) with
  | Some dest =>
      set_mPeerManager
        (PeerManager.set_mIpc
           (<[computationId := RemoteEndpoint.queueEnvelope envelope dest]>
              (PeerManager.mIpc (mPeerManager r)))
           (mPeerManager r)) r
  | None => logError "computationNotFound" r
  end.

(** The loop of [routeMessage] over the remote destinations; it ends early
    with the text of the [KeyError] of [SessionNodeMap::getNodeInfo]. *)
Fixpoint sendToNodes (envelope : Envelope) (aRoutingData : SessionRoutingData)
    (nodeLists : list (uuid * list Address)) (r : t) : option string * t :=
  match nodeLists with
  | [] => (None, r)
  | (nodeId, addrs) :: rest =>
      match PeerManager.findNodePeer nodeId (mPeerManager r) with
      | Some dest =>
          sendToNodes envelope aRoutingData rest
            (set_mPeerManager
               (PeerManager.trackNode nodeId
                  (RemoteEndpoint.queueEnvelopeTo envelope addrs dest) (mPeerManager r)) r)
      | None =>
          match mMap (nodeMap aRoutingData) !! nodeId with
          | None => (Some "Failed to find node id in SessionNodeMap", r)
          | Some nodeInfo =>
              let ep := RemoteEndpoint.createNodeRemoteEndpoint nodeId nodeInfo in
              sendToNodes envelope aRoutingData rest
                (set_mPeerManager
                   (PeerManager.trackNode nodeId
                      (RemoteEndpoint.queueEnvelopeTo envelope addrs ep)
                      (mPeerManager r)) r)
          end
      end
  end.

(** The node lists once the client's address is added for the entry node. *)
Definition withEntryNode (aRoutingData : SessionRoutingData)
    (nodeLists : gmap N (list Address)) : gmap N (list Address) :=
  let entryNodeId := mEntryNodeId (nodeMap aRoutingData) in
  <[entryNodeId := default [] (nodeLists !! entryNodeId) ++
                   [mkAddress (rd_sessionId aRoutingData) UUID.null UUID.null]]> nodeLists.

(** [routeMessage] *)
Definition routeMessage (envelope : Envelope) (aRoutingData : SessionRoutingData)
    (r : t) : option string * t :=
  let sessionId := rd_sessionId aRoutingData in
  let nodeId := rd_nodeId aRoutingData in
  let '(ipcLists, nodeLists, toClient) :=
    parseDestinationAddressLists nodeId (to envelope) in
  let '(nodeLists, r) :=
    if toClient then
      if isEntryNode aRoutingData
      then (nodeLists, sendToLocalClient sessionId envelope r)
      else (withEntryNode aRoutingData nodeLists, r)
    else (nodeLists, r) in
  let r := foldl (λ r computationId,
                    sendToLocalComputation sessionId computationId envelope r)
                 r (map_iter ipcLists).*1 in
  sendToNodes envelope aRoutingData (map_iter nodeLists) r.

End RouteMessage.

(** *** The connect filters of the router (src/cmd/node/router/NodeRouter.cc)
    and the filter chain (src/cmd/node/router/ListenServer.cc) *)

Module NodeRouter.
Import ThreadedNodeRouter.

Inductive RegistrationType :=
| REGISTRATION_CLIENT | REGISTRATION_NODE | REGISTRATION_EXECUTOR
| REGISTRATION_CONTROL | REGISTRATION_OTHER.

#[global] Instance RegistrationType_eq_dec : EqDecision RegistrationType.
Proof. solve_decision. Defined.

(** What [ReadRegistrationData] hands to the filters. *)
Record RegistrationData := mkRegistrationData {
  mFailed : bool;                    (* wrong magic or major version *)
  mType : RegistrationType;
  reg_nodeId : uuid;
  reg_sessionId : uuid;
  reg_computationId : uuid
}.

(** What a filter does with the new socket: leave it to the next filter
    (it returns a null endpoint), make it the socket of the endpoint it
    returns, delete it and return an endpoint all the same, or throw. *)
Inductive Verdict :=
| Pass
| Used
| Deleted
| Throws (what : string).

#[global] Instance Verdict_eq_dec : EqDecision Verdict.
Proof. solve_decision. Defined.

(** The filter for client connections. *)
Definition clientConnectFilter (aPeer : N) (reg : RegistrationData) (r : t)
    : Verdict * t :=
  if mFailed reg then (Pass, r)
  else if bool_decide (mType reg = REGISTRATION_CLIENT) then
    match PeerManager.findClientPeer (reg_sessionId reg) (mPeerManager r) with
    | Some _ =>
        (Throws "refusing client connection because one already exists for the session",
         logError "duplicateClientConnection" r)
    | None =>
        let routingData :=
          RoutingTable.sessionRoutingData (reg_sessionId reg) (mRoutingTable r) in
        let ep :=
          match routingData with
          | Some _ =>
              RemoteEndpoint.new aPeer PEER_CLIENT (reg_sessionId reg) (reg_sessionId reg)
                                 routingData
          | None =>
              RemoteEndpoint.new aPeer PEER_CLIENT UUID.null UUID.null None
          end in
        match ep with
        | None => (Throws "Missing routing data in RemoteEndpoint", r)
        | Some ep =>
            (Used,
             notifyClientConnected (reg_sessionId reg)
               (set_mPeerManager
                  (PeerManager.trackClient (reg_sessionId reg) ep (mPeerManager r)) r))
        end
    end
  else (Pass, r).

(** The filter for node connections. *)
Definition nodeConnectFilter (aPeer : N) (reg : RegistrationData) (r : t)
    : Verdict * t :=
  if mFailed reg then (Pass, r)
  else if bool_decide (mType reg = REGISTRATION_NODE) then
    match PeerManager.findNodePeer (reg_nodeId reg) (mPeerManager r) with
    | None =>
        if UUID.ltb (reg_nodeId reg) (mNodeId r) then
          match RoutingTable.findNodeInfo (reg_nodeId reg) (mRoutingTable r) with
          | Some nodeInfo =>
              let ep := RemoteEndpoint.createNodeRemoteEndpoint (reg_nodeId reg) nodeInfo in
              (Deleted,
               set_mPeerManager
                 (PeerManager.trackNode (reg_nodeId reg) ep (mPeerManager r)) r)
          | None => (Pass, logError "BadNodeConnection" r)
          end
        else
          match RemoteEndpoint.new aPeer PEER_NODE (reg_nodeId reg) UUID.null None with
          | None => (Throws "Missing routing data in RemoteEndpoint", r)
          | Some ep =>
              (Used,
               set_mPeerManager
                 (PeerManager.trackNode (reg_nodeId reg) ep (mPeerManager r)) r)
          end
    | Some ep =>
        if UUID.ltb (reg_nodeId reg) (mNodeId r) then (Deleted, r)
        else
          (Used,
           set_mPeerManager
             (PeerManager.set_mNodes
                (<[reg_nodeId reg := RemoteEndpoint.setPeer aPeer ep]>
                   (PeerManager.mNodes (mPeerManager r)))
                (mPeerManager r)) r)
    end
  else (Pass, r).

(** The filter for the connections of local computations. *)
Definition ipcConnectFilter (aPeer : N) (reg : RegistrationData) (r : t)
    : Verdict * t :=
  if mFailed reg then (Pass, r)
  else if bool_decide (mType reg = REGISTRATION_EXECUTOR) then
    let r := notifyService
               (ComputationStatusMessage (reg_sessionId reg) (reg_computationId reg) "ready")
               r in
    match RemoteEndpoint.new aPeer PEER_IPC (reg_computationId reg) (reg_sessionId reg)
            (RoutingTable.sessionRoutingData (reg_sessionId reg) (mRoutingTable r)) with
    | None => (Throws "Missing routing data in RemoteEndpoint", r)
    | Some ep =>
        (Used,
         set_mPeerManager
           (PeerManager.trackIpc (reg_computationId reg) ep (mPeerManager r)) r)
    end
  else (Pass, r).

(** The filter for the connection of the node service; [mInetPort] is the
    port of the router when it runs stand-alone, 0 otherwise. *)
Definition serviceConnectFilter (mInetPort : Z) (aPeer : N) (reg : RegistrationData)
    (r : t) : Verdict * t :=
  if mFailed reg then (Pass, r)
  else if bool_decide (mType reg = REGISTRATION_CONTROL) then
    match mServiceEndpoint r with
    | Some _ =>
        (Throws "refusing service connection because one already exists",
         logError "duplicateServiceConnection" r)
    | None =>
        match RemoteEndpoint.new aPeer PEER_SERVICE (reg_nodeId reg) UUID.null None with
        | None => (Throws "Missing routing data in RemoteEndpoint", r)
        | Some ep =>
            let ep :=
              if bool_decide (mInetPort ≠ 0%Z)
              then RemoteEndpoint.queueEnvelope
                     (mkEnvelope (RouterInfoMessage mInetPort) []) ep
              else ep in
            (Used, set_mServiceEndpoint (Some ep) r)
        end
    end
  else (Pass, r).

(** The filter chain of [ListenServer::poll] on one new socket: the first
    filter that returns an endpoint wins, a filter that throws ends the
    chain.  The result tells whether the socket is still open afterwards:
    the server shuts it down unless a filter made it the socket of an
    endpoint. *)
Fixpoint filterChain (filters : list (N → RegistrationData → t → Verdict * t))
    (aPeer : N) (reg : RegistrationData) (r : t) : Verdict * t :=
  match filters with
  | [] => (Pass, r)
  | f :: rest =>
      match f aPeer reg r with
      | (Pass, r) => filterChain rest aPeer reg r
      | res => res
      end
  end.

Definition accept (mInetPort : Z) (aPeer : N) (reg : RegistrationData) (r : t)
    : Verdict * t :=
  filterChain [clientConnectFilter; nodeConnectFilter; ipcConnectFilter;
               serviceConnectFilter mInetPort] aPeer reg r.

(** The socket stays open only when an endpoint uses it. *)
Definition keepsSocket (v : Verdict) : bool := bool_decide (v = Used).

(** The send thread of the node endpoint filed under [nodeId] dials. *)
Definition sendThreadWithConnect (nodeId : uuid) (r : t) : t :=
  set_mPeerManager
    (PeerManager.set_mNodes
       (alter (RemoteEndpoint.sendThreadWithConnect (mNodeId r)) nodeId
              (PeerManager.mNodes (mPeerManager r)))
       (mPeerManager r)) r.

(** [NodeRouter::sendSessionStatusToClient] *)
Definition sendSessionStatusToClient (aSessionStatusJson : string)
    (aEndPoint : RemoteEndpoint.t) : RemoteEndpoint.t :=
  RemoteEndpoint.queueEnvelope (mkEnvelope (SessionStatusMessage aSessionStatusJson) [])
                               aEndPoint.

(** [NodeRouter::kickClient]: the status goes to the client of the session,
    whose endpoint is then drained and flagged for destruction; with no
    client, what is stashed for it is dropped. *)
Definition kickClient (aSessId : uuid) (statusJson : string) (r : t) : t :=
  match PeerManager.findClientPeer aSessId (mPeerManager r) with
  | Some ep =>
      set_mPeerManager
        (PeerManager.set_mClients
           (<[aSessId := sendSessionStatusToClient statusJson ep]>
              (PeerManager.mClients (mPeerManager r)))
           (mPeerManager r)) r
  | None =>
      set_mPeerManager (PeerManager.clearStashedEnvelopes aSessId (mPeerManager r)) r
  end.

End NodeRouter.

(** *** Notions used to state the facts about sessions *)

Module SessionNotions.
Import Session.

(** The part of a session that the work on computations never touches. *)
Definition control (s : t) :=
  (mId s, mNodeId s, defLogLevel s, autoSuspend s, mState s, mDeleteReason s,
   mShuttingDown s, mOperationThread s, mExpirationSet s).

(** Every computation is filed under its own id. *)
Definition keys_ok (s : t) : Prop :=
  map_Forall (λ k c, Computation.id c = k) (mComputations s).

(** The checks and the launch of [startNewComputation] all succeed. *)
Definition startable (env : Env) (cfg : SessionConfig) (k : uuid) (n : string) : bool :=
  match definitions cfg !! n with
  | Some ctx =>
      negb (bool_decide (ctx ≠ "") && bool_decide (contexts cfg !! ctx = None)) &&
      match launch env k with LaunchOk => true | _ => false end
  | None => false
  end.

(** The computation [startNewComputation] files on success. *)
Definition started (k : uuid) (n : string) : Computation.t :=
  Computation.mk k n Spawned false false.

(** Busy exactly when an operation thread has not finished. *)
Definition one_operation (s : t) : Prop :=
  mState s = Busy ↔ is_Some (mOperationThread s).

(** A computation receiving signals one after the other. *)
Definition signals (sessionId : uuid) (autoSuspend : bool)
    (ds : list SignalData) (c : Computation.t) : Computation.t * list Action :=
  foldl (λ st d,
           let '(_, c', acts) := Computation.signal sessionId autoSuspend d st.1 in
           (c', st.2 ++ acts))
        (c, []) ds.

(** The acknowledgement is there by the end of the wait of
    [initializeSession]. *)
Definition acknowledged (ackAfter : option Z) (sess : uuid) (a : ArrasSessions.t) : bool :=
  default false (ArrasController.mRouterHasRoutingData (ArrasSessions.mController a) !! sess) ||
  match ackAfter with
  | Some ms => (ms <? ArrasController.WAIT_FOR_ROUTER_HAS_ROUTING)%Z
  | None => false
  end.

End SessionNotions.

(** *** Notions used to state the facts about the ban list *)

Module BanNotions.
Import UrlRouter.

Section Notions.
Context {H : Type} (respond : H → list string → Z).

(** The ban list entry of an address, if the router has a ban list. *)
Definition entryOf (addr : string) (r : UrlRouter.t H) : option BanList.BanListEntry :=
  mBanList r ≫= (λ bl, BanList.mBanListMap bl !! addr).

(** The path of the request is not mapped to a handler. *)
Definition unknownEndpoint (r : UrlRouter.t H) (path : string) : Prop :=
  handleNode (split path) [] (mRoot r) = None.

(** The ban list of the router has these parameters. *)
Definition banParameters (r : UrlRouter.t H) (countToBan secToUnBan : Z) : Prop :=
  ∃ bl, mBanList r = Some bl ∧ BanList.mCountToBan bl = countToBan ∧
        BanList.mSecToUnBan bl = secToUnBan.

(** Unknown GETs from one address, one after the other. *)
Definition unknownGets (addr path : string) (clocks : list Readings)
    (r : UrlRouter.t H) : list Z * UrlRouter.t H :=
  foldl (λ st clock,
           let '(code, _, r) := handle respond clock (mkRequest path (Some addr)) st.2 in
           (st.1 ++ [code], r))
        ([], r) clocks.

(** Each request comes no later than [window] nanoseconds after the entry was
    last stamped. *)
Fixpoint withinWindow (window : Z) (stamp : Z) (clocks : list Readings) : Prop :=
  match clocks with
  | [] => True
  | clock :: rest =>
      (atExpired clock - stamp ≤ window)%Z ∧ withinWindow window (atTracked clock) rest
  end.

Definition lastStamp (stamp : Z) (clocks : list Readings) : Z :=
  foldl (λ _ clock, atTracked clock) stamp clocks.

End Notions.

End BanNotions.

(** *** Notions used to state the facts about the peer registry *)

Module RouterNotions.

Definition withQueue (q : list Envelope) (ep : RemoteEndpoint.t) : RemoteEndpoint.t :=
  RemoteEndpoint.mk (RemoteEndpoint.mPeerType ep) (RemoteEndpoint.mUUID ep)
    (RemoteEndpoint.mSessionId ep) (RemoteEndpoint.mNodeInfo ep)
    (RemoteEndpoint.mPeer ep) (RemoteEndpoint.mRoutingData ep)
    (RemoteEndpoint.mReceiveThread ep) (RemoteEndpoint.connects ep) q.

(** What is stashed for a session. *)
Definition pending (sid : uuid) (pm : PeerManager.t) : list Envelope :=
  default [] (PeerManager.mPendingEnvelopes pm !! sid).

(** The envelopes that a list of calls stashes for a session, in order. *)
Definition stashedFor (sid : uuid) (calls : list PeerManager.Call) : list Envelope :=
  omap (λ c, match c with
             | PeerManager.StashEnvelope s e => if bool_decide (s = sid) then Some e else None
             | _ => None
             end) calls.

(** A call that neither tracks a client for the session nor clears what is
    stashed for it. *)
Definition leaves (sid : uuid) (c : PeerManager.Call) : bool :=
  match c with
  | PeerManager.StashEnvelope _ _ => true
  | PeerManager.TrackClient s _ => bool_decide (s ≠ sid)
  | PeerManager.ClearStashedEnvelopes s => bool_decide (s ≠ sid)
  end.

End RouterNotions.

(** *** Notions used to state the facts about routing *)

Module RouteNotions.
Import ThreadedNodeRouter.

Definition clients (r : t) := PeerManager.mClients (mPeerManager r).
Definition nodes (r : t) := PeerManager.mNodes (mPeerManager r).
Definition ipcs (r : t) := PeerManager.mIpc (mPeerManager r).
Definition stash (r : t) := PeerManager.mPendingEnvelopes (mPeerManager r).

(** The three kinds of destination. *)
Definition forClient (a : Address) : bool := bool_decide (node a = UUID.null).

Definition forComputation (local c : uuid) (a : Address) : bool :=
  negb (forClient a) && bool_decide (node a = local) &&
  bool_decide (computation a ≠ UUID.null) && bool_decide (computation a = c).

Definition forNode (local n : uuid) (a : Address) : bool :=
  negb (forClient a) && bool_decide (node a ≠ local) && bool_decide (node a = n).

Definition nonempty {A} (l : list A) : option (list A) :=
  match l with [] => None | _ => Some l end.

(** The client is addressed and connects to this node. *)
Definition toClientHere (rd : SessionRoutingData) (e : Envelope) : bool :=
  existsb forClient (to e) && isEntryNode rd.

(** The destination list of the copy that goes to node [n]. *)
Definition nodeAddrs (rd : SessionRoutingData) (e : Envelope) (n : uuid) : list Address :=
  filter (λ a, forNode (rd_nodeId rd) n a = true) (to e) ++
  (if existsb forClient (to e) && negb (isEntryNode rd) &&
      bool_decide (n = mEntryNodeId (nodeMap rd))
   then [mkAddress (rd_sessionId rd) UUID.null UUID.null] else []).

(** The peer for node [n]: the one on record, or else a new one that dials
    the host the node map of the session gives for [n]. *)
Definition nodePeer (rd : SessionRoutingData) (n : uuid) (r : t) : option RemoteEndpoint.t :=
  match nodes r !! n with
  | Some dest => Some dest
  | None => RemoteEndpoint.createNodeRemoteEndpoint n <$> mMap (nodeMap rd) !! n
  end.

(** Every other node the envelope goes to has a peer on record or a host in
    the node map of the session. *)
Definition routable (rd : SessionRoutingData) (e : Envelope) (r : t) : bool :=
  forallb (λ a, forClient a || bool_decide (node a = rd_nodeId rd) ||
                bool_decide (is_Some (nodePeer rd (node a) r))) (to e) &&
  (negb (existsb forClient (to e)) || isEntryNode rd ||
   bool_decide (is_Some (nodePeer rd (mEntryNodeId (nodeMap rd)) r))).

End RouteNotions.

(** *** Notions used to state the facts about connections *)

Module ConnectNotions.
Import ThreadedNodeRouter RouteNotions.



End ConnectNotions.

(** *** Concrete inputs used in examples *)

Module Scenario.
Import Session SessionNotions.

Definition cfgAB : SessionConfig :=
  mkSessionConfig 7%N 1%N (-1) false
    (<[11%N := "A"]> (<[12%N := "B"]> ∅))
    (<["A" := ""]> (<["B" := ""]> ∅)) ∅ "" ∅.

Definition envOk : Env := mkEnv (λ _, true) (λ _, LaunchOk) true.

Definition runSignal : SignalData := mkSignalData (Some "run") (Some "rules") "".

Definition cfgBC : SessionConfig :=
  mkSessionConfig 7%N 1%N (-1) false
    (<[12%N := "B"]> (<[13%N := "C"]> ∅))
    (<["B" := ""]> (<["C" := ""]> ∅)) ∅ "" ∅.

Definition sessionAB : Session.t :=
  set_mComputations (<[11%N := started 11%N "A"]> (<[12%N := started 12%N "B"]> ∅))
                    (new 7%N 1%N 3 false).

Definition descAB : SessionDesc :=
  mkSessionDesc
    {[ 1%N := mkNodeConfig (Some (<["A" := ""]> (<["B" := ""]> ∅))) (Some 7%N) None None ]}
    (Some {[ 7%N := mkSessionRouting
                      (Some [("A", Some (mkCompInfo (Some 1%N) (Some 11%N)));
                             ("B", Some (mkCompInfo (Some 1%N) (Some 12%N)));
                             ("Z", Some (mkCompInfo (Some 2%N) (Some 26%N)))])
                      {[ 1%N := true ]} ]})
    "routing".

Definition cfgOfDescAB : SessionConfig :=
  mkSessionConfig 7%N 1%N (-1) true
    (<[11%N := "A"]> (<[12%N := "B"]> ∅))
    (<["A" := ""]> (<["B" := ""]> ∅)) ∅ "routing"
    (<["A" := (11%N, 1%N)]> (<["B" := (12%N, 1%N)]> ∅)).

Definition node1 : ArrasSessions.t := ArrasSessions.new 1%N 3 false.

Definition serveOk : NodeService.Endpoint → list string → Z := λ _ _, HTTP_OK.
Definition secs (s : Z) : UrlRouter.Readings := UrlRouter.mkReadings (s * 1000000000) (s * 1000000000) (s * 1000000000).

(** A router: node 2 of three, on which session 7 runs with entry node 1. *)
Definition host (n : uuid) : NodeInfo := mkNodeInfo n "host" "10.0.0.1" (8000 + Z.of_N n).

Definition nodes123 : SessionNodeMap :=
  mkSessionNodeMap 1%N (<[1%N := host 1%N]> (<[2%N := host 2%N]> (<[3%N := host 3%N]> ∅))).

Definition router2 : ThreadedNodeRouter.t :=
  ThreadedNodeRouter.addSessionRoutingData 7%N nodes123 (ThreadedNodeRouter.new 2%N).

Definition routing7 : SessionRoutingData := SessionRoutingData_new 7%N 2%N nodes123.

Definition nodeReg (k : uuid) : NodeRouter.RegistrationData :=
  NodeRouter.mkRegistrationData false NodeRouter.REGISTRATION_NODE k 0%N 0%N.


Definition toClient7 (n : N) : Envelope :=
  mkEnvelope (ApplicationMessage n) [mkAddress 7%N 0%N 0%N].

Definition client7 : RemoteEndpoint.t :=
  RemoteEndpoint.mk PEER_CLIENT 7%N 7%N None (Some (Accepted 40%N)) (Some 7%N) true false [].

Definition comp21 : RemoteEndpoint.t :=
  RemoteEndpoint.mk PEER_IPC 21%N 7%N None (Some (Accepted 41%N)) (Some 7%N) true false [].


Definition router2WithComp : ThreadedNodeRouter.t :=
  ThreadedNodeRouter.set_mPeerManager
    (PeerManager.trackIpc 21%N comp21 (ThreadedNodeRouter.mPeerManager router2)) router2.

End Scenario.

(** ** More of the HTTP front end (src/cmd/node/UrlRouter.cc, BanList.cc) *)

(** *** Notions used to state the facts about paths *)

Module UrlNotions.

(** A run of [n] '/' characters. *)
Fixpoint slashes (n : nat) : string :=
  match n with
  | O => ""
  | S n => String "/" (slashes n)
  end.

Fixpoint slashFree (e : string) : bool :=
  match e with
  | EmptyString => true
  | String c rest => negb (Ascii.eqb c "/") && slashFree rest
  end.

(** What [split] makes an element of: not empty, no '/'. *)
Definition element (e : string) : Prop := e ≠ "" ∧ slashFree e = true.

(** The path that has, for each [(n, e)] of [segments], [n] slashes and then
    [e], and [trail] slashes at the end. *)
Fixpoint pathOf (segments : list (nat * string)) (trail : nat) : string :=
  match segments with
  | [] => slashes trail
  | (n, e) :: rest => slashes n +:+ e +:+ pathOf rest trail
  end.

(** Elements are separated: each but the first comes after a slash. *)
Definition separated (segments : list (nat * string)) : Prop :=
  match segments with
  | [] => True
  | _ :: rest => Forall (λ ne : nat * string, (0 < ne.1)%nat) rest
  end.

(** The variables a request path gives for a mapped path with wildcards, if
    it matches it element by element. *)
Fixpoint capture (pattern request : list string) : option (list string) :=
  match pattern, request with
  | [], [] => Some []
  | p :: pattern, e :: request =>
      if bool_decide (p = "*") then cons e <$> capture pattern request
      else if bool_decide (p = e) then capture pattern request
      else None
  | _, _ => None
  end.

End UrlNotions.

(** *** The reports of the ban list (src/cmd/node/BanList.cc) *)

Module BanListSummary.
Import BanList.

(** The entries in the order of [std::map<std::string, BanListEntry>]. *)
Definition addr_le (a b : string * BanListEntry) : Prop := String.leb a.1 b.1 = true.

#[global] Instance addr_le_dec : RelDecision addr_le.
Proof. intros a b. unfold addr_le. apply _. Defined.

Definition entries (bl : t) : list (string * BanListEntry) :=
  merge_sort addr_le (map_to_list (mBanListMap bl)).

(** [BanList::cleanup]; [clock addr] is the clock reading that [hasExpired]
    takes when the loop is at the entry of [addr]. *)
Definition cleanup (clock : string → Z) (bl : t) : t :=
  set_mBanListMap
    (filter (λ kv : string * BanListEntry,
               hasExpired bl (timeStamp kv.2) (clock kv.1) = false)
            (mBanListMap bl)) bl.

(** [BanList::getTracked] *)
Definition getTracked (bl : t) : list string := (entries bl).*1.

(** [BanList::getBanned] *)
Definition getBanned (bl : t) : list string :=
  (filter (λ kv : string * BanListEntry, (mCountToBan bl ≤ count kv.2)%Z)
          (entries bl)).*1.

(** [BanList::getSummary]: the "banned" and the "tracked" array, and the list
    after the cleanup. *)
Definition getSummary (clock : string → Z) (bl : t)
    : list string * list string * t :=
  let bl := cleanup clock bl in
  ((filter (λ kv : string * BanListEntry, (mCountToBan bl ≤ count kv.2)%Z)
           (entries bl)).*1,
   (filter (λ kv : string * BanListEntry, ¬ (mCountToBan bl ≤ count kv.2)%Z)
           (entries bl)).*1,
   bl).

End BanListSummary.

(** *** Notions used to state the facts about requests *)

Module ServeNotions.
Import UrlRouter.
Section Notions.
Context {H : Type} (respond : H → list string → Z).




End Notions.
End ServeNotions.

(** ** More of the session manager (src/lib/session/ArrasSessions.cc,
    ArrasController.cc) *)

Module ManagerCalls.
Import ArrasSessions.

(** What can happen to the session manager: the calls of its interface, the
    operation thread of a session finishing, and the dispatcher thread
    handling an acknowledgement of the router. *)
Inductive Call :=
| CreateSession (ackAfter : option Z) (definition : SessionDesc)
| ModifySession (definition : SessionDesc)
| DeleteSession (id : uuid) (reason : string)
| SignalSession (id : uuid) (signalData : SignalData)
| ShutdownAll (env : Env) (reason : string)
| ThreadFinishes (env : Env) (id : uuid)
| Acknowledge (sess : uuid).

Definition step (c : Call) (a : t) : t :=
  match c with
  | CreateSession ackAfter definition => (createSession ackAfter definition a).2
  | ModifySession definition => (modifySession definition a).2
  | DeleteSession id reason => (deleteSession id reason a).2
  | SignalSession id signalData => (signalSession id signalData a).2
  | ShutdownAll env reason => shutdownAll env reason a
  | ThreadFinishes env id => operationThread env id a
  | Acknowledge sess => handleAcknowledge sess a
  end.

Definition run (calls : list Call) (a : t) : t := foldl (λ a c, step c a) a calls.


End ManagerCalls.

(** *** The controller and the client of a session
    (src/lib/session/ArrasController.cc) *)

Module ControllerEvents.
Import ArrasSessions.

(** What the controller does when the router tells it that a client has
    connected. *)
Inductive Reaction :=
| StopExpiration
| KickClient (sessionId : uuid) (disconnectReason stoppedReason : string).

(** [ArrasController::handleMessage] on a [ClientConnectionStatus] whose
    reason is "connected". *)
Definition clientConnected (sessionId : uuid) (a : t) : Reaction * t :=
  match getSession sessionId a with
  | Some session =>
      if Session.isActive session then
        (StopExpiration,
         set_mSessions
           (<[sessionId := Session.set_mExpirationSet false session]> (mSessions a)) a)
      else
        (KickClient sessionId "sessionDeleted" (Session.mDeleteReason session), a)
  | None => (KickClient sessionId "unknownSession" "unknownSession", a)
  end.

End ControllerEvents.

(** ** More of the router (src/cmd/node/router/SessionNodeMap.cc,
    NodeRouter.cc, ThreadedNodeRouter.cc) *)

Module SessionNodeMaps.

(** An entry of the "nodes" object of the routing data of a session, as far
    as [SessionNodeMap] reads it. *)
Record NodeDesc := mkNodeDesc {
  nd_host : string;
  nd_ip : string;
  nd_tcp : Z;
  nd_entry : option bool              (* "entry" when it is a bool *)
}.

(** [static_cast<unsigned short>] of an int. *)
Definition toUnsignedShort (z : Z) : Z := (z mod 65536)%Z.

Definition nodeInfoOf (nodeId : uuid) (nd : NodeDesc) : NodeInfo :=
  mkNodeInfo nodeId (nd_host nd) (nd_ip nd) (toUnsignedShort (nd_tcp nd)).

(** [SessionNodeMap::SessionNodeMap] *)
Definition new (nodes : list (uuid * NodeDesc)) : SessionNodeMap :=
  foldl (λ m knd,
           mkSessionNodeMap
             (if nd_entry knd.2 is Some true then knd.1 else mEntryNodeId m)
             (<[knd.1 := nodeInfoOf knd.1 knd.2]> (mMap m)))
        (mkSessionNodeMap UUID.null ∅) nodes.

(** [SessionNodeMap::update] *)
Definition update (nodes : list (uuid * NodeDesc)) (m : SessionNodeMap) : SessionNodeMap :=
  foldl (λ m knd,
           match mMap m !! knd.1 with
           | Some _ => m
           | None =>
               mkSessionNodeMap (mEntryNodeId m)
                                (<[knd.1 := nodeInfoOf knd.1 knd.2]> (mMap m))
           end)
        m nodes.

(** [SessionNodeMap::getNodeInfo]: the info, or the text of the [KeyError]. *)
Definition getNodeInfo (aNodeId : uuid) (m : SessionNodeMap) : string + NodeInfo :=
  match mMap m !! aNodeId with
  | Some info => inr info
  | None => inl "Failed to find node id in SessionNodeMap"
  end.

(** [SessionNodeMap::findNodeInfo] *)
Definition findNodeInfo (aNodeId : uuid) (m : SessionNodeMap) : option NodeInfo :=
  mMap m !! aNodeId.

End SessionNodeMaps.

Module NodeRouterTable.
Import ThreadedNodeRouter.

(** [NodeRouter::putSessionRoutingData] *)
Definition putSessionRoutingData (aSessionId : uuid) (nodes : SessionNodeMap) (r : t) : t :=
  match RoutingTable.sessionRoutingData aSessionId (mRoutingTable r) with
  | Some _ => r
  | None => addSessionRoutingData aSessionId nodes r
  end.

(** [ThreadedNodeRouter::deleteSessionRoutingData] *)
Definition deleteSessionRoutingData (aSessionId : uuid) (r : t) : t :=
  set_mRoutingTable (RoutingTable.deleteSessionRoutingData aSessionId (mRoutingTable r)) r.

End NodeRouterTable.

(** *** Notions used to state the facts about session descriptions
    (src/lib/session/SessionConfig.cc) *)

Module ConfigNotions.

(** The computation list of a session in the description, empty when there
    is none. *)
Definition listed (desc : SessionDesc) (sid : uuid) : list (string * option CompInfo) :=
  default [] ((desc_routing desc ≫= (λ routing : gmap N SessionRouting, routing !! sid))
              ≫= sr_computations).

(** An entry of the computation list that assigns [compId] to [compNode]. *)
Definition assigns (compName : string) (compNode compId : uuid)
    : string * option CompInfo :=
  (compName, Some (mkCompInfo (Some compNode) (Some compId))).

End ConfigNotions.
(** * Facts *)

(** ** Iteration over a map *)

Lemma map_iter_perm {V} (m : gmap N V) : map_iter m ≡ₚ map_to_list m.
Proof. apply merge_sort_Permutation. Qed.

Lemma elem_of_map_iter {V} (m : gmap N V) k v :
  (k, v) ∈ map_iter m ↔ m !! k = Some v.
Proof. rewrite map_iter_perm. apply elem_of_map_to_list. Qed.

Lemma NoDup_map_iter {V} (m : gmap N V) : NoDup (map_iter m).
Proof. rewrite map_iter_perm. apply NoDup_map_to_list. Qed.

Lemma NoDup_fst_map_iter {V} (m : gmap N V) : NoDup (map_iter m).*1.
Proof. rewrite map_iter_perm. apply NoDup_fst_map_to_list. Qed.

(** ** Facts about sessions *)

Section SessionFacts.
Import Session SessionNotions Scenario.

Lemma onComputation_Some {R} (f : Computation.t → R * Computation.t * list Action)
    d k s c :
  mComputations s !! k = Some c →
  onComputation f d k s =
    ((f c).1.1, emit (f c).2 (set_mComputations (<[k := (f c).1.2]> (mComputations s)) s)).
Proof. intros H. unfold onComputation. rewrite H. by destruct (f c) as [[r c'] acts]. Qed.

Lemma onComputation_None {R} (f : Computation.t → R * Computation.t * list Action)
    d k s :
  mComputations s !! k = None → onComputation f d k s = (d, s).
Proof. intros H. unfold onComputation. by rewrite H. Qed.

Lemma onComputation_control {R} (f : Computation.t → R * Computation.t * list Action)
    d k s :
  control (onComputation f d k s).2 = control s.
Proof.
  destruct (mComputations s !! k) as [c|] eqn:E.
  - by rewrite (onComputation_Some _ _ _ _ _ E).
  - by rewrite (onComputation_None _ _ _ _ E).
Qed.

Lemma foldl_onComputation {R} (f : uuid → Computation.t → R * Computation.t * list Action)
    d (L : list uuid) (s : t) :
  NoDup L →
  let s' := foldl (λ s k, (onComputation (f k) d k s).2) s L in
  control s' = control s ∧
  mLogLevel s' = mLogLevel s ∧
  actions s' =
    actions s ++ concat ((λ k, from_option (λ c, (f k c).2) [] (mComputations s !! k)) <$> L) ∧
  (∀ k, mComputations s' !! k =
        if decide (k ∈ L) then (λ c, (f k c).1.2) <$> mComputations s !! k
        else mComputations s !! k).
Proof.
  revert s. induction L as [|k L IH]; intros s Hnd; simpl.
  - split_and!; try done. by rewrite app_nil_r.
  - apply NoDup_cons in Hnd as [Hk Hnd].
    specialize (IH (onComputation (f k) d k s).2 Hnd). simpl in IH.
    destruct IH as (Hc & Hl & Ha & Hm).
    destruct (mComputations s !! k) as [c|] eqn:E.
    + rewrite (onComputation_Some _ _ _ _ _ E) in *. simpl in *.
      split_and!; try done.
      * rewrite Ha. rewrite <- app_assoc. f_equal. f_equal. f_equal.
        apply list_fmap_ext. intros i k' Hk'.
        rewrite lookup_insert_ne; [done|].
        intros ->. apply Hk. by eapply list_elem_of_lookup_2.
      * intros k'. rewrite Hm.
        destruct (decide (k' = k)) as [->|Hne].
        -- rewrite decide_False by done. rewrite decide_True by (rewrite elem_of_cons; tauto).
           by rewrite lookup_insert_eq, E.
        -- rewrite lookup_insert_ne by done.
           destruct (decide (k' ∈ L)); [rewrite decide_True by (rewrite elem_of_cons; tauto)|rewrite decide_False by (rewrite elem_of_cons; tauto)]; done.
    + rewrite (onComputation_None _ _ _ _ E) in *. simpl in *.
      split_and!; try done.
      intros k'. rewrite Hm.
      destruct (decide (k' = k)) as [->|Hne].
      -- rewrite decide_False by done. rewrite decide_True by (rewrite elem_of_cons; tauto). by rewrite E.
      -- destruct (decide (k' ∈ L)); [rewrite decide_True by (rewrite elem_of_cons; tauto)|rewrite decide_False by (rewrite elem_of_cons; tauto)]; done.
Qed.

Lemma concat_singletons {A B} (g : A → B) (l : list A) :
  concat ((λ k, [g k]) <$> l) = g <$> l.
Proof. induction l as [|a l IH]; [done|]. rewrite !fmap_cons. simpl. by rewrite IH. Qed.

Lemma getConfigDelta_removed cfg s k :
  k ∈ (getConfigDelta cfg s).1 ↔
  is_Some (mComputations s !! k) ∧ getComputations cfg !! k = None.
Proof.
  unfold getConfigDelta. simpl. rewrite list_elem_of_fmap. split.
  - intros ([k' c] & -> & H). apply list_elem_of_filter in H as [H1 H2].
    apply elem_of_map_iter in H2. simpl in *. eauto.
  - intros [[c Hc] Hn]. exists (k, c). split; [done|].
    apply list_elem_of_filter. split; [done|]. by apply elem_of_map_iter.
Qed.

Lemma getConfigDelta_removed_NoDup cfg s : NoDup (getConfigDelta cfg s).1.
Proof.
  unfold getConfigDelta. simpl.
  eapply sublist_NoDup; [apply (NoDup_fst_map_iter (mComputations s))|].
  apply fmap_sublist. apply sublist_filter.
Qed.

Lemma getConfigDelta_added cfg s k :
  k ∈ (map_iter (getConfigDelta cfg s).2).*1 ↔
  is_Some (getComputations cfg !! k) ∧ mComputations s !! k = None.
Proof.
  unfold getConfigDelta. simpl. rewrite list_elem_of_fmap. split.
  - intros ([k' n] & -> & H). apply elem_of_map_iter in H.
    apply map_lookup_filter_Some in H as [H1 H2]. simpl in *. eauto.
  - intros [[n Hn] Hc]. exists (k, n). split; [done|].
    apply elem_of_map_iter. by apply map_lookup_filter_Some.
Qed.

Lemma id_terminate c : Computation.id (Computation.terminate c) = Computation.id c.
Proof. unfold Computation.terminate. by destruct (Computation.state c). Qed.

Lemma waitForShutdown_spec env W s :
  (∀ k, k ∈ W → ∃ c, mComputations s !! k = Some c ∧ Computation.id c = k) →
  ∃ waited,
    waited `prefix_of` W ∧
    actions (waitForShutdown env W s).2 = actions s ++ (ProcessWait <$> waited) ∧
    control (waitForShutdown env W s).2 = control s ∧
    mLogLevel (waitForShutdown env W s).2 = mLogLevel s ∧
    (∀ k, k ∉ W → mComputations (waitForShutdown env W s).2 !! k = mComputations s !! k) ∧
    match (waitForShutdown env W s).1 with
    | Returned _ => waited = W ∧ ∀ k, k ∈ W → exitsInTime env k = true
    | Threw _ => ∃ k, k ∈ W ∧ exitsInTime env k = false
    end.
Proof.
  revert s. induction W as [|k W IH]; intros s Hin; simpl.
  - exists []. split_and!; try done; [by rewrite app_nil_r|].
    intros k Hk. by apply elem_of_nil in Hk.
  - destruct (Hin k) as (c & Hc & Hid); [left|].
    rewrite (onComputation_Some _ _ _ _ _ Hc).
    unfold Computation.waitUntilShutdown. rewrite Hid.
    destruct (exitsInTime env k) eqn:Hex; simpl.
    + match goal with |- context [waitForShutdown env W ?s1] => destruct (IH s1) as (waited & Hp & Ha & Hctl & Hl & Hm & Hres) end.
      { intros k' Hk'. simpl. destruct (decide (k' = k)) as [->|Hne].
        - rewrite lookup_insert_eq. eauto.
        - rewrite lookup_insert_ne by done. apply Hin. by right. }
      exists (k :: waited). split_and!.
      * by apply prefix_cons.
      * rewrite Ha. simpl. by rewrite <- app_assoc.
      * by rewrite Hctl.
      * by rewrite Hl.
      * intros k' Hk'. apply not_elem_of_cons in Hk' as [Hne Hk'].
        rewrite Hm by done. simpl. by rewrite lookup_insert_ne.
      * destruct (waitForShutdown env W _).1.
        -- destruct Hres as [-> Hall]. split; [done|].
           intros k' [->|Hk']%elem_of_cons; auto.
        -- destruct Hres as (k' & Hk' & Hf). exists k'. split; [by right|done].
    + exists [k]. split_and!; try done.
      * apply prefix_cons, prefix_nil.
      * intros k' Hk'. apply not_elem_of_cons in Hk' as [Hne Hk'].
        by rewrite lookup_insert_ne.
      * exists k. split; [left|done].
Qed.

Lemma startNewComputation_cases env k n cfg s :
  (startable env cfg k n = true ∧
   startNewComputation env k n cfg s =
     (Returned tt,
      set_mComputations (<[k := started k n]> (mComputations s))
                        (emit [ProcessSpawn k] s))) ∨
  (startable env cfg k n = false ∧
   ∃ e, startNewComputation env k n cfg s = (Threw e, s) ∨
        startNewComputation env k n cfg s = (Threw e, emit [ProcessSpawn k] s)).
Proof.
  unfold startable, startNewComputation.
  destruct (definitions cfg !! n) as [ctx|]; [|right; eauto].
  destruct (bool_decide (ctx ≠ "") && bool_decide (contexts cfg !! ctx = None));
    simpl; [right; eauto|].
  destruct (launch env k); simpl; eauto.
Qed.

Lemma startAll_spec env cfg (N : list (uuid * string)) s :
  ∃ spawned,
    spawned `prefix_of` N.*1 ∧
    actions (startAll env cfg N s).2 = actions s ++ (ProcessSpawn <$> spawned) ∧
    control (startAll env cfg N s).2 = control s ∧
    mLogLevel (startAll env cfg N s).2 = mLogLevel s ∧
    (∀ k, k ∉ N.*1 → mComputations (startAll env cfg N s).2 !! k = mComputations s !! k) ∧
    match (startAll env cfg N s).1 with
    | Returned _ =>
        spawned = N.*1 ∧
        ∀ k, k ∈ N.*1 →
          ∃ c, mComputations (startAll env cfg N s).2 !! k = Some c ∧
               Computation.id c = k ∧ Computation.state c = Spawned
    | Threw _ => ∃ k n, (k, n) ∈ N ∧ startable env cfg k n = false
    end.
Proof.
  revert s. induction N as [|[k n] N IH]; intros s; simpl.
  - exists []. split_and!; try done; [by rewrite app_nil_r|].
    intros k Hk. by apply elem_of_nil in Hk.
  - destruct (startNewComputation_cases env k n cfg s) as [[Hs ->]|[Hs [e [-> | ->]]]].
    + match goal with |- context [startAll env cfg N ?s1] =>
        destruct (IH s1) as (spawned & Hp & Ha & Hctl & Hl & Hm & Hres) end.
      exists (k :: spawned). split_and!.
      * by apply prefix_cons.
      * rewrite Ha. simpl. by rewrite <- app_assoc.
      * by rewrite Hctl.
      * by rewrite Hl.
      * intros k' Hk'. apply not_elem_of_cons in Hk' as [Hne Hk'].
        rewrite Hm by done. simpl. by rewrite lookup_insert_ne.
      * destruct (startAll env cfg N _).1.
        -- destruct Hres as [-> Hall]. split; [done|].
           intros k' Hk'. destruct (decide (k' ∈ N.*1)) as [Hin|Hnin]; [by apply Hall|].
           apply elem_of_cons in Hk' as [->|?]; [|done].
           rewrite Hm by done. simpl. rewrite lookup_insert_eq. by eexists.
        -- destruct Hres as (k' & n' & Hk' & Hf). exists k', n'. split; [by right|done].
    + exists []. split_and!; try done.
      * apply prefix_nil.
      * by rewrite app_nil_r.
      * exists k, n. split; [left|done].
    + exists [k]. split_and!; try done.
      * apply prefix_cons, prefix_nil.
      * exists k, n. split; [left|done].
Qed.

Lemma startAll_startable env cfg (N : list (uuid * string)) s :
  (∀ k n, (k, n) ∈ N → startable env cfg k n = true) →
  (startAll env cfg N s).1 = Returned tt.
Proof.
  intros H. destruct (startAll_spec env cfg N s) as (? & _ & _ & _ & _ & _ & Hres).
  destruct (startAll env cfg N s).1 as [[]|e]; [done|].
  destruct Hres as (k & n & Hin & Hf). rewrite H in Hf; done.
Qed.

(** C8.  A modify acts on the delta only.  The computations of the session
    that the new configuration does not list are the ones shut down, and
    those it lists that the session does not have are the ones spawned.  The
    trace of the call is: terminate every removed computation, wait for them
    in turn, spawn the added ones; a spawn happens only after every removed
    computation was waited for and has exited before the deadline.  A
    computation that is in both sets is the same afterwards.  When every
    removed computation exits in time and every added one can start, the
    call returns normally with all of them waited for and spawned. *)
Theorem applyNewConfig_delta env cfg s :
  keys_ok s →
  let old := mComputations s in
  let new := getComputations cfg in
  let removed := (getConfigDelta cfg s).1 in
  let added := (map_iter (getConfigDelta cfg s).2).*1 in
  let res := (applyNewConfig env cfg s).1 in
  let s' := (applyNewConfig env cfg s).2 in
  (∀ k, k ∈ removed ↔ is_Some (old !! k) ∧ new !! k = None) ∧
  (∀ k, k ∈ added ↔ is_Some (new !! k) ∧ old !! k = None) ∧
  (∃ waited spawned,
     actions s' = actions s ++ (ProcessTerminate <$> removed) ++
                  (ProcessWait <$> waited) ++ (ProcessSpawn <$> spawned) ∧
     waited `prefix_of` removed ∧ spawned `prefix_of` added ∧
     (spawned ≠ [] →
        waited = removed ∧ ∀ k, k ∈ removed → exitsInTime env k = true) ∧
     (res = Returned tt → waited = removed ∧ spawned = added)) ∧
  (∀ k c, old !! k = Some c → is_Some (new !! k) →
          mComputations s' !! k = Some c) ∧
  ((∀ k, k ∈ removed → exitsInTime env k = true) →
   (∀ k n, new !! k = Some n → old !! k = None → startable env cfg k n = true) →
   res = Returned tt).
Proof.
  intros Hok old new removed added res s'.
  assert (Hrem : ∀ k, k ∈ removed ↔ is_Some (old !! k) ∧ new !! k = None)
    by apply getConfigDelta_removed.
  assert (Hadd : ∀ k, k ∈ added ↔ is_Some (new !! k) ∧ old !! k = None)
    by apply getConfigDelta_added.
  split; [done|]. split; [done|].
  subst res s'. unfold applyNewConfig.
  set (s0 := set_mLogLevel _ s).
  assert (Hd : getConfigDelta cfg s0 = getConfigDelta cfg s) by done.
  rewrite Hd. subst removed added.
  pose proof (getConfigDelta_removed_NoDup cfg s) as Hnd.
  destruct (getConfigDelta cfg s) as [D NC] eqn:HD. simpl in Hrem, Hadd, Hnd |- *.
  destruct (foldl_onComputation (λ _, Computation.shutdown) tt D s0 Hnd)
    as (Hc1 & Hl1 & Ha1 & Hm1).
  set (s1 := foldl _ s0 D) in *.
  assert (Ha1' : actions s1 = actions s ++ (ProcessTerminate <$> D)).
  { rewrite Ha1. simpl. f_equal. rewrite <- (concat_singletons ProcessTerminate D). f_equal.
    apply list_fmap_ext. intros i k Hk.
    apply list_elem_of_lookup_2, Hrem in Hk as [[c Hc] _].
    unfold old in Hc. rewrite Hc. simpl. by rewrite (Hok _ _ Hc). }
  destruct (waitForShutdown_spec env D s1) as (waited & Hp2 & Ha2 & Hc2 & Hl2 & Hm2 & Hres2).
  { intros k Hk. rewrite Hm1, decide_True by done.
    apply Hrem in Hk as [[c Hc] _]. unfold old in Hc. simpl. rewrite Hc. simpl.
    eexists; split; [done|]. rewrite id_terminate. simpl. by apply Hok. }
  destruct (waitForShutdown env D s1) as [[[]|e] s2] eqn:Hw; simpl in *.
  - destruct Hres2 as [-> Hex].
    destruct (startAll_spec env cfg (map_iter NC) s2)
      as (spawned & Hp3 & Ha3 & Hc3 & Hl3 & Hm3 & Hres3).
    split; [|split].
    + exists D, spawned. split_and!; try done.
      * rewrite Ha3, Ha2, Ha1'. by rewrite <- !app_assoc.
      * intros Heq. rewrite Heq in Hres3. by destruct Hres3.
    + intros k c Hc Hn.
      assert (k ∉ (map_iter NC).*1) as Hk1.
      { intros [_ Hx]%Hadd. unfold old in *. congruence. }
      assert (k ∉ D) as Hk2.
      { intros [_ Hx]%Hrem. rewrite Hx in Hn. by destruct Hn. }
      rewrite Hm3, Hm2, Hm1 by done. by rewrite decide_False.
    + intros _ Hst. apply startAll_startable. intros k n Hkn.
      pose proof Hkn as Hkn'. apply elem_of_map_iter in Hkn'.
      assert (k ∈ (map_iter NC).*1) as [[n' Hn'] Ho]%Hadd.
      { apply list_elem_of_fmap. by exists (k, n). }
      unfold getConfigDelta in HD. injection HD as _ <-.
      apply map_lookup_filter_Some in Hkn' as [Hkn' _]. by apply Hst.
  - destruct Hres2 as (k & Hk & Hf).
    split; [|split].
    + exists waited, []. split_and!; try done.
      * rewrite Ha2, Ha1'. by rewrite <- !app_assoc, app_nil_r.
      * apply prefix_nil.
    + intros k' c Hc Hn.
      assert (k' ∉ D) as Hk2.
      { intros [_ Hx]%Hrem. rewrite Hx in Hn. by destruct Hn. }
      rewrite Hm2, Hm1 by done. by rewrite decide_False.
    + intros Hex. rewrite Hex in Hf; done.
Qed.

Lemma foldl_control {A} (g : t → A → t) (L : list A) s :
  (∀ s a, control (g s a) = control s) → control (foldl g s L) = control s.
Proof.
  intros Hg. revert s. induction L as [|a L IH]; intros s; simpl; [done|].
  by rewrite IH, Hg.
Qed.

Lemma waitForShutdown_control env W s :
  control (waitForShutdown env W s).2 = control s.
Proof.
  revert s. induction W as [|k W IH]; intros s; simpl; [done|].
  pose proof (onComputation_control
                (Computation.waitUntilShutdown (exitsInTime env k)) true k s) as H.
  destruct (onComputation _ true k s) as [[] s1]; simpl in *; [|done].
  by rewrite IH.
Qed.

Lemma startNewComputation_control env k n cfg s :
  control (startNewComputation env k n cfg s).2 = control s.
Proof.
  destruct (startNewComputation_cases env k n cfg s) as [[_ ->]|[_ [e [-> | ->]]]]; done.
Qed.

Lemma startAll_control env cfg N s :
  control (startAll env cfg N s).2 = control s.
Proof.
  revert s. induction N as [|[k n] N IH]; intros s; simpl; [done|].
  pose proof (startNewComputation_control env k n cfg s) as H.
  destruct (startNewComputation env k n cfg s) as [[[]|e] s1]; simpl in *; [|done].
  by rewrite IH.
Qed.

Lemma applyNewConfig_control env cfg s :
  control (applyNewConfig env cfg s).2 = control s.
Proof.
  unfold applyNewConfig.
  destruct (getConfigDelta cfg _) as [D NC].
  set (s1 := foldl _ _ D).
  assert (control s1 = control s) as H1.
  { subst s1. rewrite foldl_control; [done|]. intros; apply onComputation_control. }
  pose proof (waitForShutdown_control env D s1) as H2.
  destruct (waitForShutdown env D s1) as [[[]|e] s2]; simpl in *.
  - rewrite startAll_control. congruence.
  - congruence.
Qed.

Lemma control_mState s s' : control s' = control s → mState s' = mState s.
Proof. unfold control. congruence. Qed.

Lemma control_mOperationThread s s' :
  control s' = control s → mOperationThread s' = mOperationThread s.
Proof. unfold control. congruence. Qed.

Lemma control_mShuttingDown s s' :
  control s' = control s → mShuttingDown s' = mShuttingDown s.
Proof. unfold control. congruence. Qed.

Lemma updateProc_mState env cfg s :
  mState (updateProc env cfg s) = if bool_decide (mState s = Busy) then Free else mState s.
Proof.
  unfold updateProc.
  pose proof (applyNewConfig_control env cfg s) as H%control_mState.
  destruct (applyNewConfig env cfg s) as [[[]|e] s1]; simpl in *;
    rewrite <- H; by case_bool_decide.
Qed.

Lemma updateProc_frame env cfg s :
  mOperationThread (updateProc env cfg s) = mOperationThread s ∧
  mShuttingDown (updateProc env cfg s) = mShuttingDown s.
Proof.
  unfold updateProc.
  pose proof (applyNewConfig_control env cfg s) as H.
  destruct (applyNewConfig env cfg s) as [[[]|e] s1]; simpl in *;
    case_bool_decide; simpl;
    (split; [by apply control_mOperationThread in H | by apply control_mShuttingDown in H]).
Qed.

Lemma deleteProc_mState env reason s : mState (deleteProc env reason s) = Defunct.
Proof. done. Qed.

Lemma deleteProc_frame env reason s :
  mOperationThread (deleteProc env reason s) = mOperationThread s ∧
  mShuttingDown (deleteProc env reason s) = mShuttingDown s.
Proof.
  unfold deleteProc. simpl.
  set (f1 := λ s compId, (onComputation Computation.shutdown () compId s).2).
  set (f2 := λ s compId, (onComputation _ true compId s).2).
  assert (control (foldl f2 (foldl f1 s (map_iter (mComputations s)).*1)
            (map_iter (mComputations s)).*1) = control s) as H.
  { rewrite !foldl_control; [done|intros; apply onComputation_control..]. }
  split; [by apply control_mOperationThread in H | by apply control_mShuttingDown in H].
Qed.

Lemma signalAll_control d s : control (signalAll d s) = control s.
Proof. unfold signalAll. apply foldl_control. intros; apply onComputation_control. Qed.

Lemma step_Defunct c s : mState s = Defunct → mState (step c s).2 = Defunct.
Proof.
  intros H. destruct c as [cfg|reason|env reason|d|env]; simpl.
  - unfold asyncUpdateConfig. repeat case_bool_decide; simpl; try done.
    destruct (mShuttingDown s); [done|]. by rewrite H.
  - unfold asyncDelete. destruct (mShuttingDown s); [done|]. by rewrite H.
  - unfold syncShutdown. simpl. rewrite bool_decide_eq_false_2 by (by rewrite H). done.
  - unfold signal, checkIsFree. by rewrite H.
  - unfold operationThread. destruct (mOperationThread s) as [[cfg|reason]|]; simpl; try done.
    rewrite updateProc_mState. rewrite bool_decide_eq_false_2 by (by rewrite H). done.
Qed.

Lemma run_Defunct calls s : mState s = Defunct → mState (run calls s) = Defunct.
Proof.
  revert s. induction calls as [|c calls IH]; intros s H; [done|].
  simpl. apply IH. by apply step_Defunct.
Qed.

Local Opaque deleteProc updateProc.

Lemma new_one_operation sid nid l a : one_operation (new sid nid l a).
Proof. split; [done|]. by intros [? ?]. Qed.

Lemma step_one_operation c s : one_operation s → one_operation (step c s).2.
Proof.
  unfold one_operation. intros Hwf.
  destruct c as [cfg|reason|env reason|d|env]; simpl.
  - unfold asyncUpdateConfig. repeat case_bool_decide; simpl; try done.
    destruct (mShuttingDown s); [done|].
    destruct (mState s) eqn:E; simpl; rewrite ?E; done.
  - unfold asyncDelete. destruct (mShuttingDown s); [done|].
    destruct (mState s) eqn:E; simpl; rewrite ?E; done.
  - unfold syncShutdown. simpl.
    case_bool_decide as Hb.
    + destruct (operationCompletesInTime env); [|done].
      apply Hwf in Hb as [op Hop].
      unfold operationThread. simpl. rewrite Hop.
      destruct op as [cfg|r]; simpl.
      * rewrite bool_decide_eq_false_2; simpl.
        -- rewrite deleteProc_mState. rewrite (proj1 (deleteProc_frame _ _ _)). simpl. split; [done|]. by intros [? ?].
        -- rewrite updateProc_mState. simpl.
           destruct (mState s); by repeat case_bool_decide.
      * rewrite deleteProc_mState. rewrite bool_decide_eq_false_2 by done. simpl.
        rewrite deleteProc_mState, (proj1 (deleteProc_frame _ _ _)). simpl. split; [done|]. by intros [? ?].
    + simpl. rewrite deleteProc_mState, (proj1 (deleteProc_frame _ _ _)). simpl.
      split; [done|]. intros Hs. apply Hwf in Hs. done.
  - unfold signal. destruct (checkIsFree s); [|done].
    repeat case_bool_decide; simpl; try done.
    pose proof (signalAll_control d s) as Hc.
    destruct (sd_routing d); simpl;
      rewrite (control_mState _ _ Hc), (control_mOperationThread _ _ Hc); apply Hwf.
  - unfold operationThread. destruct (mOperationThread s) as [[cfg|reason]|] eqn:E; simpl; try done.
    + rewrite updateProc_mState. split; [|by intros [? ?]].
      case_bool_decide; done.
    + by rewrite E.
Qed.

(** C1.  The operations of a session follow a state machine.  For a session
    that is not shutting down, [asyncUpdateConfig] (on a configuration for
    this session and node) and [asyncDelete] started while the session is
    Free set it Busy and file the operation for the operation thread; started
    while it is Busy or Defunct they throw a conflict error (409) at once and
    leave the session as it was.  The operation thread sets the session Free
    when an update completes and Defunct when a delete completes, and no
    sequence of calls takes a Defunct session out of Defunct.  Once the
    session is shutting down both calls throw an internal error (500).
    [syncShutdown] does not refuse a Busy session: it marks the session as
    shutting down, waits for the operation in flight, and then deletes the
    session itself, which ends Defunct; it throws (500) only when that
    operation does not complete in time. *)
Theorem session_operation_discipline (s : Session.t) :
  (∀ cfg, mShuttingDown s = false →
          mId s = sessionId cfg → mNodeId s = nodeId cfg →
     match mState s with
     | Free =>
         asyncUpdateConfig cfg s =
           (Returned tt, set_mOperationThread (Some (UpdateOp cfg)) (set_mState Busy s))
     | _ =>
         ∃ e, asyncUpdateConfig cfg s = (Threw e, s) ∧
              httpCode e = HTTP_RESOURCE_CONFLICT
     end) ∧
  (∀ reason, mShuttingDown s = false →
     match mState s with
     | Free =>
         asyncDelete reason s =
           (Returned tt, set_mOperationThread (Some (DeleteOp reason)) (set_mState Busy s))
     | _ =>
         ∃ e, asyncDelete reason s = (Threw e, s) ∧
              httpCode e = HTTP_RESOURCE_CONFLICT
     end) ∧
  (∀ env cfg, mState s = Busy → mOperationThread s = Some (UpdateOp cfg) →
     mState (operationThread env s) = Free ∧
     mOperationThread (operationThread env s) = None) ∧
  (∀ env reason, mOperationThread s = Some (DeleteOp reason) →
     mState (operationThread env s) = Defunct ∧
     mOperationThread (operationThread env s) = None) ∧
  (∀ calls, mState s = Defunct → mState (run calls s) = Defunct) ∧
  (∀ cfg reason, mShuttingDown s = true →
     (∃ e, asyncUpdateConfig cfg s = (Threw e, s) ∧
           httpCode e = HTTP_INTERNAL_SERVER_ERROR) ∧
     (∃ e, asyncDelete reason s = (Threw e, s) ∧
           httpCode e = HTTP_INTERNAL_SERVER_ERROR)) ∧
  (∀ env reason,
     mShuttingDown (syncShutdown env reason s).2 = true ∧
     match (syncShutdown env reason s).1 with
     | Returned _ => mState (syncShutdown env reason s).2 = Defunct
     | Threw e =>
         mState s = Busy ∧ httpCode e = HTTP_INTERNAL_SERVER_ERROR ∧
         (operationCompletesInTime env = true → mOperationThread s = None)
     end).
Proof.
  split_and!.
  - intros cfg Hsd Hid Hnid. unfold asyncUpdateConfig.
    rewrite !bool_decide_eq_false_2, Hsd by (intros ?; done).
    destruct (mState s); eauto.
  - intros reason Hsd. unfold asyncDelete. rewrite Hsd.
    destruct (mState s); eauto.
  - intros env cfg Hb Hop. unfold operationThread. rewrite Hop. simpl.
    rewrite updateProc_mState. by rewrite bool_decide_eq_true_2.
  - intros env reason Hop. unfold operationThread. rewrite Hop. simpl.
    by rewrite deleteProc_mState.
  - intros calls. apply run_Defunct.
  - intros cfg reason Hsd. split.
    + unfold asyncUpdateConfig. repeat case_bool_decide; eauto.
      rewrite Hsd. eauto.
    + unfold asyncDelete. rewrite Hsd. eauto.
  - intros env reason. unfold syncShutdown. simpl.
    case_bool_decide as Hb.
    + destruct (operationCompletesInTime env); [|done].
      unfold operationThread. simpl.
      destruct (mOperationThread s) as [[cfg|r]|] eqn:Hop; simpl.
      * rewrite updateProc_mState. simpl. rewrite Hb.
        rewrite (bool_decide_eq_true_2 (Busy = Busy)) by done.
        rewrite bool_decide_eq_false_2 by done. simpl.
        rewrite deleteProc_mState, (proj2 (deleteProc_frame _ _ _)). simpl.
        by rewrite (proj2 (updateProc_frame _ _ _)).
      * rewrite deleteProc_mState, bool_decide_eq_false_2 by done. simpl.
        rewrite deleteProc_mState, !(proj2 (deleteProc_frame _ _ _)). simpl.
        by rewrite (proj2 (deleteProc_frame _ _ _)).
      * simpl. rewrite bool_decide_eq_true_2 by done. done.
    + simpl. by rewrite deleteProc_mState, (proj2 (deleteProc_frame _ _ _)).
Qed.

Lemma syncShutdown_of_busy_session :
  let s := (asyncUpdateConfig cfgAB (new 7%N 1%N 3 false)).2 in
  let s' := (syncShutdown envOk "node shutdown" s).2 in
  mState s = Busy ∧
  (syncShutdown envOk "node shutdown" s).1 = Returned tt ∧
  mState s' = Defunct ∧
  threwCode (asyncDelete "late delete" s').1 = Some HTTP_INTERNAL_SERVER_ERROR.
Proof. vm_compute. done. Qed.

Lemma session_operation_discipline_witness :
  let s := new 7%N 1%N 3 false in
  asyncUpdateConfig cfgAB s =
    (Returned tt, set_mOperationThread (Some (UpdateOp cfgAB)) (set_mState Busy s)).
Proof.
  intros s. destruct (session_operation_discipline s) as [H _].
  exact (H cfgAB eq_refl eq_refl eq_refl).
Defined.

Lemma signals_after_go sid auto ds c acc :
  Computation.state c = Spawned → Computation.mSentGo c = true →
  Forall (λ d, sd_status d = Some "run") ds →
  foldl (λ st d,
           let '(_, c', acts) := Computation.signal sid auto d st.1 in
           (c', st.2 ++ acts))
        (c, acc) ds =
  (c, acc ++ ((λ d, SendControl (Computation.id c) sid "update" d) <$> ds)).
Proof.
  intros Hs Hg Hall. revert acc.
  induction Hall as [|d ds Hd Hall IH]; intros acc; simpl.
  - by rewrite app_nil_r.
  - unfold Computation.signal at 2. rewrite Hd, Hs, Hg. simpl.
    rewrite IH. by rewrite <- app_assoc.
Qed.

(** C9.  For a computation in the Spawned state that has not been sent [go],
    a sequence of signals with status [run] is delivered as one [go] control
    message carrying the first signal (followed by SIGSTOP when the session
    suspends automatically) and then one [update] control message per later
    signal, each carrying that signal's data; the sent-go flag is set and
    nothing else of the computation changes. *)
Theorem run_signal_go_then_update sid auto (c : Computation.t) d ds :
  Computation.state c = Spawned →
  Computation.mSentGo c = false →
  sd_status d = Some "run" →
  Forall (λ d', sd_status d' = Some "run") ds →
  signals sid auto (d :: ds) c =
    (Computation.set_mSentGo true c,
     SendControl (Computation.id c) sid "go" d ::
     (if auto then [ProcessSigstop (Computation.id c)] else []) ++
     ((λ d', SendControl (Computation.id c) sid "update" d') <$> ds)).
Proof.
  intros Hs Hg Hd Hall. unfold signals. simpl.
  unfold Computation.signal at 2. rewrite Hd, Hs, Hg. simpl.
  by rewrite (signals_after_go sid auto ds (Computation.set_mSentGo true c)).
Qed.

Lemma run_signal_go_then_update_witness :
  signals 7%N false [runSignal; runSignal; runSignal] (started 11%N "A") =
    (Computation.set_mSentGo true (started 11%N "A"),
     [SendControl 11%N 7%N "go" runSignal;
      SendControl 11%N 7%N "update" runSignal;
      SendControl 11%N 7%N "update" runSignal]).
Proof.
  apply (run_signal_go_then_update 7%N false (started 11%N "A") runSignal
           [runSignal; runSignal]); try reflexivity.
  repeat constructor.
Defined.

Lemma applyNewConfig_delta_witness :
  keys_ok sessionAB ∧
  actions (applyNewConfig envOk cfgBC sessionAB).2 =
    [ProcessTerminate 11%N; ProcessWait 11%N; ProcessSpawn 13%N] ∧
  mComputations (applyNewConfig envOk cfgBC sessionAB).2 !! 12%N = Some (started 12%N "B").
Proof.
  assert (Hok : keys_ok sessionAB).
  { unfold keys_ok. apply (bool_decide_unpack _). vm_compute. exact I. }
  split; [exact Hok|].
  destruct (applyNewConfig_delta envOk cfgBC sessionAB Hok)
    as (_ & _ & _ & Hframe & _).
  split; [reflexivity|].
  apply Hframe; [reflexivity|by eexists].
Defined.

End SessionFacts.

(** ** Facts about the session manager *)

Section ArrasSessionsFacts.
Import SessionNotions Scenario.
Import ArrasSessions.

Lemma SessionConfig_new_nodeId d n cfg :
  SessionConfig_new d n = inr cfg → nodeId cfg = n.
Proof.
  unfold SessionConfig_new. intros H.
  repeat match type of H with
         | context [match ?x with _ => _ end] => destruct x; try discriminate
         end.
  by injection H as <-.
Qed.

Lemma createSession_fresh ackAfter d a cfg :
  mClosed a = false →
  SessionConfig_new d (mNodeId a) = inr cfg →
  mSessions a !! sessionId cfg = None →
  let r := createSession ackAfter d a in
  ArrasController.sent (mController r.2) =
    ArrasController.sent (mController a) ++
    [ArrasController.SessionRoutingInitialize (sessionId cfg) (getRouting cfg)] ∧
  (0 ≤ now r.2 - now a ≤ ArrasController.WAIT_FOR_ROUTER_HAS_ROUTING)%Z ∧
  if acknowledged ackAfter (sessionId cfg) a then
    r.1 = Response (getResponse cfg) ∧
    ∃ s, mSessions r.2 = <[sessionId cfg := s]> (mSessions a) ∧
         Session.mState s = Session.Busy ∧
         Session.mOperationThread s = Some (Session.UpdateOp cfg)
  else
    r.1 = Error (mkSessionError "Failed to initialize session with node router"
                                HTTP_INTERNAL_SERVER_ERROR) ∧
    mSessions r.2 = mSessions a ∧
    now r.2 = (now a + ArrasController.WAIT_FOR_ROUTER_HAS_ROUTING)%Z.
Proof.
  intros Hc Hp Hn. unfold createSession, acknowledged. rewrite Hc, Hp, Hn.
  pose proof (SessionConfig_new_nodeId _ _ _ Hp) as Hnid.
  unfold ArrasController.initializeSession. simpl.
  assert (Hup : ∀ s0, Session.mId s0 = sessionId cfg → Session.mNodeId s0 = mNodeId a →
     Session.mShuttingDown s0 = false → Session.mState s0 = Session.Free →
     Session.asyncUpdateConfig cfg s0 =
       (Returned tt, Session.set_mOperationThread (Some (Session.UpdateOp cfg))
                       (Session.set_mState Session.Busy s0))).
  { intros s0 H1 H2 H3 H4. unfold Session.asyncUpdateConfig.
    rewrite !bool_decide_eq_false_2, H3, H4 by (intros ?; congruence). done. }
  destruct (default false _) eqn:Hflag; simpl.
  - destruct (isThisEntryNode cfg); rewrite Hup by done; simpl;
      (split; [done|]);
      (split; [unfold ArrasController.WAIT_FOR_ROUTER_HAS_ROUTING; lia|]);
      (split; [done|]); eexists; (split; [by rewrite insert_insert_eq|done]).
  - destruct ackAfter as [ms|]; simpl.
    + destruct (ms <? _)%Z eqn:Hms; simpl.
      * destruct (isThisEntryNode cfg); rewrite Hup by done; simpl;
          (split; [done|]);
          (split; [unfold ArrasController.WAIT_FOR_ROUTER_HAS_ROUTING in *; lia|]);
          (split; [done|]); eexists; (split; [by rewrite insert_insert_eq|done]).
      * split; [done|].
        split; [unfold ArrasController.WAIT_FOR_ROUTER_HAS_ROUTING in *; lia|].
        split; [done|]. split; [|done]. by rewrite delete_insert_id.
    + split; [done|].
      split; [unfold ArrasController.WAIT_FOR_ROUTER_HAS_ROUTING in *; lia|].
      split; [done|]. split; [|done]. by rewrite delete_insert_id.
Qed.

Lemma createSession_closed ackAfter d a :
  mClosed a = true →
  createSession ackAfter d a =
    (Error (mkSessionError "Node is closed : cannot accept new sessions"
                           HTTP_RESOURCE_CONFLICT), a).
Proof. intros H. unfold createSession. by rewrite H. Qed.

Lemma createSession_exists ackAfter d a cfg :
  mClosed a = false →
  SessionConfig_new d (mNodeId a) = inr cfg →
  is_Some (mSessions a !! sessionId cfg) →
  createSession ackAfter d a =
    (Error (mkSessionError "Session already exists" HTTP_RESOURCE_CONFLICT), a).
Proof. intros Hc Hp [s Hs]. unfold createSession. by rewrite Hc, Hp, Hs. Qed.


Lemma createSession_frame ackAfter d a :
  mNodeId (createSession ackAfter d a).2 = mNodeId a ∧
  mClosed (createSession ackAfter d a).2 = mClosed a.
Proof.
  unfold createSession.
  destruct (mClosed a) eqn:Hc; [done|].
  destruct (SessionConfig_new _ _) as [w|cfg]; [done|].
  destruct (mSessions a !! _); [done|].
  destruct (ArrasController.initializeSession _ _ _) as [[[] w] c]; simpl; [|done].
  by destruct (Session.asyncUpdateConfig _ _) as [[[]|e] s1].
Qed.

Lemma createSession_Response ackAfter d a resp a1 cfg :
  SessionConfig_new d (mNodeId a) = inr cfg →
  createSession ackAfter d a = (Response resp, a1) →
  mClosed a = false ∧ is_Some (mSessions a1 !! sessionId cfg).
Proof.
  intros Hp. unfold createSession.
  destruct (mClosed a) eqn:Hc; [done|]. rewrite Hp.
  destruct (mSessions a !! _); [done|].
  destruct (ArrasController.initializeSession _ _ _) as [[[] w] c]; simpl; [|done].
  destruct (Session.asyncUpdateConfig _ _) as [[[]|e] s1]; [|done].
  intros [= <- <-]. split; [done|]. simpl. rewrite lookup_insert_eq. by eexists.
Qed.

(** C2.  After a create that succeeded and a delete of the session that ran
    to completion, the session is still in the session map, in state
    Defunct, and a create with the same definition is refused with the
    conflict error [Session already exists] (409): the id is not reusable. *)
Theorem create_delete_create ack1 ack2 env1 env2 d a0 cfg reason resp a1 a3 :
  SessionConfig_new d (mNodeId a0) = inr cfg →
  createSession ack1 d a0 = (Response resp, a1) →
  deleteSession (sessionId cfg) reason (operationThread env1 (sessionId cfg) a1)
    = (Returned tt, a3) →
  let a4 := operationThread env2 (sessionId cfg) a3 in
  (∃ s, mSessions a4 !! sessionId cfg = Some s ∧
        Session.mState s = Session.Defunct) ∧
  createSession ack2 d a4 =
    (Error (mkSessionError "Session already exists" HTTP_RESOURCE_CONFLICT), a4).
Proof.
  intros Hp Hc1 Hd a4.
  destruct (createSession_Response _ _ _ _ _ _ Hp Hc1) as [Hcl _].
  pose proof (createSession_frame ack1 d a0) as [Hn1 Hcl1]. rewrite Hc1 in Hn1, Hcl1.
  simpl in Hn1, Hcl1.
  unfold deleteSession in Hd.
  destruct (mSessions (operationThread env1 _ a1) !! sessionId cfg) as [s2|] eqn:Hs2;
    [|done].
  unfold Session.asyncDelete in Hd.
  destruct (Session.mShuttingDown s2); [done|].
  destruct (Session.mState s2); try done.
  injection Hd as <-.
  assert (Hs4 : mSessions a4 !! sessionId cfg =
    Some (Session.operationThread env2
            (Session.set_mOperationThread (Some (Session.DeleteOp reason))
               (Session.set_mState Session.Busy s2)))).
  { subst a4. unfold operationThread. simpl.
    by rewrite lookup_alter_eq, lookup_insert_eq. }
  split.
  - eexists. split; [exact Hs4|]. done.
  - apply createSession_exists with (cfg := cfg).
    + subst a4. simpl. congruence.
    + subst a4. simpl. congruence.
    + rewrite Hs4. by eexists.
Qed.

Lemma descAB_parses : SessionConfig_new descAB 1%N = inr cfgOfDescAB.
Proof. vm_compute. reflexivity. Qed.

Lemma second_create_is_refused :
  let r1 := createSession (Some 5%Z) descAB node1 in
  let a2 := operationThread envOk 7%N r1.2 in
  let r3 := deleteSession 7%N "done" a2 in
  let a4 := operationThread envOk 7%N r3.2 in
  r1.1 = Response (getResponse cfgOfDescAB) ∧
  r3.1 = Returned tt ∧
  Session.mState <$> mSessions a4 !! 7%N = Some Session.Defunct ∧
  (createSession (Some 5%Z) descAB a4).1 =
    Error (mkSessionError "Session already exists" HTTP_RESOURCE_CONFLICT).
Proof. vm_compute. done. Qed.

Lemma create_delete_create_witness :
  let a1 := (createSession (Some 5%Z) descAB node1).2 in
  let a3 := (deleteSession 7%N "done" (operationThread envOk 7%N a1)).2 in
  let a4 := operationThread envOk 7%N a3 in
  createSession (Some 5%Z) descAB a4 =
    (Error (mkSessionError "Session already exists" HTTP_RESOURCE_CONFLICT), a4).
Proof.
  intros a1 a3 a4.
  refine (proj2 (create_delete_create (Some 5%Z) (Some 5%Z) envOk envOk descAB node1
                   cfgOfDescAB "done" (getResponse cfgOfDescAB) a1 a3 _ _ _)).
  - vm_compute. reflexivity.
  - vm_compute. reflexivity.
  - vm_compute. reflexivity.
Defined.


End ArrasSessionsFacts.

(** ** Facts about the ban list *)

Section BanListFacts.
Import UrlRouter BanNotions Scenario.

Section BanFacts.
Context {H : Type} (respond : H → list string → Z).

Lemma handle_frame clock req r :
  mRoot (handle respond clock req r).2 = mRoot r ∧
  mUnmappedHandler (handle respond clock req r).2 = mUnmappedHandler r.
Proof.
  unfold handle.
  destruct (mBanList r) as [bl|], (getClientAddress req) as [addr|]; simpl;
    try destruct (BanList.isBanned _ _ _ _) as [[] bl']; simpl;
    try destruct (handleNode _ _ _) as [[h vs]|]; done.
Qed.

Lemma handle_banned clock req r countToBan secToUnBan addr e :
  banParameters r countToBan secToUnBan →
  (0 ≤ countToBan < BanList.UINT_MAX)%Z →
  getClientAddress req = Some addr →
  entryOf addr r = Some e →
  (atExpired clock - BanList.timeStamp e ≤ secToUnBan * 1000000000)%Z →
  (countToBan ≤ BanList.count e ≤ BanList.UINT_MAX)%Z →
  (handle respond clock req r).1 = (HTTP_TOO_MANY_REQUESTS, None) ∧
  banParameters (handle respond clock req r).2 countToBan secToUnBan ∧
  entryOf addr (handle respond clock req r).2 =
    Some (if bool_decide (BanList.count e = countToBan)
          then BanList.mkEntry (countToBan + 1) (atBanned clock) else e).
Proof.
  intros (bl & Hbl & Hn & Hw) Hmax Haddr He Hfresh Hcount.
  unfold entryOf in He. rewrite Hbl in He. simpl in He.
  unfold handle. rewrite Hbl, Haddr. unfold BanList.isBanned. rewrite He.
  unfold BanList.hasExpired. rewrite Hw.
  rewrite Z.gtb_ltb. rewrite (proj2 (Z.ltb_ge (secToUnBan * 1000000000) (atExpired clock - BanList.timeStamp e))) by exact Hfresh. rewrite Hn.
  destruct (Z.eqb_spec (BanList.count e) countToBan) as [Heq|Hne]; simpl.
  - rewrite (bool_decide_eq_true_2 (BanList.count e = countToBan)) by done. unfold BanList.incr, BanList.UINT_MAX in *.
    rewrite Z.mod_small by lia.
    destruct (Z.leb_spec countToBan (BanList.count e + 1)); [|lia]. simpl.
    split; [done|]. split.
    + eexists. split; [done|]. done.
    + unfold entryOf. simpl. rewrite lookup_insert_eq. by rewrite Heq.
  - rewrite (bool_decide_eq_false_2 (BanList.count e = countToBan)) by done.
    destruct (Z.leb_spec countToBan (BanList.count e)); [|lia]. simpl.
    split; [done|]. split.
    + eexists. split; [done|]. done.
    + unfold entryOf. simpl. by rewrite lookup_insert_eq.
Qed.

Lemma track_parameters addr now bl :
  BanList.mCountToBan (BanList.track addr now bl) = BanList.mCountToBan bl ∧
  BanList.mSecToUnBan (BanList.track addr now bl) = BanList.mSecToUnBan bl.
Proof. unfold BanList.track. by destruct (BanList.mBanListMap bl !! addr). Qed.

Lemma handle_unknown clock path addr r countToBan secToUnBan :
  banParameters r countToBan secToUnBan →
  (0 ≤ countToBan < BanList.UINT_MAX)%Z →
  addr ≠ "" →
  unknownEndpoint r path →
  respond (mUnmappedHandler r) [] = HTTP_NOT_FOUND →
  match entryOf addr r with
  | None => True
  | Some e =>
      (atExpired clock - BanList.timeStamp e > secToUnBan * 1000000000)%Z ∨
      (0 ≤ BanList.count e < countToBan)%Z
  end →
  let r' := (handle respond clock (mkRequest path (Some addr)) r).2 in
  (handle respond clock (mkRequest path (Some addr)) r).1 =
    (HTTP_NOT_FOUND, Some (mUnmappedHandler r)) ∧
  banParameters r' countToBan secToUnBan ∧
  entryOf addr r' =
    Some (BanList.mkEntry
            match entryOf addr r with
            | None => 1
            | Some e =>
                if (atExpired clock - BanList.timeStamp e >? secToUnBan * 1000000000)%Z
                then 1 else (BanList.count e + 1)
            end%Z
            (atTracked clock)).
Proof.
  intros (bl & Hbl & Hn & Hw) Hmax Haddr Hunk H404 He.
  unfold entryOf in *. rewrite Hbl in *. simpl in He |- *.
  unfold handle. rewrite Hbl. simpl. unfold BanList.isBanned.
  unfold unknownEndpoint in Hunk.
  destruct (BanList.mBanListMap bl !! addr) as [e|] eqn:Hlk; simpl.
  - unfold BanList.hasExpired. rewrite Hw.
    destruct (Z.gtb_spec (atExpired clock - BanList.timeStamp e) (secToUnBan * 1000000000))
      as [Hexp|Hfresh]; simpl.
    + rewrite Hunk, H404. simpl. rewrite bool_decide_eq_true_2 by done. simpl.
      split; [done|]. split; [eexists; split; [done|]; by rewrite (proj1 (track_parameters _ _ _)), (proj2 (track_parameters _ _ _))|].
      unfold BanList.track. simpl. rewrite lookup_delete_eq. simpl.
      by rewrite lookup_insert_eq.
    + destruct He as [He|He]; [lia|]. rewrite Hn.
      destruct (Z.eqb_spec (BanList.count e) countToBan); [lia|]. 
      destruct (Z.leb_spec countToBan (BanList.count e)); [lia|]. simpl.
      rewrite Hunk, H404. simpl. rewrite bool_decide_eq_true_2 by done. simpl.
      split; [done|]. split; [eexists; split; [done|]; by rewrite (proj1 (track_parameters _ _ _)), (proj2 (track_parameters _ _ _))|].
      unfold BanList.track. simpl. rewrite lookup_insert_eq. simpl.
      rewrite lookup_insert_eq. unfold BanList.incr, BanList.UINT_MAX in *.
      by rewrite Z.mod_small by lia.
  - rewrite Hunk, H404. simpl. rewrite bool_decide_eq_true_2 by done. simpl.
    split; [done|]. split; [eexists; split; [done|]; by rewrite (proj1 (track_parameters _ _ _)), (proj2 (track_parameters _ _ _))|].
    unfold BanList.track. rewrite Hlk. simpl. by rewrite lookup_insert_eq.
Qed.

Lemma unknownEndpoint_handle clock req r path :
  unknownEndpoint r path → unknownEndpoint (handle respond clock req r).2 path.
Proof.
  unfold unknownEndpoint. by rewrite (proj1 (handle_frame clock req r)).
Qed.

Lemma unknownGets_counts addr path clocks : ∀ r codes countToBan secToUnBan k stamp,
  banParameters r countToBan secToUnBan →
  (0 ≤ countToBan < BanList.UINT_MAX)%Z →
  addr ≠ "" →
  unknownEndpoint r path →
  respond (mUnmappedHandler r) [] = HTTP_NOT_FOUND →
  entryOf addr r = Some (BanList.mkEntry k stamp) →
  (0 ≤ k)%Z → (k + Z.of_nat (length clocks) ≤ countToBan)%Z →
  withinWindow (secToUnBan * 1000000000) stamp clocks →
  let st := foldl (λ st clock,
                     let '(code, _, r) :=
                       handle respond clock (mkRequest path (Some addr)) st.2 in
                     (st.1 ++ [code], r))
                  (codes, r) clocks in
  st.1 = codes ++ replicate (length clocks) HTTP_NOT_FOUND ∧
  banParameters st.2 countToBan secToUnBan ∧
  unknownEndpoint st.2 path ∧
  mUnmappedHandler st.2 = mUnmappedHandler r ∧
  entryOf addr st.2 = Some (BanList.mkEntry (k + Z.of_nat (length clocks)) (lastStamp stamp clocks)).
Proof.
  induction clocks as [|clock clocks IH];
    intros r codes n w k stamp Hp Hmax Haddr Hunk H404 He Hk Hlen Hwin; simpl in *.
  - rewrite app_nil_r, Z.add_0_r. done.
  - destruct Hwin as [Hfresh Hwin].
    destruct (handle_unknown clock path addr r n w Hp Hmax Haddr Hunk H404)
      as (Hres & Hp' & He').
    { rewrite He. simpl. right. lia. }
    rewrite He in He'. simpl in He'.
    rewrite Z.gtb_ltb, (proj2 (Z.ltb_ge _ _)) in He' by lia.
    pose proof (handle_frame clock (mkRequest path (Some addr)) r) as [Hroot Hum].
    pose proof (unknownEndpoint_handle clock (mkRequest path (Some addr)) r path Hunk) as Hunk'.
    destruct (handle respond clock (mkRequest path (Some addr)) r) as [[code ran] r'].
    simpl in *. injection Hres as -> ->.
    destruct (IH r' (codes ++ [HTTP_NOT_FOUND]) n w (k + 1)%Z (atTracked clock))
      as (H1 & H2 & H3 & H4 & H5); try done; try lia.
    { by rewrite Hum. }
    split_and!; try done.
    + rewrite H1, <- app_assoc. done.
    + by rewrite H4.
    + rewrite H5. do 2 f_equal. lia.
Qed.

(** C5.  On a router with a ban list of threshold [countToBan] and window
    [secToUnBan] seconds (5 and 300 for the GET router of the node service),
    take an address that the list does not know.  If it makes [countToBan]
    GET requests for an unknown endpoint, each within the window of the one
    before, every one of them is answered 404; its next request within the
    window is answered 429 without being dispatched and dates the ban; a
    request up to [secToUnBan] seconds after that is answered 429 without
    being dispatched; and a request for the unknown endpoint that follows
    later than that is answered 404 again and files the address with a count
    of 1. *)
Theorem ban_list_contract addr path (r : UrlRouter.t H) countToBan secToUnBan
    clock1 clocks clockNext clockBanned clockLater reqNext reqBanned :
  banParameters r countToBan secToUnBan →
  (1 ≤ countToBan < BanList.UINT_MAX)%Z →
  addr ≠ "" →
  unknownEndpoint r path →
  respond (mUnmappedHandler r) [] = HTTP_NOT_FOUND →
  entryOf addr r = None →
  Z.of_nat (length (clock1 :: clocks)) = countToBan →
  withinWindow (secToUnBan * 1000000000) (atTracked clock1) clocks →
  getClientAddress reqNext = Some addr →
  getClientAddress reqBanned = Some addr →
  (atExpired clockNext - lastStamp (atTracked clock1) clocks ≤ secToUnBan * 1000000000)%Z →
  (atExpired clockBanned - atBanned clockNext ≤ secToUnBan * 1000000000)%Z →
  (atExpired clockLater - atBanned clockNext > secToUnBan * 1000000000)%Z →
  let counted := unknownGets respond addr path (clock1 :: clocks) r in
  let next := handle respond clockNext reqNext counted.2 in
  let banned := handle respond clockBanned reqBanned next.2 in
  let later := handle respond clockLater (mkRequest path (Some addr)) banned.2 in
  counted.1 = replicate (Z.to_nat countToBan) HTTP_NOT_FOUND ∧
  next.1 = (HTTP_TOO_MANY_REQUESTS, None) ∧
  banned.1 = (HTTP_TOO_MANY_REQUESTS, None) ∧
  later.1.1 = HTTP_NOT_FOUND ∧
  entryOf addr later.2 = Some (BanList.mkEntry 1 (atTracked clockLater)).
Proof.
  intros Hp Hn Haddr Hunk H404 He Hlen Hwin HaN HaB HcN HcB HcL counted next banned later.
  assert (Hmax : (0 ≤ countToBan < BanList.UINT_MAX)%Z) by lia.
  (* the counted request files the address *)
  destruct (handle_unknown clock1 path addr r _ _ Hp Hmax Haddr Hunk H404)
    as (Hres1 & Hp1 & He1); [by rewrite He|].
  rewrite He in He1.
  pose proof (handle_frame clock1 (mkRequest path (Some addr)) r) as [Hroot1 Hum1].
  pose proof (unknownEndpoint_handle clock1 (mkRequest path (Some addr)) r path Hunk) as Hunk1.
  subst later banned next counted. unfold unknownGets. simpl foldl.
  destruct (handle respond clock1 (mkRequest path (Some addr)) r) as [[code1 ran1] r1].
  simpl in Hres1, Hp1, He1, Hroot1, Hum1, Hunk1. injection Hres1 as -> ->.
  (* the others count up to the threshold *)
  simpl in Hlen.
  destruct (unknownGets_counts addr path clocks r1 [HTTP_NOT_FOUND] countToBan
              secToUnBan 1%Z (atTracked clock1))
    as (H1 & Hp5 & Hunk5 & Hum5 & He5); try done; try lia.
  { by rewrite Hum1. }
  simpl in H1 |- *.
  set (counted := foldl _ _ clocks) in *.
  (* the next request starts the ban *)
  destruct (handle_banned clockNext reqNext counted.2 countToBan secToUnBan addr _
              Hp5 Hmax HaN He5) as (HresN & HpN & HeN); simpl; try done.
  { unfold BanList.UINT_MAX in *. lia. }
  rewrite bool_decide_eq_true_2 in HeN by (simpl; lia).
  set (next := handle respond clockNext reqNext counted.2) in *.
  (* while banned *)
  destruct (handle_banned clockBanned reqBanned next.2 countToBan secToUnBan addr _
              HpN Hmax HaB HeN) as (HresB & HpB & HeB); simpl; try done.
  { unfold BanList.UINT_MAX in *. lia. }
  rewrite bool_decide_eq_false_2 in HeB by (simpl; lia).
  set (banned := handle respond clockBanned reqBanned next.2) in *.
  (* after the window *)
  destruct (handle_unknown clockLater path addr banned.2 _ _ HpB Hmax Haddr)
    as (HresL & HpL & HeL).
  { subst banned next. by do 2 apply unknownEndpoint_handle. }
  { subst banned next.
    rewrite !(proj2 (handle_frame _ _ _)), Hum5, Hum1. done. }
  { rewrite HeB. simpl. left. lia. }
  rewrite HeB in HeL. simpl in HeL.
  rewrite (proj2 (Z.gtb_gt _ _)) in HeL by lia.
  split_and!; try done.
  - rewrite H1. replace (Z.to_nat countToBan) with (S (length clocks)) by lia. done.
  - by rewrite HresL.
Qed.
End BanFacts.

Lemma ban_list_contract_witness :
  let r := NodeService.mGetRouter true in
  let respond := NodeService.respond serveOk in
  let bad := mkRequest "/does/not/exist" (Some "10.0.0.1") in
  let counted := unknownGets respond "10.0.0.1" "/does/not/exist"
                 [secs 0; secs 60; secs 120; secs 180; secs 240] r in
  let next := handle respond (secs 300) bad counted.2 in
  let banned := handle respond (secs 450) (mkRequest "/node/1/health" (Some "10.0.0.1")) next.2 in
  let later := handle respond (secs 601) bad banned.2 in
  counted.1 = [404; 404; 404; 404; 404]%Z ∧
  next.1 = (429%Z, None) ∧
  banned.1 = (429%Z, None) ∧
  later.1.1 = 404%Z ∧
  entryOf "10.0.0.1" later.2 = Some (BanList.mkEntry 1 601000000000).
Proof.
  apply (ban_list_contract (NodeService.respond serveOk) "10.0.0.1" "/does/not/exist"
           (NodeService.mGetRouter true) 5 300
           (secs 0) [secs 60; secs 120; secs 180; secs 240] (secs 300) (secs 450) (secs 601)).
  - eexists. split; [reflexivity|]. split; reflexivity.
  - unfold BanList.UINT_MAX. lia.
  - discriminate.
  - reflexivity.
  - reflexivity.
  - reflexivity.
  - reflexivity.
  - simpl. lia.
  - reflexivity.
  - reflexivity.
  - simpl. lia.
  - simpl. lia.
  - simpl. lia.
Defined.

End BanListFacts.

(** ** Facts about the peer registry *)

Section PeerManagerFacts.
Import PeerManager RouterNotions.

Lemma queueEnvelope_withQueue e ep :
  RemoteEndpoint.queueEnvelope e ep = withQueue (RemoteEndpoint.mMessageQueue ep ++ [e]) ep.
Proof. reflexivity. Qed.

Lemma foldl_queueEnvelope msgs ep :
  foldl (λ ep msg, RemoteEndpoint.queueEnvelope msg ep) ep msgs
  = withQueue (RemoteEndpoint.mMessageQueue ep ++ msgs) ep.
Proof.
  revert ep. induction msgs as [|m msgs IH]; intros ep; simpl.
  - rewrite app_nil_r. by destruct ep.
  - rewrite IH. unfold withQueue; simpl. by rewrite <- app_assoc.
Qed.

Lemma trackClient_client sid ep pm :
  findClientPeer sid (trackClient sid ep pm)
  = Some (withQueue (RemoteEndpoint.mMessageQueue ep ++ pending sid pm) ep).
Proof.
  unfold findClientPeer, trackClient; simpl.
  by rewrite lookup_insert_eq, foldl_queueEnvelope.
Qed.

Lemma trackClient_pending sid ep pm :
  pending sid (trackClient sid ep pm) = pending sid pm.
Proof. unfold pending, trackClient; simpl. by rewrite lookup_insert_eq. Qed.

Lemma stashedFor_cons sid c calls :
  stashedFor sid (c :: calls) = stashedFor sid [c] ++ stashedFor sid calls.
Proof. unfold stashedFor; simpl. by destruct (match c with TrackClient _ _ => _ | _ => _ end). Qed.

Lemma step_before sid c pm :
  leaves sid c = true → mClients pm !! sid = None →
  mClients (step c pm) !! sid = None ∧
  pending sid (step c pm) = pending sid pm ++ stashedFor sid [c].
Proof.
  intros Hc Hn. destruct c as [s ep|s e|s]; simpl in *.
  - apply bool_decide_eq_true_1 in Hc.
    unfold trackClient, pending; simpl.
    rewrite !lookup_insert_ne by done. by rewrite app_nil_r.
  - unfold stashEnvelope, pending. case_bool_decide as Hs.
    + subst s. rewrite Hn; simpl. by rewrite lookup_insert_eq.
    + destruct (mClients pm !! s) eqn:E; simpl;
        rewrite ?lookup_insert_ne by done; by rewrite app_nil_r.
  - apply bool_decide_eq_true_1 in Hc.
    unfold clearStashedEnvelopes, pending; simpl.
    rewrite lookup_delete_ne by done. by rewrite app_nil_r.
Qed.

Lemma run_before sid calls pm :
  forallb (leaves sid) calls = true → mClients pm !! sid = None →
  mClients (run calls pm) !! sid = None ∧
  pending sid (run calls pm) = pending sid pm ++ stashedFor sid calls.
Proof.
  revert pm. induction calls as [|c calls IH]; intros pm Hc Hn.
  - simpl. by rewrite app_nil_r.
  - simpl in Hc. apply andb_true_iff in Hc as [Hc Hcs].
    destruct (step_before sid c pm Hc Hn) as [H1 H2].
    destruct (IH (step c pm) Hcs H1) as [H3 H4].
    split; [exact H3|].
    change (run (c :: calls) pm) with (run calls (step c pm)).
    rewrite H4, H2, <- app_assoc, (stashedFor_cons sid c calls). done.
Qed.

Lemma step_after sid c pm client :
  leaves sid c = true → mClients pm !! sid = Some client →
  mClients (step c pm) !! sid
  = Some (withQueue (RemoteEndpoint.mMessageQueue client ++ stashedFor sid [c]) client) ∧
  pending sid (step c pm) = pending sid pm.
Proof.
  intros Hc Hn.
  assert (Hid : withQueue (RemoteEndpoint.mMessageQueue client ++ []) client = client)
    by (rewrite app_nil_r; by destruct client).
  destruct c as [s ep|s e|s]; simpl in *.
  - apply bool_decide_eq_true_1 in Hc. unfold pending; simpl.
    rewrite !lookup_insert_ne by done. by rewrite Hn, Hid.
  - unfold stashEnvelope, pending. case_bool_decide as Hs.
    + subst s. rewrite Hn; simpl. by rewrite lookup_insert_eq.
    + destruct (mClients pm !! s) eqn:E; simpl;
        rewrite ?lookup_insert_ne by done; by rewrite Hn, Hid.
  - apply bool_decide_eq_true_1 in Hc. unfold pending; simpl.
    rewrite lookup_delete_ne by done. by rewrite Hn, Hid.
Qed.

Lemma run_after sid calls pm client :
  forallb (leaves sid) calls = true → mClients pm !! sid = Some client →
  mClients (run calls pm) !! sid
  = Some (withQueue (RemoteEndpoint.mMessageQueue client ++ stashedFor sid calls) client) ∧
  pending sid (run calls pm) = pending sid pm.
Proof.
  revert pm client. induction calls as [|c calls IH]; intros pm client Hc Hn.
  - simpl. rewrite app_nil_r. rewrite Hn. by destruct client.
  - simpl in Hc. apply andb_true_iff in Hc as [Hc Hcs].
    change (run (c :: calls) pm) with (run calls (step c pm)).
    destruct (step_after sid c pm client Hc Hn) as [H1 H2].
    destruct (IH _ _ Hcs H1) as [H3 H4].
    rewrite H3, H4, H2, (stashedFor_cons sid c calls).
    unfold withQueue; simpl. by rewrite <- app_assoc.
Qed.

(** C4.  Envelopes for a session that has no client yet are kept in the
    pending list of the session, in order.  [trackClient] appends the pending
    envelopes, in order, to the send queue of the new client endpoint, in the
    same step (under the lock of the registry) that files the endpoint; it
    does not itself remove them from the pending list, which stays as it
    was.  An envelope stashed by another thread after that step is appended
    to the queue of the client and the pending list does not grow.  So
    whatever the position of [trackClient] among the [stashEnvelope] calls,
    the queue of the client ends up with every envelope stashed for the
    session, once each and in the order of the calls. *)
Theorem trackClient_delivers_stash (sid : uuid) (ep : RemoteEndpoint.t) (pm : t)
    (before after : list Call) :
  mClients pm !! sid = None →
  forallb (leaves sid) before = true →
  forallb (leaves sid) after = true →
  let pm1 := run before pm in
  let pm2 := trackClient sid ep pm1 in
  let pm3 := run after pm2 in
  pending sid pm1 = pending sid pm ++ stashedFor sid before ∧
  findClientPeer sid pm2
    = Some (withQueue (RemoteEndpoint.mMessageQueue ep ++ pending sid pm1) ep) ∧
  pending sid pm2 = pending sid pm1 ∧
  findClientPeer sid pm3
    = Some (withQueue (RemoteEndpoint.mMessageQueue ep ++ pending sid pm
                         ++ stashedFor sid before ++ stashedFor sid after) ep) ∧
  pending sid pm3 = pending sid pm1.
Proof.
  intros Hn Hb Ha pm1 pm2 pm3. subst pm1 pm2 pm3.
  destruct (run_before sid before pm Hb Hn) as [H1 H2].
  pose proof (trackClient_client sid ep (run before pm)) as H3.
  destruct (run_after sid after _ _ Ha H3) as [H4 H5].
  split_and!; [exact H2|exact H3|apply trackClient_pending| |].
  - unfold findClientPeer. rewrite H4, H2.
    unfold withQueue; simpl. by rewrite <- !app_assoc.
  - rewrite H5. apply trackClient_pending.
Qed.
End PeerManagerFacts.

(** ** Facts about routing *)

Section RouteFacts.
Import ThreadedNodeRouter RouteMessage RouteNotions.

Lemma nonempty_app {A} (l : list A) a : nonempty (l ++ [a]) = Some (l ++ [a]).
Proof. by destruct l. Qed.

Lemma default_nonempty {A} (l : list A) : default [] (nonempty l) = l.
Proof. by destruct l. Qed.

Lemma parse_spec local tos :
  let '(ipc, nds, toClient) := parseDestinationAddressLists local tos in
  toClient = existsb forClient tos ∧
  (∀ c, ipc !! c = nonempty (filter (λ a, forComputation local c a = true) tos)) ∧
  (∀ n, nds !! n = nonempty (filter (λ a, forNode local n a = true) tos)).
Proof.
  unfold parseDestinationAddressLists.
  induction tos as [|a tos IH] using rev_ind; [done|].
  rewrite foldl_app; simpl.
  destruct (foldl _ _ tos) as [[ipc nds] toClient].
  destruct IH as (H1 & H2 & H3).
  assert (Hex : existsb forClient (tos ++ [a]) = existsb forClient tos || forClient a).
  { rewrite existsb_app; simpl. by rewrite orb_false_r. }
  unfold forComputation, forNode, forClient in *.
  repeat case_bool_decide; simpl; rewrite Hex; unfold forClient;
    (split_and!; [ rewrite ?bool_decide_eq_true_2, ?bool_decide_eq_false_2 by done;
                   rewrite ?orb_true_r, ?orb_false_r; done | | ]);
    intros k; rewrite filter_app, filter_cons, filter_nil; simpl.
  all: try (destruct (decide (computation a = k)) as [<-|?];
            [rewrite lookup_insert_eq|rewrite lookup_insert_ne by done]).
  all: try (destruct (decide (node a = k)) as [<-|?];
            [rewrite lookup_insert_eq|rewrite lookup_insert_ne by done]).
  all: rewrite ?H2, ?H3, ?default_nonempty.
  all: repeat case_bool_decide; simpl; try congruence;
       try (destruct (decide _) as [?|?]; try done);
       rewrite ?app_nil_r, ?nonempty_app; done.
Qed.

Lemma sendToLocalClient_spec sid env r :
  let r' := sendToLocalClient sid env r in
  clients r' = match clients r !! sid with
               | Some client => <[sid := RemoteEndpoint.queueEnvelope env client]> (clients r)
               | None => clients r
               end ∧
  stash r' = match clients r !! sid with
             | Some _ => stash r
             | None => <[sid := default [] (stash r !! sid) ++ [env]]> (stash r)
             end ∧
  ipcs r' = ipcs r ∧ nodes r' = nodes r.
Proof.
  unfold sendToLocalClient, PeerManager.findClientPeer, PeerManager.stashEnvelope,
    clients, stash, ipcs, nodes.
  destruct (PeerManager.mClients (mPeerManager r) !! sid); done.
Qed.

Lemma sendToLocalComputation_spec sid c env r :
  let r' := sendToLocalComputation sid c env r in
  clients r' = clients r ∧ stash r' = stash r ∧ nodes r' = nodes r ∧
  ipcs r' = match ipcs r !! c with
            | Some dest => <[c := RemoteEndpoint.queueEnvelope env dest]> (ipcs r)
            | None => ipcs r
            end.
Proof.
  unfold sendToLocalComputation, PeerManager.findIpcPeer, clients, stash, ipcs, nodes.
  destruct (PeerManager.mIpc (mPeerManager r) !! c); done.
Qed.

Lemma sendToLocalComputations_spec sid env ks r :
  NoDup ks →
  let r' := foldl (λ r c, sendToLocalComputation sid c env r) r ks in
  clients r' = clients r ∧ stash r' = stash r ∧ nodes r' = nodes r ∧
  ∀ c, ipcs r' !! c = if bool_decide (c ∈ ks)
                      then RemoteEndpoint.queueEnvelope env <$> ipcs r !! c
                      else ipcs r !! c.
Proof.
  revert r. induction ks as [|k ks IH]; intros r Hnd; simpl.
  { split_and!; try done. }
  apply NoDup_cons in Hnd as [Hk Hnd].
  destruct (sendToLocalComputation_spec sid k env r) as (H1 & H2 & H3 & H4).
  destruct (IH (sendToLocalComputation sid k env r) Hnd) as (I1 & I2 & I3 & I4).
  simpl in *. rewrite I1, I2, I3. split_and!; try done.
  intros c. rewrite I4, H4.
  destruct (decide (c = k)) as [->|Hne].
  - rewrite (bool_decide_eq_false_2 (k ∈ ks)) by done.
    rewrite (bool_decide_eq_true_2 (k ∈ k :: ks)) by (apply elem_of_cons; tauto).
    destruct (ipcs r !! k) eqn:E; [by rewrite lookup_insert_eq|by rewrite E].
  - assert (Hl : (match ipcs r !! k with
                  | Some dest => <[k := RemoteEndpoint.queueEnvelope env dest]> (ipcs r)
                  | None => ipcs r end) !! c = ipcs r !! c).
    { destruct (ipcs r !! k); [by rewrite lookup_insert_ne|done]. }
    rewrite Hl. repeat case_bool_decide; try done.
    + exfalso. apply H0. apply elem_of_cons. tauto.
    + exfalso. apply elem_of_cons in H0 as [?|?]; done.
Qed.



Lemma elem_of_keys_map_iter {V} (m : gmap N V) k :
  k ∈ (map_iter m).*1 ↔ is_Some (m !! k).
Proof.
  rewrite list_elem_of_fmap. split.
  - intros [[k' v] [-> H]]. apply elem_of_map_iter in H. by exists v.
  - intros [v H]. exists (k, v). split; [done|]. by apply elem_of_map_iter.
Qed.

Lemma nonempty_Some {A} (l : list A) : l ≠ [] → nonempty l = Some l.
Proof. by destruct l. Qed.

Lemma nonempty_is_Some {A} (l : list A) : is_Some (nonempty l) ↔ l ≠ [].
Proof. destruct l; simpl; split; done. Qed.



End RouteFacts.

(** ** Facts about the connections of other nodes *)

Section ConnectFacts.
Import ThreadedNodeRouter NodeRouter RouteNotions ConnectNotions.


Lemma nodeConnectFilter_mNodeId aPeer reg r :
  mNodeId (nodeConnectFilter aPeer reg r).2 = mNodeId r.
Proof.
  unfold nodeConnectFilter.
  destruct (mFailed reg); [done|]. case_bool_decide; [|done].
  destruct (PeerManager.findNodePeer _ _), (UUID.ltb _ _); try done.
  by destruct (RoutingTable.findNodeInfo _ _).
Qed.




End ConnectFacts.

(** ** Facts about the connections of clients *)

Section ClientConnectFacts.
Import ThreadedNodeRouter NodeRouter RouterNotions RouteNotions.

Lemma notifyService_peers c r :
  mPeerManager (notifyService c r) = mPeerManager r.
Proof. unfold notifyService. by destruct (mServiceEndpoint r). Qed.

End ClientConnectFacts.

(** ** The facts on concrete inputs *)

Section PeerManagerExamples.
Import PeerManager RouterNotions Scenario.

Lemma stash_stays_after_trackClient :
  let pm := stashEnvelope 7%N (toClient7 1) new in
  let pm' := trackClient 7%N client7 pm in
  (RemoteEndpoint.mMessageQueue <$> findClientPeer 7%N pm') = Some [toClient7 1] ∧
  mPendingEnvelopes pm' !! 7%N = Some [toClient7 1].
Proof. split; vm_compute; reflexivity. Qed.

Lemma trackClient_delivers_stash_witness :
  let calls := [StashEnvelope 7%N (toClient7 1); TrackClient 7%N client7;
                StashEnvelope 8%N (toClient7 2); StashEnvelope 7%N (toClient7 3)] in
  findClientPeer 7%N (run calls new) = Some (withQueue [toClient7 1; toClient7 3] client7).
Proof.
  intros calls.
  exact (proj1 (proj2 (proj2 (proj2
           (trackClient_delivers_stash 7%N client7 new
              [StashEnvelope 7%N (toClient7 1)]
              [StashEnvelope 8%N (toClient7 2); StashEnvelope 7%N (toClient7 3)]
              eq_refl eq_refl eq_refl))))).
Defined.
End PeerManagerExamples.

Section RouteExamples.
Import ThreadedNodeRouter RouteMessage RouteNotions Scenario.

End RouteExamples.

Section ConnectExamples.
Import ThreadedNodeRouter NodeRouter RouteNotions ConnectNotions Scenario.


End ConnectExamples.

Section ClientConnectExamples.
Import ThreadedNodeRouter NodeRouter RouterNotions RouteNotions Scenario.

End ClientConnectExamples.

(** ** Facts about paths and the mapping of paths *)

Section SplitFacts.
Import UrlRouter UrlNotions.

Lemma append_cons x (a b : string) : String x a +:+ b = String x (a +:+ b).
Proof. reflexivity. Qed.

Lemma append_nil_l (a : string) : "" +:+ a = a.
Proof. reflexivity. Qed.

Lemma append_assoc (a b c : string) : (a +:+ b) +:+ c = a +:+ (b +:+ c).
Proof.
  induction a as [|x a IH]; [done|]. rewrite !append_cons. f_equal. exact IH.
Qed.

Lemma append_nil_r (a : string) : a +:+ "" = a.
Proof. induction a as [|x a IH]; [done|]. rewrite append_cons. f_equal. exact IH. Qed.

Lemma slashFree_append (a b : string) :
  slashFree (a +:+ b) = slashFree a && slashFree b.
Proof.
  induction a as [|x a IH]; [done|]. rewrite append_cons. simpl.
  by rewrite IH, andb_assoc.
Qed.

(** Reading an element: the characters join the current one. *)
Lemma splitFrom_element cur e rest :
  slashFree e = true → splitFrom cur (e +:+ rest) = splitFrom (cur +:+ e) rest.
Proof.
  revert cur. induction e as [|c e IH]; intros cur Hs.
  - by rewrite append_nil_l, append_nil_r.
  - rewrite append_cons. simpl. simpl in Hs. apply andb_true_iff in Hs as [Hc Hs].
    apply negb_true_iff in Hc. rewrite Hc. rewrite IH by done.
    by rewrite append_assoc.
Qed.

(** Reading slashes: they end the current element, if there is one. *)
Lemma splitFrom_slashes n rest :
  splitFrom "" (slashes n +:+ rest) = splitFrom "" rest.
Proof. induction n as [|n IH]; [done|]. simpl slashes. rewrite append_cons. simpl. exact IH. Qed.

Lemma splitFrom_slashes_cur cur n rest :
  cur ≠ "" → (0 < n)%nat →
  splitFrom cur (slashes n +:+ rest) = cur :: splitFrom "" rest.
Proof.
  intros Hc Hn. destruct n as [|n]; [lia|]. simpl slashes. rewrite append_cons. simpl.
  rewrite (bool_decide_eq_false_2 _ Hc). by rewrite splitFrom_slashes.
Qed.

Lemma splitFrom_end cur n :
  splitFrom cur (slashes n) = if bool_decide (cur = "") then [] else [cur].
Proof.
  destruct n as [|n]; simpl; [done|].
  assert (H : splitFrom "" (slashes n) = []).
  { clear. induction n; simpl; done. }
  rewrite H. by case_bool_decide.
Qed.

Lemma splitFrom_pathOf cur segs trail :
  cur ≠ "" →
  Forall (λ ne : nat * string, element ne.2) segs →
  Forall (λ ne : nat * string, (0 < ne.1)%nat) segs →
  splitFrom cur (pathOf segs trail) = cur :: segs.*2.
Proof.
  revert cur. induction segs as [|[n e] segs IH]; intros cur Hc Hel Hsep; simpl.
  - rewrite splitFrom_end. by rewrite (bool_decide_eq_false_2 _ Hc).
  - apply Forall_cons in Hel as [[He Hs] Hel]. apply Forall_cons in Hsep as [Hn Hsep].
    simpl in *.
    rewrite splitFrom_slashes_cur by done. f_equal.
    rewrite splitFrom_element by done. simpl. by apply IH.
Qed.

(** X1.  [split] ignores leading, trailing and repeated slashes: for a path
    written as elements (non-empty, without '/') with any number of slashes
    before the first one, at least one slash between two of them and any
    number at the end, [split] gives exactly the elements, in order. *)
Theorem split_pathOf (segments : list (nat * string)) (trail : nat) :
  Forall (λ ne : nat * string, element ne.2) segments →
  separated segments →
  split (pathOf segments trail) = segments.*2.
Proof.
  unfold split. destruct segments as [|[n e] segs]; intros Hel Hsep; simpl.
  - by rewrite splitFrom_end.
  - apply Forall_cons in Hel as [[He Hs] Hel]. simpl in *.
    rewrite splitFrom_slashes, splitFrom_element by done. simpl.
    by apply splitFrom_pathOf.
Qed.

Lemma split_pathOf_witness :
  split "//node/1///sessions/" = ["node"; "1"; "sessions"].
Proof.
  apply (split_pathOf [(2%nat, "node"); (1%nat, "1"); (3%nat, "sessions")] 1).
  - repeat constructor; done.
  - repeat constructor.
Defined.

Lemma splitFrom_elements cur path :
  slashFree cur = true → Forall element (splitFrom cur path).
Proof.
  revert cur. induction path as [|c path IH]; intros cur Hs; simpl.
  - case_bool_decide; [constructor|]. by repeat constructor.
  - destruct (Ascii.eqb c "/") eqn:Hc.
    + case_bool_decide.
      * by apply IH.
      * constructor; [done|]. by apply IH.
    + apply IH. rewrite slashFree_append, Hs. simpl. by rewrite Hc.
Qed.

(** X2.  Whatever the path, no element that [split] gives is empty and none
    contains a '/'. *)
Theorem split_elements (path : string) : Forall element (split path).
Proof. by apply splitFrom_elements. Qed.

End SplitFacts.

Section TrieFacts.
Import UrlRouter UrlNotions.
Context {H : Type}.
Implicit Types (n : Node H) (h : H).

Lemma find_store e e' n (cs : list (string * Node H)) :
  find e' (store e n cs) = if bool_decide (e = e') then Some n else find e' cs.
Proof.
  induction cs as [|[k c] cs IH]; simpl.
  - repeat case_bool_decide; done.
  - destruct (decide (k = e)) as [->|Hne].
    + rewrite (bool_decide_eq_true_2 (e = e)) by done. simpl.
      repeat case_bool_decide; done.
    + rewrite (bool_decide_eq_false_2 (k = e)) by done. simpl. rewrite IH.
      repeat case_bool_decide; congruence.
Qed.

(** X3.  A path without wildcards that is added to a node is found again
    under its own elements, whatever else the node maps: the handler that
    runs is the one added last for the path, and no variable is collected. *)
Theorem add_handle_constant (elements : list string) (h : H) (n : Node H)
    (variables : list string) :
  Forall (λ e, e ≠ "*") elements →
  handleNode elements variables (add elements h n) = Some (h, variables).
Proof.
  revert n. induction elements as [|e els IH]; intros n Hc; simpl; [done|].
  apply Forall_cons in Hc as [He Hc].
  rewrite (bool_decide_eq_false_2 _ He). simpl.
  rewrite find_store, bool_decide_eq_true_2 by done. by apply IH.
Qed.

Lemma handleNode_emptyNode q variables :
  handleNode q variables (emptyNode : Node H) = None.
Proof. by destruct q. Qed.

Lemma handleNode_add_emptyNode (pattern : list string) (h : H) (q variables : list string) :
  handleNode q variables (add pattern h emptyNode)
  = (λ c, (h, variables ++ c)) <$> capture pattern q.
Proof.
  revert q variables. induction pattern as [|p ps IH]; intros q variables.
  - destruct q as [|e q]; simpl; [by rewrite app_nil_r|done].
  - destruct q as [|e q]; simpl.
    + by case_bool_decide.
    + case_bool_decide as Hp; simpl.
      * rewrite IH. destruct (capture ps q) as [c|]; simpl; [|done].
        by rewrite <- app_assoc.
      * case_bool_decide as Hpe; [by apply IH|done].
Qed.

(** X4.  On a node that maps one path, a request is handled exactly when it
    matches the path element by element, a wildcard matching any one
    element; the handler gets the elements matched by the wildcards, in
    order, after the variables collected before. *)
Theorem single_route_capture (pattern : list string) (h : H) (q variables : list string) :
  handleNode q variables (add pattern h emptyNode)
  = (λ c, (h, variables ++ c)) <$> capture pattern q.
Proof. apply handleNode_add_emptyNode. Qed.

(** X5.  Constants come before wildcards and there is no way back: once a
    path is added whose first element is a constant that the node did not
    have, every request that starts with this element is matched against the
    new path only, also a request that the wildcard of the node handled
    before. *)
Theorem add_shadows_wildcard (e : string) (elements : list string) (h : H)
    (n : Node H) (q variables : list string) :
  e ≠ "*" →
  find e (mConstants n) = None →
  handleNode (e :: q) variables (add (e :: elements) h n)
  = (λ c, (h, variables ++ c)) <$> capture elements q.
Proof.
  intros He Hf. simpl. rewrite (bool_decide_eq_false_2 _ He). simpl.
  rewrite find_store, bool_decide_eq_true_2 by done. rewrite Hf. simpl.
  apply handleNode_add_emptyNode.
Qed.

End TrieFacts.

(** ** More facts about the ban list *)

Section BanFacts2.
Import UrlRouter BanNotions ServeNotions BanListSummary.

Lemma incr_ne c : BanList.incr c ≠ c.
Proof.
  unfold BanList.incr, BanList.UINT_MAX.
  pose proof (Z.mod_pos_bound (c + 1) (4294967295 + 1) ltac:(lia)) as Hb.
  destruct (decide (0 ≤ c < 4294967295)%Z) as [Hc|Hc].
  - rewrite Z.mod_small by lia. lia.
  - destruct (decide (c = 4294967295%Z)) as [->|Hne]; [done|]. lia.
Qed.

Lemma set_mBanListMap_id bl : BanList.set_mBanListMap (BanList.mBanListMap bl) bl = bl.
Proof. by destruct bl. Qed.

Lemma isBanned_stable addr e1 b1 e2 b2 bl bl1 :
  BanList.isBanned addr e1 b1 bl = (true, bl1) →
  (∀ e, BanList.mBanListMap bl1 !! addr = Some e →
        BanList.hasExpired bl1 (BanList.timeStamp e) e2 = false) →
  BanList.isBanned addr e2 b2 bl1 = (true, bl1).
Proof.
  unfold BanList.isBanned at 1.
  destruct (BanList.mBanListMap bl !! addr) as [which|] eqn:Hl; [|done].
  destruct (BanList.hasExpired bl (BanList.timeStamp which) e1); [done|].
  set (which' := if (BanList.count which =? BanList.mCountToBan bl)%Z
                 then BanList.mkEntry (BanList.incr (BanList.count which)) b1
                 else which).
  intros [= Hge <-] Hfresh.
  assert (Hne : (BanList.count which' =? BanList.mCountToBan bl)%Z = false).
  { subst which'. destruct (Z.eqb_spec (BanList.count which) (BanList.mCountToBan bl)) as [Heq|Hneq].
    - simpl. apply Z.eqb_neq. rewrite <- Heq. apply incr_ne.
    - by apply Z.eqb_neq. }
  unfold BanList.isBanned. simpl. rewrite lookup_insert_eq.
  rewrite (Hfresh which') by (simpl; by rewrite lookup_insert_eq).
  rewrite Hne, Hge. f_equal.
  unfold BanList.set_mBanListMap. simpl. by rewrite insert_insert_eq.
Qed.

Section WithHandlers.
Context {H : Type} (respond : H → list string → Z).


(** X6.  A request that is refused with 429 is not counted and does not date
    the ban again: when a request of an address was refused, every request
    of the address that comes before the entry of the address expires is
    refused too, and leaves the router and its ban list exactly as they
    were. *)
Theorem banned_requests_change_nothing (clock1 clock2 : Readings)
    (req1 req2 : Request) (addr : string) (r : UrlRouter.t H) :
  getClientAddress req1 = Some addr →
  getClientAddress req2 = Some addr →
  (handle respond clock1 req1 r).1 = (HTTP_TOO_MANY_REQUESTS, None) →
  let r1 := (handle respond clock1 req1 r).2 in
  (∀ bl e, mBanList r1 = Some bl → BanList.mBanListMap bl !! addr = Some e →
           BanList.hasExpired bl (BanList.timeStamp e) (atExpired clock2) = false) →
  handle respond clock2 req2 r1 = (HTTP_TOO_MANY_REQUESTS, None, r1).
Proof.
  intros Ha1 Ha2. unfold handle at 1 2. rewrite Ha1.
  destruct (mBanList r) as [bl|] eqn:Hbl.
  - destruct (BanList.isBanned addr (atExpired clock1) (atBanned clock1) bl)
      as [b bl1] eqn:Hb.
    destruct b; simpl.
    + intros _ Hfresh. unfold handle. simpl. rewrite Ha2.
      rewrite (isBanned_stable _ _ _ (atExpired clock2) (atBanned clock2) _ _ Hb)
        by (intros e He; by apply (Hfresh bl1 e)).
      done.
    + destruct (handleNode _ _ _) as [[h vars]|]; simpl; intros [= _ ?]; done.
  - simpl. destruct (handleNode _ _ _) as [[h vars]|]; simpl; intros [= _ ?]; done.
Qed.



End WithHandlers.
End BanFacts2.

Section SummaryFacts.
Import BanList BanListSummary.

Lemma entries_perm bl : entries bl ≡ₚ map_to_list (mBanListMap bl).
Proof. apply merge_sort_Permutation. Qed.

Lemma elem_of_entries bl addr e :
  (addr, e) ∈ entries bl ↔ mBanListMap bl !! addr = Some e.
Proof. rewrite entries_perm. apply elem_of_map_to_list. Qed.

Lemma NoDup_fst_entries bl : NoDup (entries bl).*1.
Proof. rewrite entries_perm. apply NoDup_fst_map_to_list. Qed.

Lemma elem_of_filter_entries (P : string * BanListEntry → Prop)
    `{∀ x, Decision (P x)} bl addr :
  addr ∈ (filter P (entries bl)).*1 ↔
  ∃ e, mBanListMap bl !! addr = Some e ∧ P (addr, e).
Proof.
  rewrite list_elem_of_fmap. split.
  - intros ([a e] & -> & Hin). apply list_elem_of_filter in Hin as [HP Hin].
    apply elem_of_entries in Hin. by exists e.
  - intros (e & Hl & HP). exists (addr, e). split; [done|].
    apply list_elem_of_filter. split; [done|]. by apply elem_of_entries.
Qed.

Lemma cleanup_lookup clock bl addr e :
  mBanListMap (cleanup clock bl) !! addr = Some e ↔
  mBanListMap bl !! addr = Some e ∧ hasExpired bl (timeStamp e) (clock addr) = false.
Proof. unfold cleanup. simpl. by rewrite map_lookup_filter_Some. Qed.

(** X8.  [getSummary] first drops the entries that have expired.  Of the
    entries that are left, its banned list holds the addresses whose count has
    reached the threshold and its tracked list holds the others: no address
    is in both, none is listed twice, and the banned list is what
    [getBanned] gives afterwards, whereas [getTracked] gives the addresses of
    both lists. *)
Theorem getSummary_partition (clock : string → Z) (bl : t) :
  let banned := (getSummary clock bl).1.1 in
  let tracked := (getSummary clock bl).1.2 in
  let bl' := (getSummary clock bl).2 in
  (∀ addr e, mBanListMap bl' !! addr = Some e ↔
             mBanListMap bl !! addr = Some e ∧
             hasExpired bl (timeStamp e) (clock addr) = false) ∧
  (∀ addr, addr ∈ banned ↔
           ∃ e, mBanListMap bl' !! addr = Some e ∧ (mCountToBan bl ≤ count e)%Z) ∧
  (∀ addr, addr ∈ tracked ↔
           ∃ e, mBanListMap bl' !! addr = Some e ∧ (count e < mCountToBan bl)%Z) ∧
  (∀ addr, addr ∈ banned → addr ∉ tracked) ∧
  NoDup banned ∧ NoDup tracked ∧
  getBanned bl' = banned ∧
  (∀ addr, addr ∈ getTracked bl' ↔ addr ∈ banned ∨ addr ∈ tracked).
Proof.
  intros banned tracked bl'. subst banned tracked bl'. unfold getSummary. simpl.
  assert (Hb : ∀ addr, addr ∈ (filter (λ kv : string * BanListEntry,
                                          (mCountToBan (cleanup clock bl) ≤ count kv.2)%Z)
                                       (entries (cleanup clock bl))).*1 ↔
             ∃ e, mBanListMap (cleanup clock bl) !! addr = Some e ∧
                  (mCountToBan bl ≤ count e)%Z).
  { intros addr. by rewrite elem_of_filter_entries. }
  assert (Ht : ∀ addr, addr ∈ (filter (λ kv : string * BanListEntry,
                                          ¬ (mCountToBan (cleanup clock bl) ≤ count kv.2)%Z)
                                       (entries (cleanup clock bl))).*1 ↔
             ∃ e, mBanListMap (cleanup clock bl) !! addr = Some e ∧
                  (count e < mCountToBan bl)%Z).
  { intros addr. rewrite elem_of_filter_entries. simpl.
    split; intros (e & ? & ?); exists e; split; try done; lia. }
  split_and!.
  - intros addr e. apply cleanup_lookup.
  - exact Hb.
  - exact Ht.
  - intros addr [e [He Hc]]%Hb [e' [He' Hc']]%Ht. rewrite He in He'.
    injection He' as <-. lia.
  - eapply sublist_NoDup; [apply (NoDup_fst_entries (cleanup clock bl))|].
    apply fmap_sublist, sublist_filter.
  - eapply sublist_NoDup; [apply (NoDup_fst_entries (cleanup clock bl))|].
    apply fmap_sublist, sublist_filter.
  - reflexivity.
  - intros addr. rewrite Hb, Ht. unfold getTracked. rewrite list_elem_of_fmap. split.
    + intros ([a e] & -> & Hin). apply elem_of_entries in Hin. simpl.
      destruct (decide (mCountToBan bl ≤ count e)%Z); [left|right]; exists e;
        split; try done; lia.
    + intros [[e [He _]]|[e [He _]]]; exists (addr, e); split; try done;
        by apply elem_of_entries.
Qed.

End SummaryFacts.

(** ** More facts about sessions *)

#[local] Instance key_le_trans {V} : Transitive (@key_le V).
Proof. intros a b c. unfold key_le. lia. Qed.

#[local] Instance key_le_total {V} : Total (@key_le V).
Proof. intros a b. unfold key_le. lia. Qed.

Lemma map_iter_sorted {V} (m : gmap N V) : StronglySorted key_le (map_iter m).
Proof. apply StronglySorted_merge_sort; apply _. Qed.

Lemma StronglySorted_filter {A} (R : relation A) (P : A → Prop)
    `{∀ x, Decision (P x)} (l : list A) :
  StronglySorted R l → StronglySorted R (filter P l).
Proof.
  induction 1 as [|x l Hs IH Hall]; [constructor|].
  rewrite filter_cons. destruct (decide (P x)); [|done].
  constructor; [done|]. apply Forall_forall. intros y [_ Hy]%list_elem_of_filter.
  by eapply Forall_forall in Hall.
Qed.

Section SessionFacts2.
Import Session SessionNotions.

Lemma map_iter_empty {V} : map_iter (∅ : gmap N V) = [].
Proof. unfold map_iter. by rewrite map_to_list_empty. Qed.

Lemma elem_of_keys_iter {V} (m : gmap N V) k :
  k ∈ (map_iter m).*1 ↔ is_Some (m !! k).
Proof.
  rewrite list_elem_of_fmap. split.
  - intros [[k' v] [-> H]]. apply elem_of_map_iter in H. by exists v.
  - intros [v H]. exists (k, v). split; [done|]. by apply elem_of_map_iter.
Qed.

Lemma getConfigDelta_same cfg s :
  (∀ k, is_Some (getComputations cfg !! k) ↔ is_Some (mComputations s !! k)) →
  getConfigDelta cfg s = ([], ∅).
Proof.
  intros Hsame.
  pose proof (getConfigDelta_removed cfg s) as Hrem.
  pose proof (getConfigDelta_added cfg s) as Hadd.
  destruct (getConfigDelta cfg s) as [D NC]. simpl in *. f_equal.
  - destruct D as [|k D]; [done|]. exfalso.
    destruct (proj1 (Hrem k) ltac:(left)) as [Hs Hn].
    apply Hsame in Hs. rewrite Hn in Hs. by destruct Hs.
  - apply map_empty. intros k. destruct (NC !! k) as [n|] eqn:E; [|done]. exfalso.
    assert (Hin : k ∈ (map_iter NC).*1) by (apply elem_of_keys_iter; by eexists).
    apply Hadd in Hin as [Hs Hn]. apply Hsame in Hs. rewrite Hn in Hs. by destruct Hs.
Qed.

(** X9.  A modify whose configuration lists exactly the computations that the
    session has touches no computation: [applyNewConfig] returns normally,
    no process is terminated, waited for or spawned, and only the log level
    of the session is set (to the level of the configuration when it has
    one, to the default level otherwise). *)
Theorem modify_with_same_computations (env : Env) (cfg : SessionConfig) (s : t) :
  (∀ k, is_Some (getComputations cfg !! k) ↔ is_Some (mComputations s !! k)) →
  applyNewConfig env cfg s =
    (Returned tt,
     set_mLogLevel (if (0 <=? logLevel cfg)%Z then logLevel cfg else defLogLevel s) s).
Proof.
  intros Hsame. unfold applyNewConfig.
  set (s0 := set_mLogLevel _ s).
  assert (Hd : getConfigDelta cfg s0 = ([], ∅)) by (by apply getConfigDelta_same).
  rewrite Hd. simpl. by rewrite map_iter_empty.
Qed.



(** X11.  The delete of a session always runs to its end.  It sends terminate to
    every computation in the order of their ids, then waits for every one in
    the same order, also after one of them missed its deadline (a modify
    stops there), reports the shutdown of the session with the reason, and
    leaves the session Defunct with the reason recorded.  Every computation
    is kept, marked as expected to terminate: Exited when it exited in time,
    otherwise Terminating when it was Spawned and in its old state when it
    was not. *)
Theorem deleteProc_completes (env : Env) (reason : string) (s : t) :
  keys_ok s →
  let ks := (map_iter (mComputations s)).*1 in
  let s' := deleteProc env reason s in
  mState s' = Defunct ∧ mDeleteReason s' = reason ∧
  actions s' = actions s ++ (ProcessTerminate <$> ks) ++ (ProcessWait <$> ks) ++
               [ShutdownSession (mId s) reason] ∧
  (∀ k, mComputations s' !! k =
        (λ c, Computation.mk (Computation.id c) (Computation.name c)
                (if exitsInTime env k then Exited
                 else match Computation.state c with
                      | Spawned => Terminating
                      | st => st
                      end)
                (Computation.mSentGo c) true) <$> mComputations s !! k).
Proof.
  intros Hok ks s'.
  enough (Hgen :
    mState s' = Defunct ∧ mDeleteReason s' = reason ∧
    actions s' = actions s ++ (ProcessTerminate <$> ks) ++ (ProcessWait <$> ks) ++
                 [ShutdownSession (mId s) reason] ∧
    (∀ k, mComputations s' !! k =
          (λ c, (Computation.waitUntilShutdown (exitsInTime env k)
                   (Computation.shutdown c).1.2).1.2) <$> mComputations s !! k)).
  { destruct Hgen as (H1 & H2 & H3 & H4). split_and!; try done.
    intros k. rewrite H4. destruct (mComputations s !! k) as [c|]; [|done]. simpl.
    f_equal. unfold Computation.waitUntilShutdown, Computation.shutdown,
      Computation.terminate. simpl.
    destruct (exitsInTime env k), c as [i n st go te]; simpl; [by destruct st|].
    by destruct st. }
  subst s'. unfold deleteProc. fold ks.
  assert (Hnd : NoDup ks) by apply NoDup_fst_map_iter.
  destruct (foldl_onComputation (λ _, Computation.shutdown) tt ks s Hnd)
    as (Hc1 & Hl1 & Ha1 & Hm1).
  set (s1 := foldl _ s ks) in *.
  destruct (foldl_onComputation
              (λ k, Computation.waitUntilShutdown (exitsInTime env k)) true ks s1 Hnd)
    as (Hc2 & Hl2 & Ha2 & Hm2).
  set (s2 := foldl _ s1 ks) in *.
  assert (Hin : ∀ k, k ∈ ks → ∃ c, mComputations s !! k = Some c ∧ Computation.id c = k).
  { intros k [c Hc]%elem_of_keys_iter. exists c. split; [done|]. by apply Hok. }
  assert (Ha1' : actions s1 = actions s ++ (ProcessTerminate <$> ks)).
  { rewrite Ha1. f_equal. rewrite <- (concat_singletons ProcessTerminate ks). f_equal.
    apply list_fmap_ext. intros i k Hk.
    apply list_elem_of_lookup_2, Hin in Hk as (c & Hc & Hid). rewrite Hc. simpl.
    by rewrite Hid. }
  assert (Ha2' : actions s2 = actions s1 ++ (ProcessWait <$> ks)).
  { rewrite Ha2. f_equal. rewrite <- (concat_singletons ProcessWait ks). f_equal.
    apply list_fmap_ext. intros i k Hk.
    apply list_elem_of_lookup_2 in Hk. pose proof Hk as Hk'.
    apply Hin in Hk as (c & Hc & Hid). rewrite Hm1, decide_True, Hc by done.
    cbn [from_option fmap option_fmap option_map].
    assert (Hw : ∀ b c', (Computation.waitUntilShutdown b c').2
                         = [ProcessWait (Computation.id c')]) by (by intros [] ?).
    rewrite Hw. unfold Computation.shutdown. cbn [fst snd].
    rewrite id_terminate. simpl. by rewrite Hid. }
  assert (Hid : mId s2 = mId s).
  { assert (Hcc : control s2 = control s) by (rewrite Hc2, Hc1; done).
    unfold control in Hcc. congruence. }
  simpl. split_and!; try done.
  - rewrite Ha2', Ha1', Hid. by rewrite <- !app_assoc.
  - intros k. rewrite Hm2, Hm1.
    destruct (decide (k ∈ ks)) as [Hk|Hk].
    + by rewrite <- option_fmap_compose.
    + destruct (mComputations s !! k) eqn:E; [|done].
      exfalso. apply Hk. apply elem_of_keys_iter. by eexists.
Qed.

End SessionFacts2.

Section SignalFacts.
Import Session SessionNotions.

Lemma map_iter_fmap {V W} (F : V → W) (m : gmap N V) :
  map_iter (F <$> m) = prod_map id F <$> map_iter m.
Proof.
  apply (StronglySorted_unique_strong key_le).
  - intros [k1 w1] [k2 w2] H1 H2 Hle1 Hle2. unfold key_le in *. simpl in *.
    assert (k1 = k2) as -> by lia.
    apply elem_of_map_iter in H1.
    apply list_elem_of_fmap in H2 as ([k v] & [= -> ->] & Hv).
    apply elem_of_map_iter in Hv. rewrite lookup_fmap, Hv in H1. simpl in H1.
    by injection H1 as <-.
  - apply map_iter_sorted.
  - apply (StronglySorted_fmap _ key_le key_le); [by intros [] []|apply map_iter_sorted].
  - rewrite !map_iter_perm. by rewrite map_to_list_fmap.
Qed.

Lemma keys_fmap {V A} (m : gmap N V) (g : uuid → option V → A) :
  (λ k, g k (m !! k)) <$> (map_iter m).*1 = (λ kc, g kc.1 (Some kc.2)) <$> map_iter m.
Proof.
  rewrite <- list_fmap_compose. apply list_fmap_ext. intros i [k v] Hi. simpl.
  apply list_elem_of_lookup_2, elem_of_map_iter in Hi. by rewrite Hi.
Qed.

Lemma signal_computation sid auto d c :
  sd_status d = Some "run" →
  (Computation.signal sid auto d c).1.2
  = if bool_decide (Computation.state c = Spawned) then Computation.set_mSentGo true c else c.
Proof.
  intros Hd. unfold Computation.signal. rewrite Hd. simpl.
  case_bool_decide; simpl; [|done].
  destruct (Computation.mSentGo c) eqn:E; [|done]. simpl. destruct c; simpl in *; by subst.
Qed.

Lemma signalAll_spec d s :
  mComputations (signalAll d s)
  = (λ c, (Computation.signal (mId s) (autoSuspend s) d c).1.2) <$> mComputations s ∧
  actions (signalAll d s)
  = actions s ++ concat ((λ kc : uuid * Computation.t,
                            (Computation.signal (mId s) (autoSuspend s) d kc.2).2)
                         <$> map_iter (mComputations s)).
Proof.
  unfold signalAll.
  destruct (foldl_onComputation
              (λ _, Computation.signal (mId s) (autoSuspend s) d) tt
              (map_iter (mComputations s)).*1 s (NoDup_fst_map_iter _))
    as (_ & _ & Ha & Hm).
  split.
  - apply map_eq. intros k. rewrite Hm, lookup_fmap.
    destruct (decide (k ∈ (map_iter (mComputations s)).*1)) as [|Hn]; [done|].
    destruct (mComputations s !! k) eqn:E; [|done].
    exfalso. apply Hn. apply elem_of_keys_iter. by eexists.
  - rewrite Ha. f_equal. f_equal.
    apply (keys_fmap (mComputations s)
             (λ _ o, from_option
                       (λ c, (Computation.signal (mId s) (autoSuspend s) d c).2) [] o)).
Qed.

Lemma concat_conditional {A B} (P : A → Prop) `{∀ x, Decision (P x)} (g : A → B) l :
  concat ((λ x, if bool_decide (P x) then [g x] else []) <$> l) = g <$> filter P l.
Proof.
  induction l as [|x l IH]; [done|]. rewrite fmap_cons, filter_cons. simpl.
  case_bool_decide; rewrite IH.
  - by rewrite decide_True.
  - by rewrite decide_False.
Qed.

Lemma signal_after_go sid auto d c :
  sd_status d = Some "run" →
  (Computation.signal sid auto d
     (if bool_decide (Computation.state c = Spawned)
      then Computation.set_mSentGo true c else c))
  = (tt, if bool_decide (Computation.state c = Spawned)
         then Computation.set_mSentGo true c else c,
     if bool_decide (Computation.state c = Spawned)
     then [SendControl (Computation.id c) sid "update" d] else []).
Proof.
  intros Hd. destruct (decide (Computation.state c = Spawned)) as [Hs|Hs].
  - rewrite !(bool_decide_eq_true_2 _ Hs). unfold Computation.signal. rewrite Hd. simpl.
    by rewrite (bool_decide_eq_true_2 _ Hs).
  - rewrite !(bool_decide_eq_false_2 _ Hs). unfold Computation.signal. rewrite Hd. simpl.
    by rewrite (bool_decide_eq_false_2 _ Hs).
Qed.

Lemma signal_run d s :
  mState s = Free → sd_status d = Some "run" →
  signal d s =
    (Returned tt,
     if sd_routing d is Some _
     then emit [UpdateSession (mId s) d] (signalAll d s) else signalAll d s).
Proof.
  intros Hf Hd. unfold signal, checkIsFree. rewrite Hf, Hd. simpl.
  assert (Hid : mId (signalAll d s) = mId s).
  { pose proof (signalAll_control d s) as Hc. unfold control in Hc. congruence. }
  rewrite Hid. by destruct (sd_routing d).
Qed.

(** X12.  On a Free session a "run" signal reaches every computation: the
    first one marks each Spawned computation as sent [go] and logs what
    [Computation::signal] sends to each of them in the order of their ids;
    a second "run" signal changes no computation and sends exactly one
    "update" to each Spawned computation, in the same order.  Either signal
    is followed by a session update when it carries routing data. *)
Theorem session_run_signal (d d' : SignalData) (s : t) :
  mState s = Free →
  sd_status d = Some "run" →
  sd_status d' = Some "run" →
  let s1 := (signal d s).2 in
  let s2 := (signal d' s1).2 in
  (signal d s).1 = Returned tt ∧
  mComputations s1
    = (λ c, if bool_decide (Computation.state c = Spawned)
            then Computation.set_mSentGo true c else c) <$> mComputations s ∧
  actions s1
    = actions s ++
      concat ((λ kc : uuid * Computation.t,
                 (Computation.signal (mId s) (autoSuspend s) d kc.2).2)
              <$> map_iter (mComputations s)) ++
      (if sd_routing d is Some _ then [UpdateSession (mId s) d] else []) ∧
  (signal d' s1).1 = Returned tt ∧
  mComputations s2 = mComputations s1 ∧
  actions s2
    = actions s1 ++
      ((λ kc : uuid * Computation.t, SendControl (Computation.id kc.2) (mId s) "update" d')
       <$> filter (λ kc : uuid * Computation.t, Computation.state kc.2 = Spawned)
                  (map_iter (mComputations s))) ++
      (if sd_routing d' is Some _ then [UpdateSession (mId s) d'] else []).
Proof.
  intros Hf Hd Hd' s1 s2.
  set (F := λ c, if bool_decide (Computation.state c = Spawned)
                 then Computation.set_mSentGo true c else c).
  pose proof (signal_run d s Hf Hd) as Hs1.
  destruct (signalAll_spec d s) as [Hm1 Ha1].
  assert (Hm1' : mComputations (signalAll d s) = F <$> mComputations s).
  { rewrite Hm1. apply map_fmap_ext. intros k c _. by apply signal_computation. }
  assert (Hctl : control (signalAll d s) = control s) by apply signalAll_control.
  assert (Hc1 : mComputations s1 = F <$> mComputations s).
  { subst s1. rewrite Hs1. simpl. by destruct (sd_routing d). }
  assert (Hctl1 : control s1 = control s).
  { subst s1. rewrite Hs1. simpl. by destruct (sd_routing d). }
  assert (Hf1 : mState s1 = Free) by (unfold control in Hctl1; congruence).
  assert (Hid1 : mId s1 = mId s) by (unfold control in Hctl1; congruence).
  assert (Hau1 : autoSuspend s1 = autoSuspend s) by (unfold control in Hctl1; congruence).
  pose proof (signal_run d' s1 Hf1 Hd') as Hs2.
  destruct (signalAll_spec d' s1) as [Hm2 Ha2].
  split_and!.
  - by rewrite Hs1.
  - exact Hc1.
  - subst s1. rewrite Hs1. simpl.
    destruct (sd_routing d); simpl; rewrite Ha1; [by rewrite <- app_assoc|by rewrite app_nil_r].
  - by rewrite Hs2.
  - subst s2. rewrite Hs2. simpl.
    assert (Hx : mComputations (signalAll d' s1) = mComputations s1).
    { rewrite Hm2, Hc1, <- map_fmap_compose. apply map_fmap_ext. intros k c _. simpl.
      rewrite Hid1, Hau1. subst F. simpl. by rewrite (signal_after_go _ _ d' c Hd'). }
    by destruct (sd_routing d').
  - assert (Hx : actions (signalAll d' s1)
               = actions s1 ++
                 ((λ kc : uuid * Computation.t,
                     SendControl (Computation.id kc.2) (mId s) "update" d')
                  <$> filter (λ kc : uuid * Computation.t, Computation.state kc.2 = Spawned)
                             (map_iter (mComputations s)))).
    { rewrite Ha2. f_equal. rewrite Hc1, map_iter_fmap, <- list_fmap_compose.
      rewrite <- (concat_conditional
                    (λ kc : uuid * Computation.t, Computation.state kc.2 = Spawned)).
      f_equal. apply list_fmap_ext. intros i [k c] _. simpl.
      rewrite Hid1, Hau1. subst F. simpl. by rewrite (signal_after_go _ _ d' c Hd'). }
    subst s2. rewrite Hs2. simpl. rewrite Hid1.
    destruct (sd_routing d'); simpl; rewrite Hx; [by rewrite <- app_assoc|by rewrite app_nil_r].
Qed.
End SignalFacts.

(** ** More facts about the session manager *)

Section ManagerFacts.
Import SessionNotions ArrasSessions ManagerCalls.





Lemma shutdownAll_sessions env reason a :
  mSessions (shutdownAll env reason a)
  = (λ s, (Session.syncShutdown env reason s).2) <$> mSessions a.
Proof.
  unfold shutdownAll.
  set (f := λ (a : t) (id : uuid),
              match mSessions a !! id with
              | Some session =>
                  set_mSessions
                    (<[id := (Session.syncShutdown env reason session).2]> (mSessions a)) a
              | None => a
              end).
  change (mSessions (set_mClosed true a)) with (mSessions a).
  assert (Hgen : ∀ (L : list uuid) (b : t), NoDup L →
            ∀ k, mSessions (foldl f b L) !! k =
                 if decide (k ∈ L)
                 then (λ s, (Session.syncShutdown env reason s).2) <$> mSessions b !! k
                 else mSessions b !! k).
  { induction L as [|i L IH]; intros b Hnd k; simpl.
    - first [done | destruct (decide (k ∈ [])) as [Hin|]; [by apply elem_of_nil in Hin|done]].
    - apply NoDup_cons in Hnd as [Hi Hnd]. rewrite IH by done.
      assert (Hf : ∀ k', mSessions (f b i) !! k' =
                         if decide (k' = i)
                         then (λ s, (Session.syncShutdown env reason s).2) <$> mSessions b !! k'
                         else mSessions b !! k').
      { intros k'. unfold f. destruct (mSessions b !! i) eqn:E; simpl.
        - destruct (decide (k' = i)) as [->|?].
          + by rewrite lookup_insert_eq, E.
          + by rewrite lookup_insert_ne.
        - destruct (decide (k' = i)) as [->|?]; [by rewrite E|done]. }
      rewrite Hf.
      destruct (decide (k = i)) as [->|Hne].
      + rewrite decide_False by done. by rewrite decide_True by (apply elem_of_cons; tauto).
      + destruct (decide (k ∈ L)).
        * by rewrite decide_True by (apply elem_of_cons; tauto).
        * by rewrite decide_False by (rewrite elem_of_cons; tauto). }
  apply map_eq. intros k.
  rewrite (Hgen _ (set_mClosed true a) (NoDup_fst_map_iter (mSessions a))).
  change (mSessions (set_mClosed true a)) with (mSessions a).
  rewrite lookup_fmap.
  destruct (decide (k ∈ (map_iter (mSessions a)).*1)) as [Hin|Hnin]; [done|].
  destruct (mSessions a !! k) as [s|] eqn:E; [|done].
  exfalso. apply Hnin. apply list_elem_of_fmap. exists (k, s). split; [done|].
  by apply elem_of_map_iter.
Qed.

Lemma shutdownAll_frame env reason a :
  mClosed (shutdownAll env reason a) = true ∧
  mNodeId (shutdownAll env reason a) = mNodeId a.
Proof.
  unfold shutdownAll.
  generalize ((map_iter (mSessions (set_mClosed true a))).*1). intros L.
  assert (H : mClosed (set_mClosed true a) = true ∧ mNodeId (set_mClosed true a) = mNodeId a)
    by done.
  revert H. generalize (set_mClosed true a). intros b.
  revert b. induction L as [|i L IH]; intros b Hb; simpl; [done|].
  apply IH. destruct (mSessions b !! i); done.
Qed.

End ManagerFacts.

Section ManagerFacts2.
Import SessionNotions ArrasSessions ManagerCalls.







Local Opaque Session.deleteProc Session.updateProc.

Lemma operationThread_mShuttingDown env s :
  Session.mShuttingDown (Session.operationThread env s) = Session.mShuttingDown s.
Proof.
  unfold Session.operationThread.
  destruct (Session.mOperationThread s) as [[cfg|r]|]; simpl; [| |done].
  - apply updateProc_frame.
  - apply deleteProc_frame.
Qed.

Lemma syncShutdown_mShuttingDown env reason s :
  Session.mShuttingDown (Session.syncShutdown env reason s).2 = true.
Proof.
  unfold Session.syncShutdown.
  case_bool_decide; [destruct (operationCompletesInTime env)|].
  - case_bool_decide; simpl.
    + by rewrite operationThread_mShuttingDown.
    + by rewrite (proj2 (deleteProc_frame _ _ _)), operationThread_mShuttingDown.
  - done.
  - simpl. by rewrite (proj2 (deleteProc_frame _ _ _)).
Qed.

(** X14.  [shutdownAll] closes the node and shuts every session down: each
    session is what [syncShutdown] makes of it and is flagged as shutting
    down; when running operations end within the bound (and every Busy
    session has its operation thread) every session is Defunct afterwards.
    From then on every create and every modify is refused with a conflict
    (409) and changes nothing. *)
Theorem shutdownAll_closes (env : Env) (reason : string) (a : t) :
  let a' := shutdownAll env reason a in
  mClosed a' = true ∧
  mSessions a' = (λ s, (Session.syncShutdown env reason s).2) <$> mSessions a ∧
  (∀ id s', mSessions a' !! id = Some s' → Session.mShuttingDown s' = true) ∧
  (operationCompletesInTime env = true →
   (∀ id s, mSessions a !! id = Some s → one_operation s) →
   ∀ id s', mSessions a' !! id = Some s' → Session.mState s' = Session.Defunct) ∧
  (∀ ackAfter d, ∃ e, createSession ackAfter d a' = (Error e, a') ∧
                      httpCode e = HTTP_RESOURCE_CONFLICT) ∧
  (∀ d, ∃ e, modifySession d a' = (Error e, a') ∧
             httpCode e = HTTP_RESOURCE_CONFLICT).
Proof.
  intros a'. destruct (shutdownAll_frame env reason a) as [Hc Hn].
  pose proof (shutdownAll_sessions env reason a) as Hs. fold a' in Hc, Hn, Hs.
  split_and!; try done.
  - intros id s'. rewrite Hs, lookup_fmap. intros Hl.
    destruct (mSessions a !! id) as [s|]; [|done]. injection Hl as <-.
    apply syncShutdown_mShuttingDown.
  - intros Hin Hone id s'. rewrite Hs, lookup_fmap. intros Hl.
    destruct (mSessions a !! id) as [s|] eqn:E; [|done]. injection Hl as <-.
    specialize (Hone id s E). unfold Session.syncShutdown. rewrite Hin.
    change (Session.mState (Session.set_mShuttingDown true s)) with (Session.mState s).
    case_bool_decide as Hb; [|apply deleteProc_mState].
    destruct (proj1 Hone Hb) as [op Hop].
    unfold Session.operationThread.
    change (Session.mOperationThread (Session.set_mShuttingDown true s))
      with (Session.mOperationThread s).
    rewrite Hop. destruct op as [cfg|r]; simpl.
    + rewrite updateProc_mState. simpl. rewrite Hb.
      rewrite (bool_decide_eq_true_2 (Session.Busy = Session.Busy)) by done.
      rewrite bool_decide_eq_false_2 by done. apply deleteProc_mState.
    + rewrite deleteProc_mState. rewrite bool_decide_eq_false_2 by done.
      apply deleteProc_mState.
  - intros ackAfter d. rewrite createSession_closed by done. eauto.
  - intros d. unfold modifySession. rewrite Hc. eauto.
Qed.

Local Transparent Session.deleteProc Session.updateProc.

End ManagerFacts2.

Section ManagerFacts3.
Import SessionNotions ArrasSessions ManagerCalls ControllerEvents.

Lemma elem_of_activeSessionIds (a : t) (id : uuid) :
  id ∈ activeSessionIds a ↔
  ∃ s, mSessions a !! id = Some s ∧ Session.mState s ≠ Session.Defunct.
Proof.
  unfold activeSessionIds. rewrite list_elem_of_fmap. split.
  - intros ([k s] & -> & Hin). apply list_elem_of_filter in Hin as [Hact Hin].
    apply elem_of_map_iter in Hin. exists s. split; [done|].
    simpl in Hact. unfold Session.isActive in Hact. by apply bool_decide_eq_true_1 in Hact.
  - intros (s & Hs & Hact). exists (id, s). split; [done|].
    apply list_elem_of_filter. split.
    + simpl. unfold Session.isActive. by apply bool_decide_eq_true_2.
    + by apply elem_of_map_iter.
Qed.

(** X15.  [activeSessionIds] lists exactly the ids under which the manager has
    a session that is not Defunct, in increasing order and without
    repetition; with every session filed under its own id, these are the ids
    that the sessions themselves give, in the order of the map. *)
Theorem activeSessionIds_spec (a : t) :
  (∀ id, id ∈ activeSessionIds a ↔
         ∃ s, mSessions a !! id = Some s ∧ Session.mState s ≠ Session.Defunct) ∧
  StronglySorted N.le (activeSessionIds a) ∧ NoDup (activeSessionIds a) ∧
  (map_Forall (λ id s, Session.mId s = id) (mSessions a) →
   activeSessionIds a
   = (λ kv : uuid * Session.t, Session.mId kv.2)
     <$> filter (λ kv : uuid * Session.t, Session.isActive kv.2 = true)
                (map_iter (mSessions a))).
Proof.
  split; [intros id; apply elem_of_activeSessionIds|].
  unfold activeSessionIds. split_and!.
  - apply (StronglySorted_fmap fst key_le N.le); [by intros [] []|].
    apply StronglySorted_filter. apply map_iter_sorted.
  - eapply sublist_NoDup; [apply (NoDup_fst_map_iter (mSessions a))|].
    apply fmap_sublist, sublist_filter.
  - intros Hok. apply list_fmap_ext. intros i [k s] Hi. simpl.
    apply list_elem_of_lookup_2, list_elem_of_filter in Hi as [_ Hi].
    apply elem_of_map_iter in Hi. symmetry. exact (Hok k s Hi).
Qed.

(** X16.  A delete that is accepted leaves the session among the active ones
    until its operation thread has run; after that the session is no longer
    listed by [activeSessionIds] but is still found by [getSession], Defunct
    and with the reason of the delete, and a client that connects for it is
    kicked with "sessionDeleted" and that reason. *)
Theorem deleted_session_is_not_active (id : uuid) (reason : string) (env : Env)
    (a a1 : t) :
  deleteSession id reason a = (Returned tt, a1) →
  let a2 := operationThread env id a1 in
  id ∈ activeSessionIds a ∧ id ∈ activeSessionIds a1 ∧
  (id ∉ activeSessionIds a2) ∧
  (∃ s, getSession id a2 = Some s ∧ Session.mState s = Session.Defunct ∧
        Session.mDeleteReason s = reason) ∧
  clientConnected id a2 = (KickClient id "sessionDeleted" reason, a2).
Proof.
  intros Hdel a2. unfold deleteSession in Hdel.
  destruct (mSessions a !! id) as [s|] eqn:Hs; [|done].
  unfold Session.asyncDelete in Hdel.
  destruct (Session.mShuttingDown s) eqn:Hsd; [done|].
  destruct (Session.mState s) eqn:Hst; try done. injection Hdel as <-.
  set (s1 := Session.set_mOperationThread (Some (Session.DeleteOp reason))
               (Session.set_mState Session.Busy s)).
  assert (H2 : mSessions a2 !! id = Some (Session.operationThread env s1)).
  { subst a2. unfold operationThread. simpl. by rewrite lookup_alter_eq, lookup_insert_eq. }
  assert (Hd : Session.mState (Session.operationThread env s1) = Session.Defunct ∧
               Session.mDeleteReason (Session.operationThread env s1) = reason).
  { unfold Session.operationThread. simpl. unfold Session.deleteProc. done. }
  destruct Hd as [Hd Hr].
  split_and!.
  - apply elem_of_activeSessionIds. exists s. split; [done|]. by rewrite Hst.
  - apply elem_of_activeSessionIds. exists s1.
    split; [simpl; by rewrite lookup_insert_eq|done].
  - intros (s' & Hs' & Hact)%elem_of_activeSessionIds. rewrite H2 in Hs'.
    injection Hs' as <-. done.
  - eexists. split; [exact H2|done].
  - unfold clientConnected, getSession. rewrite H2.
    unfold Session.isActive. rewrite Hd. rewrite bool_decide_eq_false_2 by (intros ?; done).
    by rewrite Hr.
Qed.

(** X17.  An acknowledgement of the router that comes after [createSession]
    gave up waiting is not lost.  The create fails with an internal server
    error after the full wait of 10 s and files no session; the
    acknowledgement handled afterwards is remembered, so the same create
    made again succeeds without waiting and files the session, Busy. *)
Theorem late_acknowledgement_is_remembered (d : SessionDesc) (cfg : SessionConfig)
    (a : t) :
  mClosed a = false →
  SessionConfig_new d (mNodeId a) = inr cfg →
  mSessions a !! sessionId cfg = None →
  acknowledged None (sessionId cfg) a = false →
  let r1 := createSession None d a in
  let a2 := handleAcknowledge (sessionId cfg) r1.2 in
  let r2 := createSession None d a2 in
  (∃ e, r1.1 = Error e ∧ httpCode e = HTTP_INTERNAL_SERVER_ERROR) ∧
  now r1.2 = (now a + 10000)%Z ∧
  mSessions r1.2 = mSessions a ∧
  r2.1 = Response (getResponse cfg) ∧
  now r2.2 = now a2 ∧
  ∃ s, mSessions r2.2 !! sessionId cfg = Some s ∧ Session.mState s = Session.Busy.
Proof.
  intros Hc Hp Hn Hack r1 a2 r2.
  destruct (createSession_fresh None d a cfg Hc Hp Hn) as (_ & _ & H1).
  rewrite Hack in H1. destruct H1 as (He & Hm & Hnow). fold r1 in He, Hm, Hnow.
  destruct (createSession_frame None d a) as [Hnid Hcl]. fold r1 in Hnid, Hcl.
  assert (Hc2 : mClosed a2 = false) by (subst a2; simpl; congruence).
  assert (Hp2 : SessionConfig_new d (mNodeId a2) = inr cfg)
    by (subst a2; simpl; by rewrite Hnid).
  assert (Hn2 : mSessions a2 !! sessionId cfg = None)
    by (subst a2; simpl; by rewrite Hm).
  assert (Hack2 : acknowledged None (sessionId cfg) a2 = true).
  { subst a2. unfold acknowledged. simpl. by rewrite lookup_insert_eq. }
  split_and!.
  - rewrite He. eauto.
  - exact Hnow.
  - exact Hm.
  - destruct (createSession_fresh None d a2 cfg Hc2 Hp2 Hn2) as (_ & _ & H2).
    rewrite Hack2 in H2. apply H2.
  - subst r2. unfold createSession. rewrite Hc2, Hp2, Hn2.
    unfold ArrasController.initializeSession. subst a2. simpl.
    rewrite lookup_insert_eq. simpl.
    destruct (isThisEntryNode cfg);
      destruct (Session.asyncUpdateConfig _ _) as [[[]|e] s']; simpl; lia.
  - destruct (createSession_fresh None d a2 cfg Hc2 Hp2 Hn2) as (_ & _ & H2).
    rewrite Hack2 in H2. destruct H2 as (_ & s & Hs & Hb & _). fold r2 in Hs.
    exists s. rewrite Hs. by rewrite lookup_insert_eq.
Qed.

End ManagerFacts3.

(** ** More facts about the router *)

Section NodeMapFacts.
Import SessionNodeMaps.

Lemma update_step_spec m knd k :
  let m' := match mMap m !! knd.1 with
            | Some _ => m
            | None => mkSessionNodeMap (mEntryNodeId m)
                                       (<[knd.1 := nodeInfoOf knd.1 knd.2]> (mMap m))
            end in
  mEntryNodeId m' = mEntryNodeId m ∧
  mMap m' !! k = match mMap m !! k with
                 | Some info => Some info
                 | None => if bool_decide (knd.1 = k) then Some (nodeInfoOf k knd.2) else None
                 end.
Proof.
  simpl. destruct (mMap m !! knd.1) eqn:E; simpl.
  - split; [done|]. destruct (mMap m !! k) eqn:Ek; [done|].
    case_bool_decide as Hk; [|done]. congruence.
  - split; [done|]. destruct (decide (knd.1 = k)) as [<-|Hne].
    + by rewrite lookup_insert_eq, E, bool_decide_eq_true_2.
    + rewrite lookup_insert_ne by done. rewrite bool_decide_eq_false_2 by done.
      by destruct (mMap m !! k).
Qed.

(** X18.  [SessionNodeMap::update] only adds nodes: the entry node stays, a
    node the map has keeps its host whatever the update says about it, a new
    node gets the host of its first entry in the update, and an update made
    twice is the same as the update made once. *)
Theorem update_only_adds (nodes : list (uuid * NodeDesc)) (m : SessionNodeMap) :
  mEntryNodeId (update nodes m) = mEntryNodeId m ∧
  (∀ k, mMap (update nodes m) !! k =
        match mMap m !! k with
        | Some info => Some info
        | None => (λ knd : uuid * NodeDesc, nodeInfoOf k knd.2) <$>
                  (snd <$> list_find (λ knd : uuid * NodeDesc, knd.1 = k) nodes)
        end) ∧
  update nodes (update nodes m) = update nodes m.
Proof.
  assert (Hspec : ∀ nodes m,
            mEntryNodeId (update nodes m) = mEntryNodeId m ∧
            ∀ k, mMap (update nodes m) !! k =
                 match mMap m !! k with
                 | Some info => Some info
                 | None => (λ knd : uuid * NodeDesc, nodeInfoOf k knd.2) <$>
                           (snd <$> list_find (λ knd : uuid * NodeDesc, knd.1 = k) nodes)
                 end).
  { clear. induction nodes as [|knd nodes IH]; intros m.
    - split; [done|]. intros k. simpl. by destruct (mMap m !! k).
    - set (m' := match mMap m !! knd.1 with
                   | Some _ => m
                   | None => mkSessionNodeMap (mEntryNodeId m)
                               (<[knd.1 := nodeInfoOf knd.1 knd.2]> (mMap m))
                   end).
      change (update (knd :: nodes) m) with (update nodes m').
      destruct (IH m') as [IHe IHm].
      split; [rewrite IHe; subst m'; apply (update_step_spec m knd knd.1)|].
      intros k. rewrite IHm. subst m'.
      rewrite (proj2 (update_step_spec m knd k)).
      destruct (mMap m !! k) eqn:Ek; [done|].
      case_bool_decide as Hk; simpl.
      + rewrite decide_True by done. done.
      + rewrite decide_False by done. simpl.
        destruct (list_find _ nodes) as [[i x]|]; done. }
  destruct (Hspec nodes m) as [He Hm]. split; [exact He|]. split; [exact Hm|].
  destruct (Hspec nodes (update nodes m)) as [He2 Hm2].
  assert (Hmap : mMap (update nodes (update nodes m)) = mMap (update nodes m)).
  { apply map_eq. intros k. rewrite Hm2, Hm.
    destruct (mMap m !! k); [done|].
    destruct (list_find _ nodes) as [[i x]|]; done. }
  destruct (update nodes (update nodes m)), (update nodes m). simpl in *. congruence.
Qed.

End NodeMapFacts.

Section NodeMapFacts2.
Import SessionNodeMaps.


End NodeMapFacts2.

Section TableFacts.
Import ThreadedNodeRouter NodeRouterTable RouteNotions.

(** X20.  [RoutingTable::findNodeInfo] finds a host for a node exactly when a
    session of the table has the node in its node map, and the host it gives
    is the one that such a session has. *)
Theorem findNodeInfo_spec (k : uuid) (rt : gmap N SessionRoutingData) :
  match RoutingTable.findNodeInfo k rt with
  | Some info => ∃ sid rd, rt !! sid = Some rd ∧ mMap (nodeMap rd) !! k = Some info
  | None => ∀ sid rd, rt !! sid = Some rd → mMap (nodeMap rd) !! k = None
  end.
Proof.
  unfold RoutingTable.findNodeInfo.
  destruct (list_find _ _) as [[i o]|] eqn:E; simpl.
  - apply list_find_Some in E as (Hi & [info ->] & _).
    apply list_lookup_fmap_Some in Hi as ([sid rd] & Heq & Hl). simpl in *.
    apply list_elem_of_lookup_2, elem_of_map_iter in Hl.
    exists sid, rd. done.
  - intros sid rd Hs. apply list_find_None in E.
    rewrite Forall_forall in E.
    destruct (mMap (nodeMap rd) !! k) as [info|] eqn:Ek; [|done].
    exfalso. apply (E (Some info)); [|by eexists].
    apply list_elem_of_fmap. exists (sid, rd). split; [by rewrite <- Ek|].
    by apply elem_of_map_iter.
Qed.

(** X21.  [putSessionRoutingData] never replaces routing data: a session that
    has routing data keeps it, a session that has none gets data made from the
    node map given, the other sessions are untouched, and a second put for
    the session changes nothing.  Only after [deleteSessionRoutingData] does
    a put file the new node map.  (No call of the router releases routing
    data that is still in the table.) *)
Theorem putSessionRoutingData_first_wins (sid : uuid) (nodes nodes' : SessionNodeMap)
    (r : t) :
  let r1 := putSessionRoutingData sid nodes r in
  RoutingTable.sessionRoutingData sid (mRoutingTable r1)
    = Some (default (SessionRoutingData_new sid (mNodeId r) nodes)
                    (RoutingTable.sessionRoutingData sid (mRoutingTable r))) ∧
  (∀ sid', sid' ≠ sid →
     RoutingTable.sessionRoutingData sid' (mRoutingTable r1)
     = RoutingTable.sessionRoutingData sid' (mRoutingTable r)) ∧
  putSessionRoutingData sid nodes' r1 = r1 ∧
  RoutingTable.sessionRoutingData sid
    (mRoutingTable (putSessionRoutingData sid nodes' (deleteSessionRoutingData sid r1)))
    = Some (SessionRoutingData_new sid (mNodeId r) nodes').
Proof.
  intros r1. subst r1. unfold putSessionRoutingData, RoutingTable.sessionRoutingData.
  destruct (mRoutingTable r !! sid) as [rd|] eqn:E; simpl.
  - rewrite E. split_and!; try done.
    unfold deleteSessionRoutingData, RoutingTable.deleteSessionRoutingData. simpl.
    rewrite lookup_delete_eq. unfold addSessionRoutingData, RoutingTable.addSessionRoutingData.
    simpl. rewrite lookup_delete_eq. simpl. by rewrite lookup_insert_eq.
  - unfold addSessionRoutingData, RoutingTable.addSessionRoutingData. rewrite E. simpl.
    rewrite lookup_insert_eq. split_and!; try done.
    + intros sid' Hne. by rewrite lookup_insert_ne.
    + unfold RoutingTable.deleteSessionRoutingData. simpl. rewrite !lookup_delete_eq. simpl.
      by rewrite lookup_insert_eq.
Qed.

End TableFacts.

Section AcceptFacts.
Import ThreadedNodeRouter NodeRouter RouteNotions RouterNotions.

(** X22.  A connection whose registration failed (wrong magic or version) or
    whose type is none of client, node, executor and control is passed by
    every filter: the router is unchanged and the server closes the
    socket. *)
Theorem rejected_registration_changes_nothing (port : Z) (aPeer : N)
    (reg : RegistrationData) (r : t) :
  mFailed reg = true ∨ mType reg = REGISTRATION_OTHER →
  accept port aPeer reg r = (Pass, r) ∧ keepsSocket (accept port aPeer reg r).1 = false.
Proof.
  intros H.
  assert (Ha : accept port aPeer reg r = (Pass, r)).
  { unfold accept, filterChain, clientConnectFilter, nodeConnectFilter, ipcConnectFilter,
      serviceConnectFilter.
    destruct H as [-> | ->]; [done|]. by destruct (mFailed reg). }
  by rewrite Ha.
Qed.

Lemma trackClient_pending_all sid ep pm sid' :
  pending sid' (PeerManager.trackClient sid ep pm) = pending sid' pm.
Proof.
  unfold pending, PeerManager.trackClient. simpl.
  destruct (decide (sid = sid')) as [->|Hne].
  - by rewrite lookup_insert_eq.
  - by rewrite lookup_insert_ne.
Qed.

(** X23.  Accepting a connection never changes the node id or the routing
    table, nor what is pending for any session; the clients, the node peers
    and the computation peers change only for a registration of their own
    type, and a node registration or one of unknown type leaves the
    endpoint of the node service alone. *)
Theorem accept_frame (port : Z) (aPeer : N) (reg : RegistrationData) (r : t) :
  let r' := (accept port aPeer reg r).2 in
  mNodeId r' = mNodeId r ∧ mRoutingTable r' = mRoutingTable r ∧
  (∀ sid, pending sid (mPeerManager r') = pending sid (mPeerManager r)) ∧
  (mType reg ≠ REGISTRATION_CLIENT → clients r' = clients r) ∧
  (mType reg ≠ REGISTRATION_NODE → nodes r' = nodes r) ∧
  (mType reg ≠ REGISTRATION_EXECUTOR → ipcs r' = ipcs r) ∧
  (mType reg = REGISTRATION_NODE ∨ mType reg = REGISTRATION_OTHER →
   mServiceEndpoint r' = mServiceEndpoint r).
Proof.
  unfold accept, filterChain, clientConnectFilter, nodeConnectFilter, ipcConnectFilter,
    serviceConnectFilter, clients, nodes, ipcs.
  destruct (mFailed reg); simpl; [by split_and!|].
  destruct (mType reg) eqn:Ht; simpl.
  - (* client *)
    unfold PeerManager.findClientPeer, RoutingTable.sessionRoutingData, RemoteEndpoint.new.
    destruct (PeerManager.mClients (mPeerManager r) !! reg_sessionId reg); simpl.
    { split_and!; try done; intros [?|?]; done. }
    destruct (mRoutingTable r !! reg_sessionId reg); simpl.
    + destruct (UUID.valid (reg_sessionId reg)); simpl.
      all: unfold notifyClientConnected; rewrite ?notifyService_peers.
      all: unfold notifyService; simpl; destruct (mServiceEndpoint r); simpl.
      all: split_and!; try done; try (intros sid; apply trackClient_pending_all).
      all: intros [?|?]; done.
    + unfold notifyClientConnected, notifyService; simpl.
      destruct (mServiceEndpoint r); simpl.
      all: split_and!; try done; try (intros sid; apply trackClient_pending_all).
      all: intros [?|?]; done.
  - (* node *)
    unfold PeerManager.findNodePeer, RemoteEndpoint.new. simpl.
    destruct (PeerManager.mNodes (mPeerManager r) !! reg_nodeId reg); simpl.
    + destruct (UUID.ltb (reg_nodeId reg) (mNodeId r)); simpl; by split_and!.
    + destruct (UUID.ltb (reg_nodeId reg) (mNodeId r)); simpl; [|by split_and!].
      destruct (RoutingTable.findNodeInfo _ _); simpl; by split_and!.
  - (* executor *)
    unfold RoutingTable.sessionRoutingData, RemoteEndpoint.new, notifyService.
    destruct (mServiceEndpoint r); simpl.
    all: destruct (UUID.valid (reg_sessionId reg)); simpl.
    all: try (destruct (mRoutingTable r !! reg_sessionId reg); simpl).
    all: split_and!; try done; intros [?|?]; done.
  - (* control *)
    destruct (mServiceEndpoint r); simpl.
    all: split_and!; try done; intros [?|?]; done.
  - by split_and!.
Qed.

(** X24.  [kickClient] for a session that has no client drops what is stashed
    for the session and nothing else: the clients and the stashes of other
    sessions are as before, and a client that connects afterwards starts
    with no more than its own queue. *)
Theorem kick_without_client_drops_stash (sid : uuid) (statusJson : string) (r : t) :
  clients r !! sid = None →
  let r1 := kickClient sid statusJson r in
  clients r1 = clients r ∧
  pending sid (mPeerManager r1) = [] ∧
  (∀ sid', sid' ≠ sid → pending sid' (mPeerManager r1) = pending sid' (mPeerManager r)) ∧
  ∀ ep, PeerManager.findClientPeer sid (PeerManager.trackClient sid ep (mPeerManager r1))
        = Some ep.
Proof.
  unfold clients, kickClient, PeerManager.findClientPeer. intros ->. simpl.
  unfold pending, PeerManager.clearStashedEnvelopes. simpl.
  rewrite lookup_delete_eq. split_and!; try done.
  - intros sid' Hne. by rewrite lookup_delete_ne.
  - intros ep. unfold PeerManager.trackClient. simpl.
    by rewrite lookup_insert_eq.
Qed.

Lemma notifyService_mRoutingTable c r :
  mRoutingTable (notifyService c r) = mRoutingTable r.
Proof. unfold notifyService. by destruct (mServiceEndpoint r). Qed.

Lemma notifyService_mServiceEndpoint c r :
  mServiceEndpoint (notifyService c r)
  = RemoteEndpoint.queueEnvelope (mkEnvelope c []) <$> mServiceEndpoint r.
Proof.
  unfold notifyService. destruct (mServiceEndpoint r) eqn:E; simpl; by rewrite ?E.
Qed.

(** X25.  When a computation registers, the node service is told that it is
    "ready" before the endpoint is made, hence also when the connection is
    then refused.  It is refused exactly when its session id is not null and
    the session has no routing data; the computation peers are then
    unchanged and the socket is closed.  Otherwise the new endpoint is filed
    under the computation id, replacing an earlier one, with an empty queue;
    it has a receive thread only when the session id is not null. *)
Theorem executor_registration (port : Z) (aPeer : N) (reg : RegistrationData) (r : t) :
  mFailed reg = false → mType reg = REGISTRATION_EXECUTOR →
  let sid := reg_sessionId reg in
  let cid := reg_computationId reg in
  let v := (accept port aPeer reg r).1 in
  let r' := (accept port aPeer reg r).2 in
  mServiceEndpoint r' =
    RemoteEndpoint.queueEnvelope
      (mkEnvelope (ComputationStatusMessage sid cid "ready") []) <$> mServiceEndpoint r ∧
  if UUID.valid sid then
    match mRoutingTable r !! sid with
    | None =>
        v = Throws "Missing routing data in RemoteEndpoint" ∧ keepsSocket v = false ∧
        ipcs r' = ipcs r
    | Some rd =>
        v = Used ∧
        ipcs r' = <[cid := RemoteEndpoint.mk PEER_IPC cid sid None (Some (Accepted aPeer))
                             (Some (rd_sessionId rd)) true false []]> (ipcs r)
    end
  else
    v = Used ∧
    ipcs r' = <[cid := RemoteEndpoint.mk PEER_IPC cid sid None (Some (Accepted aPeer))
                         None false false []]> (ipcs r).
Proof.
  intros Hf Ht. unfold accept, filterChain, clientConnectFilter, nodeConnectFilter,
    ipcConnectFilter, ipcs. rewrite Hf, Ht. simpl.
  unfold RoutingTable.sessionRoutingData, RemoteEndpoint.new.
  rewrite notifyService_mRoutingTable.
  destruct (UUID.valid (reg_sessionId reg)); simpl.
  - destruct (mRoutingTable r !! reg_sessionId reg) as [rd|] eqn:E; simpl.
    + by rewrite notifyService_mServiceEndpoint, notifyService_peers.
    + by rewrite notifyService_mServiceEndpoint, notifyService_peers.
  - by rewrite notifyService_mServiceEndpoint, notifyService_peers.
Qed.

(** X26.  The first registration of the node service makes the service
    endpoint, with the router port queued as a [RouterInfoMessage] exactly
    when the router has a port of its own (not 0).  A second registration is
    refused: it throws, the socket is closed, the error
    "duplicateServiceConnection" is logged and the endpoint of the first one
    stays as it was. *)
Theorem service_registration (port : Z) (p1 p2 : N) (reg1 reg2 : RegistrationData) (r : t) :
  mFailed reg1 = false → mType reg1 = REGISTRATION_CONTROL →
  mFailed reg2 = false → mType reg2 = REGISTRATION_CONTROL →
  mServiceEndpoint r = None →
  let v1 := (accept port p1 reg1 r).1 in
  let r1 := (accept port p1 reg1 r).2 in
  let v2 := (accept port p2 reg2 r1).1 in
  let r2 := (accept port p2 reg2 r1).2 in
  v1 = Used ∧
  mServiceEndpoint r1 =
    Some (RemoteEndpoint.mk PEER_SERVICE (reg_nodeId reg1) UUID.null None
            (Some (Accepted p1)) None true false
            (if bool_decide (port = 0%Z) then []
             else [mkEnvelope (RouterInfoMessage port) []])) ∧
  v2 = Throws "refusing service connection because one already exists" ∧
  keepsSocket v2 = false ∧
  mServiceEndpoint r2 = mServiceEndpoint r1 ∧
  errors r2 = errors r ++ ["duplicateServiceConnection"].
Proof.
  intros Hf1 Ht1 Hf2 Ht2 Hs.
  unfold accept, filterChain, clientConnectFilter, nodeConnectFilter,
    ipcConnectFilter, serviceConnectFilter.
  rewrite Hf1, Ht1. simpl. rewrite Hs. simpl.
  destruct (decide (port = 0%Z)) as [Hp|Hp].
  - rewrite (bool_decide_eq_false_2 (port ≠ 0%Z)) by (by intros ?).
    rewrite (bool_decide_eq_true_2 (port = 0%Z)) by done.
    simpl. rewrite Hf2, Ht2. done.
  - rewrite (bool_decide_eq_true_2 (port ≠ 0%Z)) by done.
    rewrite (bool_decide_eq_false_2 (port = 0%Z)) by done.
    simpl. rewrite Hf2, Ht2. done.
Qed.

End AcceptFacts.

Section RouteFacts2.
Import ThreadedNodeRouter RouteMessage RouteNotions.

Lemma sendToNodes_frame env rd l : ∀ r,
  clients (sendToNodes env rd l r).2 = clients r ∧
  stash (sendToNodes env rd l r).2 = stash r ∧
  ipcs (sendToNodes env rd l r).2 = ipcs r.
Proof.
  induction l as [|[k addrs] l IH]; intros r; simpl; [done|].
  destruct (PeerManager.findNodePeer k (mPeerManager r)).
  - destruct (IH (set_mPeerManager
                    (PeerManager.trackNode k (RemoteEndpoint.queueEnvelopeTo env addrs t0)
                       (mPeerManager r)) r)) as (H1 & H2 & H3).
    by rewrite H1, H2, H3.
  - destruct (mMap (nodeMap rd) !! k) as [info|]; [|done].
    destruct (IH (set_mPeerManager
                    (PeerManager.trackNode k
                       (RemoteEndpoint.queueEnvelopeTo env addrs
                          (RemoteEndpoint.createNodeRemoteEndpoint k info))
                       (mPeerManager r)) r)) as (H1 & H2 & H3).
    by rewrite H1, H2, H3.
Qed.

Lemma sendToNodes_fails env rd l : ∀ r k addrs,
  NoDup l.*1 → (k, addrs) ∈ l → nodePeer rd k r = None →
  (sendToNodes env rd l r).1 = Some "Failed to find node id in SessionNodeMap".
Proof.
  induction l as [|[k' addrs'] l IH]; intros r k addrs Hnd Hin Hp.
  { by apply elem_of_nil in Hin. }
  rewrite fmap_cons in Hnd. apply NoDup_cons in Hnd as [Hkl Hnd]. simpl in Hkl.
  assert (Hstep : ∀ p, k ≠ k' →
            nodePeer rd k (set_mPeerManager
                             (PeerManager.trackNode k' p (mPeerManager r)) r) = None).
  { intros p Hne. unfold nodePeer, nodes in *. simpl. by rewrite lookup_insert_ne. }
  apply elem_of_cons in Hin as [Heq|Hin].
  - injection Heq as <- <-. simpl. unfold nodePeer, nodes in Hp.
    unfold PeerManager.findNodePeer.
    destruct (PeerManager.mNodes (mPeerManager r) !! k); [done|].
    by destruct (mMap (nodeMap rd) !! k).
  - assert (Hne : k ≠ k').
    { intros ->. apply Hkl. apply list_elem_of_fmap. by exists (k', addrs). }
    simpl. destruct (PeerManager.findNodePeer k' (mPeerManager r)).
    + eapply IH; [done|done|]. by apply Hstep.
    + destruct (mMap (nodeMap rd) !! k'); [|done].
      eapply IH; [done|done|]. by apply Hstep.
Qed.

Lemma forallb_false {A} (f : A → bool) (l : list A) :
  forallb f l = false → ∃ a, a ∈ l ∧ f a = false.
Proof.
  induction l as [|a l IH]; simpl; [done|].
  intros [H|H]%andb_false_iff.
  - exists a. split; [apply elem_of_cons; tauto|done].
  - destruct (IH H) as (b & Hb & Hf). exists b. split; [apply elem_of_cons; tauto|done].
Qed.

Lemma not_is_Some_None {A} (o : option A) : ¬ is_Some o → o = None.
Proof. destruct o; [intros H; exfalso; apply H; by eexists|done]. Qed.

Lemma unroutable_unknown rd e r :
  routable rd e r = false → ∃ n, nodeAddrs rd e n ≠ [] ∧ nodePeer rd n r = None.
Proof.
  unfold routable. intros Hr. apply andb_false_iff in Hr as [Hr|Hr].
  - apply forallb_false in Hr as (a & Hin & Hf).
    apply orb_false_iff in Hf as [Hf H3]. apply orb_false_iff in Hf as [H1 H2].
    apply bool_decide_eq_false_1 in H2, H3.
    exists (node a). split; [|by apply not_is_Some_None].
    unfold nodeAddrs. intros Hnil. apply app_eq_nil in Hnil as [Hnil _].
    assert (Ha : a ∈ filter (λ a0, forNode (rd_nodeId rd) (node a) a0 = true) (to e)).
    { apply list_elem_of_filter. split; [|done]. unfold forNode. rewrite H1. simpl.
      by rewrite !bool_decide_eq_true_2. }
    rewrite Hnil in Ha. by apply elem_of_nil in Ha.
  - apply orb_false_iff in Hr as [Hr H3]. apply orb_false_iff in Hr as [H1 H2].
    apply negb_false_iff in H1. apply bool_decide_eq_false_1 in H3.
    exists (mEntryNodeId (nodeMap rd)). split; [|by apply not_is_Some_None].
    unfold nodeAddrs. rewrite H1, H2. simpl. rewrite bool_decide_eq_true_2 by done.
    intros Hnil. by apply app_eq_nil in Hnil as [_ Hnil].
Qed.

(** X27.  When an envelope is addressed to another node that has no peer on
    record and no host in the node map of the session (or has to go to such
    an entry node for the client), [routeMessage] ends with the [KeyError] of
    [getNodeInfo], but only after the local deliveries: the envelope is
    already in the queue of the client of the session (or stashed for it) and
    in the queues of the local computations addressed, exactly as for an
    envelope that can be routed. *)
Theorem routeMessage_unknown_node (env : Envelope) (rd : SessionRoutingData) (r : t) :
  routable rd env r = false →
  ∃ r', routeMessage env rd r = (Some "Failed to find node id in SessionNodeMap", r') ∧
    clients r' =
      (if toClientHere rd env then
         match clients r !! rd_sessionId rd with
         | Some client =>
             <[rd_sessionId rd := RemoteEndpoint.queueEnvelope env client]> (clients r)
         | None => clients r
         end
       else clients r) ∧
    stash r' =
      (if toClientHere rd env then
         match clients r !! rd_sessionId rd with
         | Some _ => stash r
         | None => <[rd_sessionId rd :=
                       default [] (stash r !! rd_sessionId rd) ++ [env]]> (stash r)
         end
       else stash r) ∧
    (∀ c, ipcs r' !! c =
          if bool_decide (filter (λ a, forComputation (rd_nodeId rd) c a = true) (to env) ≠ [])
          then RemoteEndpoint.queueEnvelope env <$> ipcs r !! c
          else ipcs r !! c).
Proof.
  intros Hun. destruct (unroutable_unknown rd env r Hun) as (n & Hne & Hnone).
  unfold routeMessage.
  pose proof (parse_spec (rd_nodeId rd) (to env)) as Hp.
  destruct (parseDestinationAddressLists (rd_nodeId rd) (to env)) as [[ipc nds] toClient].
  destruct Hp as (Hc & Hi & Hn).
  set (nds1 := if toClient then
                 if isEntryNode rd then nds else withEntryNode rd nds
               else nds).
  set (r1 := if toClient then
               if isEntryNode rd then sendToLocalClient (rd_sessionId rd) env r else r
             else r).
  assert (Hsplit : (if toClient then
                      if isEntryNode rd
                      then (nds, sendToLocalClient (rd_sessionId rd) env r)
                      else (withEntryNode rd nds, r)
                    else (nds, r)) = (nds1, r1)).
  { subst nds1 r1. by destruct toClient, (isEntryNode rd). }
  rewrite Hsplit. clear Hsplit.
  assert (Hnds1 : ∀ n, nds1 !! n = nonempty (nodeAddrs rd env n)).
  { intros k. subst nds1. unfold nodeAddrs. rewrite <- Hc.
    destruct toClient; simpl; [|by rewrite app_nil_r, Hn].
    destruct (isEntryNode rd); simpl; [by rewrite app_nil_r, Hn|].
    unfold withEntryNode. case_bool_decide as He.
    - subst k. by rewrite lookup_insert_eq, Hn, default_nonempty, nonempty_app.
    - rewrite lookup_insert_ne by done. by rewrite app_nil_r, Hn. }
  assert (Hr1 : clients r1 = (if toClientHere rd env then
                   match clients r !! rd_sessionId rd with
                   | Some client =>
                       <[rd_sessionId rd := RemoteEndpoint.queueEnvelope env client]> (clients r)
                   | None => clients r
                   end else clients r) ∧
                stash r1 = (if toClientHere rd env then
                   match clients r !! rd_sessionId rd with
                   | Some _ => stash r
                   | None => <[rd_sessionId rd :=
                                 default [] (stash r !! rd_sessionId rd) ++ [env]]> (stash r)
                   end else stash r) ∧
                ipcs r1 = ipcs r ∧ nodes r1 = nodes r).
  { subst r1. unfold toClientHere. rewrite <- Hc.
    destruct toClient; simpl; [|done].
    destruct (isEntryNode rd); simpl; [|done].
    apply sendToLocalClient_spec. }
  destruct Hr1 as (Hcl & Hst & Hip & Hno).
  destruct (sendToLocalComputations_spec (rd_sessionId rd) env (map_iter ipc).*1 r1
              (NoDup_fst_map_iter ipc)) as (J1 & J2 & J3 & J4).
  set (r2 := foldl (λ r c, sendToLocalComputation (rd_sessionId rd) c env r) r1
                   (map_iter ipc).*1) in *.
  assert (Hpeer : nodePeer rd n r2 = None).
  { unfold nodePeer in *. by rewrite J3, Hno. }
  destruct (sendToNodes_frame env rd (map_iter nds1) r2) as (K1 & K2 & K3).
  pose proof (sendToNodes_fails env rd (map_iter nds1) r2 n (nodeAddrs rd env n)
                (NoDup_fst_map_iter nds1)) as Hfail.
  destruct (sendToNodes env rd (map_iter nds1) r2) as [o r'] eqn:Es. simpl in *.
  exists r'. rewrite Hfail; [|by apply elem_of_map_iter; rewrite Hnds1; apply nonempty_Some
                             |done].
  split; [done|]. rewrite K1, K2, J1, J2, Hcl, Hst. split_and!; try done.
  intros c. rewrite K3, J4, Hip.
  assert (Hiff : c ∈ (map_iter ipc).*1 ↔
                 filter (λ a, forComputation (rd_nodeId rd) c a = true) (to env) ≠ []).
  { rewrite elem_of_keys_map_iter, Hi. apply nonempty_is_Some. }
  repeat case_bool_decide; try done; tauto.
Qed.

End RouteFacts2.

Section ConfigFacts.
Import ConfigNotions.

Lemma collectComputations_spec n comps : ∀ acc res,
  collectComputations n comps acc = inr res →
  Forall (λ e : string * option CompInfo, ∃ cn ci, e = assigns e.1 cn ci) comps ∧
  (∀ id name, res.1 !! id = Some name →
     acc.1 !! id = Some name ∨ (id ≠ UUID.null ∧ assigns name n id ∈ comps)) ∧
  (∀ name p, res.2 !! name = Some p →
     acc.2 !! name = Some p ∨ (p.2 = n ∧ p.1 ≠ UUID.null ∧ assigns name n p.1 ∈ comps)) ∧
  (∀ id, is_Some (acc.1 !! id) → is_Some (res.1 !! id)) ∧
  (∀ name, is_Some (acc.2 !! name) → is_Some (res.2 !! name)) ∧
  (∀ name id, assigns name n id ∈ comps →
     is_Some (res.1 !! id) ∧ is_Some (res.2 !! name)).
Proof.
  induction comps as [|[compName info] comps IH]; intros acc res H; simpl in H.
  - injection H as <-.
    split_and!; [constructor|intros; by left|intros; by left|done|done|].
    intros ?? Hin. by apply elem_of_nil in Hin.
  - destruct info as [[[compNode|] [compId|]]|]; try done.
    case_bool_decide as Hn.
    + subst compNode. destruct (UUID.isNull compId) eqn:Hnull; [done|].
      assert (Hid : compId ≠ UUID.null).
      { unfold UUID.isNull in Hnull. by apply N.eqb_neq in Hnull. }
      destruct (IH _ _ H) as (I1 & I2 & I3 & I4 & I5 & I6). simpl in *.
      split_and!.
      * constructor; [by exists n, compId|done].
      * intros id name Hl. destruct (I2 id name Hl) as [Ha|[? Hin]].
        -- destruct (decide (compId = id)) as [->|Hne].
           ++ rewrite lookup_insert_eq in Ha. injection Ha as <-.
              right. split; [done|]. apply elem_of_cons. by left.
           ++ rewrite lookup_insert_ne in Ha by done. by left.
        -- right. split; [done|]. apply elem_of_cons. by right.
      * intros name p Hl. destruct (I3 name p Hl) as [Ha|(? & ? & Hin)].
        -- destruct (decide (compName = name)) as [->|Hne].
           ++ rewrite lookup_insert_eq in Ha. injection Ha as <-. simpl.
              right. split; [done|]. split; [done|]. apply elem_of_cons. by left.
           ++ rewrite lookup_insert_ne in Ha by done. by left.
        -- right. split; [done|]. split; [done|]. apply elem_of_cons. by right.
      * intros id Hs. apply I4. destruct (decide (compId = id)) as [->|Hne].
        -- rewrite lookup_insert_eq. by eexists.
        -- by rewrite lookup_insert_ne.
      * intros name Hs. apply I5. destruct (decide (compName = name)) as [->|Hne].
        -- rewrite lookup_insert_eq. by eexists.
        -- by rewrite lookup_insert_ne.
      * intros name id [Heq|Hin]%elem_of_cons.
        -- injection Heq as -> ->. split.
           ++ apply I4. rewrite lookup_insert_eq. by eexists.
           ++ apply I5. rewrite lookup_insert_eq. by eexists.
        -- by apply I6.
    + destruct (IH _ _ H) as (I1 & I2 & I3 & I4 & I5 & I6).
      split_and!; try done.
      * constructor; [by exists compNode, compId|done].
      * intros id name Hl. destruct (I2 id name Hl) as [Ha|[? Hin]]; [by left|].
        right. split; [done|]. apply elem_of_cons. by right.
      * intros name p Hl. destruct (I3 name p Hl) as [Ha|(? & ? & Hin)]; [by left|].
        right. split; [done|]. split; [done|]. apply elem_of_cons. by right.
      * intros name id [Heq|Hin]%elem_of_cons; [|by apply I6].
        injection Heq as -> -> ->. done.
Qed.

(** X28.  A session description that parses keeps the node id and takes the
    session id from the config of the node.  Every entry of the computation
    list of the session, also one of another node, names a node and a
    computation id.  The computations of the configuration are exactly those
    that the list assigns to this node, none with a null id, and the
    response has a member for exactly their names, each with the node id of
    this node. *)
Theorem SessionConfig_new_computations (d : SessionDesc) (n : uuid) (cfg : SessionConfig) :
  SessionConfig_new d n = inr cfg →
  let comps := listed d (sessionId cfg) in
  nodeId cfg = n ∧
  (desc_config d !! n ≫= nc_sessionId) = Some (sessionId cfg) ∧
  Forall (λ e : string * option CompInfo, ∃ cn ci, e = assigns e.1 cn ci) comps ∧
  (∀ id name, getComputations cfg !! id = Some name →
     id ≠ UUID.null ∧ assigns name n id ∈ comps) ∧
  (∀ name p, getResponse cfg !! name = Some p →
     p.2 = n ∧ p.1 ≠ UUID.null ∧ assigns name n p.1 ∈ comps) ∧
  (∀ name id, assigns name n id ∈ comps →
     is_Some (getComputations cfg !! id) ∧ is_Some (getResponse cfg !! name)).
Proof.
  unfold SessionConfig_new, listed. intros H.
  destruct (desc_config d !! n ≫= nc_computations) as [defs|]; [|done].
  destruct (desc_config d !! n ≫= nc_sessionId) as [sid|]; [|done].
  destruct (desc_routing d) as [routing|]; [|done]. simpl in H |- *.
  destruct (routing !! sid ≫= sr_computations) as [comps|] eqn:Ec; [|done].
  destruct (collectComputations n comps (∅, ∅)) as [what|[computations response]] eqn:E;
    [done|].
  injection H as <-. simpl. rewrite Ec. simpl.
  destruct (collectComputations_spec n comps _ _ E) as (I1 & I2 & I3 & _ & _ & I6).
  simpl in *. split_and!; try done.
  - intros id name Hl. destruct (I2 id name Hl) as [Ha|?]; [|done].
    by rewrite lookup_empty in Ha.
  - intros name p Hl. destruct (I3 name p Hl) as [Ha|?]; [|done].
    by rewrite lookup_empty in Ha.
Qed.

End ConfigFacts.

Section RouteFacts3.
Import ThreadedNodeRouter RouteMessage RouteNotions.

Lemma parse_unaddressed local tos :
  local ≠ UUID.null →
  Forall (λ a, node a = local ∧ computation a = UUID.null) tos →
  parseDestinationAddressLists local tos = (∅, ∅, false).
Proof.
  intros Hl Hall. unfold parseDestinationAddressLists.
  induction tos as [|a tos IH] using rev_ind; [done|].
  apply Forall_app in Hall as [Hall Ha]. apply Forall_inv in Ha as [Hn Hc].
  rewrite foldl_app, IH by done. simpl.
  rewrite (bool_decide_eq_false_2 (node a = UUID.null)) by congruence.
  rewrite (bool_decide_eq_true_2 (node a = local)) by done.
  rewrite (bool_decide_eq_false_2 (computation a ≠ UUID.null)) by (intros ?; done).
  simpl. rewrite (bool_decide_eq_false_2 (node a ≠ local)) by (intros ?; done). done.
Qed.

(** X29.  A destination on this node with a null computation id is neither for
    the client nor for a computation nor for another node: an envelope with
    only such destinations (or with none) is dropped without an error, and
    the router is unchanged. *)
Theorem routeMessage_drops_unaddressed (env : Envelope) (rd : SessionRoutingData) (r : t) :
  rd_nodeId rd ≠ UUID.null →
  Forall (λ a, node a = rd_nodeId rd ∧ computation a = UUID.null) (to env) →
  routeMessage env rd r = (None, r).
Proof.
  intros Hl Hall. unfold routeMessage.
  rewrite (parse_unaddressed _ _ Hl Hall). simpl.
  assert (He : map_iter (∅ : gmap N (list Address)) = []).
  { unfold map_iter. by rewrite map_to_list_empty. }
  rewrite He. done.
Qed.

End RouteFacts3.

(** ** Examples *)

Section HttpExamples.
Import UrlRouter UrlNotions BanNotions ServeNotions Scenario.

Lemma add_handle_constant_witness :
  handleNode ["node"; "1"; "health"] []
    (add ["node"; "1"; "health"] NodeService.GET_status
         (mRoot (NodeService.mGetRouter false)))
  = Some (NodeService.GET_status, []).
Proof.
  apply (add_handle_constant ["node"; "1"; "health"] NodeService.GET_status).
  repeat constructor; done.
Defined.

Lemma add_shadows_wildcard_witness :
  let n := add ["*"; "status"] NodeService.GET_sessionStatus emptyNode in
  handleNode ["modify"; "status"] [] n = Some (NodeService.GET_sessionStatus, ["modify"]) ∧
  handleNode ["modify"; "status"] [] (add ["modify"] NodeService.GET_sessions n) = None.
Proof.
  intros n. split; [reflexivity|].
  exact (add_shadows_wildcard "modify" [] NodeService.GET_sessions n ["status"] []
           ltac:(done) eq_refl).
Defined.

Lemma banned_requests_change_nothing_witness :
  let respond := NodeService.respond serveOk in
  let bad := mkRequest "/does/not/exist" (Some "10.0.0.1") in
  let r := (unknownGets respond "10.0.0.1" "/does/not/exist"
              [secs 0; secs 1; secs 2; secs 3; secs 4] (NodeService.mGetRouter true)).2 in
  let r1 := (handle respond (secs 5) bad r).2 in
  handle respond (secs 305) (mkRequest "/node/1/health" (Some "10.0.0.1")) r1
  = (HTTP_TOO_MANY_REQUESTS, None, r1).
Proof.
  intros respond bad r r1.
  apply (banned_requests_change_nothing respond (secs 5) (secs 305) bad
           (mkRequest "/node/1/health" (Some "10.0.0.1")) "10.0.0.1" r eq_refl eq_refl).
  - vm_compute. reflexivity.
  - intros bl e Hbl He. vm_compute in Hbl. injection Hbl as <-.
    vm_compute in He. injection He as <-. vm_compute. reflexivity.
Defined.

End HttpExamples.

Section SessionExamples.
Import Session SessionNotions ArrasSessions ManagerCalls ControllerEvents Scenario.

Lemma modify_with_same_computations_witness :
  applyNewConfig envOk cfgAB sessionAB = (Returned tt, sessionAB).
Proof.
  apply (modify_with_same_computations envOk cfgAB sessionAB).
  intros k. rewrite <- !elem_of_dom.
  assert (Hd : dom (getComputations cfgAB) = dom (mComputations sessionAB)).
  { apply (bool_decide_unpack _). vm_compute. exact I. }
  by rewrite Hd.
Defined.


Lemma deleteProc_completes_witness :
  let env := mkEnv (λ k, bool_decide (k = 11%N)) (λ _, LaunchOk) true in
  let s' := deleteProc env "done" sessionAB in
  mState s' = Defunct ∧
  actions s' = [ProcessTerminate 11%N; ProcessTerminate 12%N;
                ProcessWait 11%N; ProcessWait 12%N; ShutdownSession 7%N "done"] ∧
  mComputations s' !! 12%N = Some (Computation.mk 12%N "B" Terminating false true).
Proof.
  intros env s'.
  assert (Hok : keys_ok sessionAB).
  { unfold keys_ok. apply (bool_decide_unpack _). vm_compute. exact I. }
  destruct (deleteProc_completes env "done" sessionAB Hok) as (H1 & _ & H3 & H4).
  split; [exact H1|]. split; [exact H3|]. exact (H4 12%N).
Defined.

Lemma session_run_signal_witness :
  let s1 := (signal runSignal sessionAB).2 in
  actions s1 = [SendControl 11%N 7%N "go" runSignal; SendControl 12%N 7%N "go" runSignal;
                UpdateSession 7%N runSignal] ∧
  actions (signal runSignal s1).2 =
    actions s1 ++ [SendControl 11%N 7%N "update" runSignal;
                   SendControl 12%N 7%N "update" runSignal;
                   UpdateSession 7%N runSignal].
Proof.
  intros s1.
  destruct (session_run_signal runSignal runSignal sessionAB eq_refl eq_refl eq_refl)
    as (_ & _ & H3 & _ & _ & H6).
  split; [exact H3|exact H6].
Defined.


Lemma shutdownAll_closes_witness :
  let a1 := (createSession (Some 5%Z) descAB node1).2 in
  let a' := shutdownAll envOk "node shutdown" a1 in
  mClosed a' = true ∧
  ∀ id s', mSessions a' !! id = Some s' → Session.mShuttingDown s' = true.
Proof.
  intros a1 a'.
  destruct (shutdownAll_closes envOk "node shutdown" a1) as (H1 & _ & H3 & _).
  split; [exact H1|exact H3].
Defined.

Lemma activeSessionIds_spec_witness :
  let a := (createSession (Some 5%Z) descAB node1).2 in
  activeSessionIds a
  = (λ kv : uuid * Session.t, Session.mId kv.2)
    <$> filter (λ kv : uuid * Session.t, Session.isActive kv.2 = true)
               (map_iter (mSessions a)).
Proof.
  intros a. destruct (activeSessionIds_spec a) as (_ & _ & _ & H4).
  apply H4. apply (bool_decide_unpack _). vm_compute. exact I.
Defined.

Lemma deleted_session_is_not_active_witness :
  let a := operationThread envOk 7%N (createSession (Some 5%Z) descAB node1).2 in
  let a1 := (deleteSession 7%N "done" a).2 in
  let a2 := operationThread envOk 7%N a1 in
  7%N ∈ activeSessionIds a1 ∧ (7%N ∉ activeSessionIds a2) ∧
  clientConnected 7%N a2 = (KickClient 7%N "sessionDeleted" "done", a2).
Proof.
  intros a a1 a2.
  destruct (deleted_session_is_not_active 7%N "done" envOk a a1) as (_ & H2 & H3 & _ & H5).
  - vm_compute. reflexivity.
  - split; [exact H2|]. split; [exact H3|exact H5].
Defined.

Lemma late_acknowledgement_is_remembered_witness :
  let r1 := createSession None descAB node1 in
  let a2 := handleAcknowledge 7%N r1.2 in
  let r2 := createSession None descAB a2 in
  now r1.2 = (now node1 + 10000)%Z ∧
  r2.1 = Response (getResponse cfgOfDescAB) ∧ now r2.2 = now a2.
Proof.
  intros r1 a2 r2.
  destruct (late_acknowledgement_is_remembered descAB cfgOfDescAB node1
              eq_refl descAB_parses eq_refl eq_refl) as (_ & H2 & _ & H4 & H5 & _).
  split; [exact H2|]. split; [exact H4|exact H5].
Defined.

End SessionExamples.

Section RouterExamples.
Import ThreadedNodeRouter RouteMessage NodeRouter NodeRouterTable SessionNodeMaps.
Import RouteNotions RouterNotions Scenario.


Lemma findNodeInfo_spec_witness :
  ∃ sid rd, mRoutingTable router2 !! sid = Some rd ∧
            mMap (nodeMap rd) !! 3%N = Some (host 3%N).
Proof. exact (findNodeInfo_spec 3%N (mRoutingTable router2)). Defined.

Lemma putSessionRoutingData_first_wins_witness :
  let other := mkSessionNodeMap 3%N ∅ in
  RoutingTable.sessionRoutingData 7%N
    (mRoutingTable (putSessionRoutingData 7%N other router2)) = Some routing7 ∧
  RoutingTable.sessionRoutingData 7%N
    (mRoutingTable (putSessionRoutingData 7%N other
                      (deleteSessionRoutingData 7%N
                         (putSessionRoutingData 7%N other router2))))
  = Some (SessionRoutingData_new 7%N 2%N other).
Proof.
  intros other.
  destruct (putSessionRoutingData_first_wins 7%N other other router2) as (H1 & _ & _ & H4).
  split; [exact H1|exact H4].
Defined.

Lemma rejected_registration_changes_nothing_witness :
  accept 0 40%N (mkRegistrationData true REGISTRATION_CLIENT 0%N 7%N 0%N) router2
  = (Pass, router2).
Proof.
  apply (rejected_registration_changes_nothing 0 40%N
           (mkRegistrationData true REGISTRATION_CLIENT 0%N 7%N 0%N) router2).
  left. reflexivity.
Defined.

Lemma accept_frame_witness :
  ipcs (accept 0 40%N (nodeReg 3%N) router2WithComp).2 = ipcs router2WithComp ∧
  mServiceEndpoint (accept 0 40%N (nodeReg 3%N) router2WithComp).2
  = mServiceEndpoint router2WithComp.
Proof.
  destruct (accept_frame 0 40%N (nodeReg 3%N) router2WithComp)
    as (_ & _ & _ & _ & _ & H6 & H7).
  split; [apply H6; discriminate|apply H7; left; reflexivity].
Defined.

Lemma kick_without_client_drops_stash_witness :
  let r := (routeMessage (toClient7 1%N) (SessionRoutingData_new 7%N 2%N
                                            (mkSessionNodeMap 2%N ∅)) router2).2 in
  pending 7%N (mPeerManager r) = [toClient7 1%N] ∧
  pending 7%N (mPeerManager (kickClient 7%N "{}" r)) = [] ∧
  PeerManager.findClientPeer 7%N
    (PeerManager.trackClient 7%N client7 (mPeerManager (kickClient 7%N "{}" r)))
  = Some client7.
Proof.
  intros r.
  destruct (kick_without_client_drops_stash 7%N "{}" r eq_refl) as (_ & H2 & _ & H4).
  split; [reflexivity|]. split; [exact H2|exact (H4 client7)].
Defined.

Lemma executor_registration_witness :
  let reg := mkRegistrationData false REGISTRATION_EXECUTOR 0%N 8%N 21%N in
  (accept 0 41%N reg router2).1 = Throws "Missing routing data in RemoteEndpoint" ∧
  ipcs (accept 0 41%N reg router2).2 = ipcs router2.
Proof.
  intros reg.
  destruct (executor_registration 0 41%N reg router2 eq_refl eq_refl) as [_ H].
  exact (conj (proj1 H) (proj2 (proj2 H))).
Defined.

Lemma service_registration_witness :
  let reg := mkRegistrationData false REGISTRATION_CONTROL 2%N 0%N 0%N in
  let r1 := (accept 8087 42%N reg router2).2 in
  RemoteEndpoint.mMessageQueue <$> mServiceEndpoint r1
  = Some [mkEnvelope (RouterInfoMessage 8087) []] ∧
  (accept 8087 43%N reg r1).1
  = Throws "refusing service connection because one already exists" ∧
  mServiceEndpoint (accept 8087 43%N reg r1).2 = mServiceEndpoint r1.
Proof.
  intros reg r1.
  destruct (service_registration 8087 42%N 43%N reg reg router2
              eq_refl eq_refl eq_refl eq_refl eq_refl) as (_ & H2 & H3 & _ & H5 & _).
  split; [|split; [exact H3|exact H5]].
  fold r1 in H2. rewrite H2. reflexivity.
Defined.

Lemma routeMessage_unknown_node_witness :
  let e := mkEnvelope (ApplicationMessage 5%N)
             [mkAddress 7%N 2%N 21%N; mkAddress 7%N 9%N 91%N] in
  ∃ r', routeMessage e routing7 router2WithComp
        = (Some "Failed to find node id in SessionNodeMap", r') ∧
        ipcs r' !! 21%N = Some (RemoteEndpoint.queueEnvelope e comp21).
Proof.
  intros e.
  destruct (routeMessage_unknown_node e routing7 router2WithComp eq_refl)
    as (r' & Hr & _ & _ & Hi).
  exists r'. split; [exact Hr|]. exact (Hi 21%N).
Defined.

End RouterExamples.

Section MoreExamples.
Import ThreadedNodeRouter RouteMessage RouteNotions ConfigNotions Scenario.

Lemma SessionConfig_new_computations_witness :
  assigns "A" 1%N 11%N ∈ listed descAB 7%N ∧
  is_Some (getResponse cfgOfDescAB !! "B").
Proof.
  destruct (SessionConfig_new_computations descAB 1%N cfgOfDescAB descAB_parses)
    as (_ & _ & _ & H4 & _ & H6).
  split; [exact (proj2 (H4 11%N "A" eq_refl))|].
  apply (H6 "B" 12%N). unfold assigns.
  assert (Hl : listed descAB (sessionId cfgOfDescAB)
               = [("A", Some (mkCompInfo (Some 1%N) (Some 11%N)));
                  ("B", Some (mkCompInfo (Some 1%N) (Some 12%N)));
                  ("Z", Some (mkCompInfo (Some 2%N) (Some 26%N)))])
    by (vm_compute; reflexivity).
  rewrite Hl. apply elem_of_cons. right. apply elem_of_cons. by left.
Defined.

Lemma routeMessage_drops_unaddressed_witness :
  routeMessage (mkEnvelope (ApplicationMessage 5%N) [mkAddress 7%N 2%N 0%N])
               routing7 router2WithComp
  = (None, router2WithComp).
Proof.
  apply (routeMessage_drops_unaddressed
           (mkEnvelope (ApplicationMessage 5%N) [mkAddress 7%N 2%N 0%N])
           routing7 router2WithComp).
  - discriminate.
  - repeat constructor.
Defined.

End MoreExamples.
